(** * PharmaCRM trust layer: field vault, consent gate, audit trail,
      subject repository and GDPR erasure.

    A shallow embedding of the backend services
    ([utils/encryption.ts], [middleware/consent-check.ts],
    [middleware/audit.ts], [modules/hcp/hcp.service.ts],
    [modules/hcp/hcp.routes.ts], [modules/compliance/compliance.service.ts])
    over a relational store with three tables, followed by the
    properties of the layer. *)

From Stdlib Require Import ZArith List String Ascii Bool Lia Sorted Permutation.
From stdpp Require Import base option list gmap strings.

Import ListNotations.
Local Open Scope string_scope.
Local Open Scope Z_scope.
Local Open Scope list_scope.

(** ** Part I.  Field vault primitives *)

(** JavaScript strings are modelled as Rocq strings, read as the UTF-8
    byte sequence that [CryptoJS.enc.Utf8.parse] produces. *)

Module Js.

(** The letters A to Z lower-cased, every other byte kept. *)
Definition ascii_lower_char (c : ascii) : ascii :=
  let n := N_of_ascii c in
  if ((65 <=? n) && (n <=? 90))%N then ascii_of_N (n + 32) else c.

Fixpoint ascii_lower (s : string) : string :=
  match s with
  | EmptyString => EmptyString
  | String c rest => String (ascii_lower_char c) (ascii_lower rest)
  end.

(** Every character of [s] is an ASCII character. *)
Fixpoint is_ascii (s : string) : bool :=
  match s with
  | EmptyString => true
  | String c rest => (N_of_ascii c <? 128)%N && is_ascii rest
  end.

(** [String.prototype.toLowerCase] is the engine's: the Unicode default
    case conversion of every character (ECMA-262, 22.1.3.28).  It is a
    parameter of the development; what is fixed of it is its value on
    strings of ASCII characters, where it lower-cases the letters A to
    Z and keeps the rest. *)
Class Engine := {
  toLowerCase : string -> string;
  toLowerCase_ascii : forall s, is_ascii s = true -> toLowerCase s = ascii_lower s
}.

(** Truthiness of a nullable string: [null], [undefined] and [''] are
    falsy. *)
Definition truthy (o : option string) : option string :=
  match o with
  | Some "" => None
  | Some s => Some s
  | None => None
  end.

(** [a || b] on nullable strings. *)
Definition or_else (a b : option string) : option string :=
  match truthy a with
  | Some s => Some s
  | None => b
  end.

End Js.

(** [CryptoJS.SHA256(message).toString()]: FIPS 180-4 SHA-256 of the
    message bytes, printed as 64 lower-case hexadecimal digits.  Words
    are 32-bit, kept in [Z] with the reduction modulo 2^32 written out. *)

Module SHA256.

Definition mask32 : Z := 0xFFFFFFFF.
Definition add32 (x y : Z) : Z := Z.land (x + y) mask32.
Definition rotr (n x : Z) : Z :=
  Z.lor (Z.shiftr x n) (Z.land (Z.shiftl x (32 - n)) mask32).
Definition not32 (x : Z) : Z := Z.lxor x mask32.

Definition Ch (x y z : Z) : Z := Z.lxor (Z.land x y) (Z.land (not32 x) z).
Definition Maj (x y z : Z) : Z :=
  Z.lxor (Z.lxor (Z.land x y) (Z.land x z)) (Z.land y z).
Definition Sigma0 (x : Z) : Z := Z.lxor (Z.lxor (rotr 2 x) (rotr 13 x)) (rotr 22 x).
Definition Sigma1 (x : Z) : Z := Z.lxor (Z.lxor (rotr 6 x) (rotr 11 x)) (rotr 25 x).
Definition sigma0 (x : Z) : Z := Z.lxor (Z.lxor (rotr 7 x) (rotr 18 x)) (Z.shiftr x 3).
Definition sigma1 (x : Z) : Z := Z.lxor (Z.lxor (rotr 17 x) (rotr 19 x)) (Z.shiftr x 10).

Record regs := Regs { ra : Z; rb : Z; rc : Z; rd : Z; re : Z; rf : Z; rg : Z; rh : Z }.

(** The constants of the standard are not listed but derived as the
    standard defines them: the first 32 bits of the fractional parts of
    the cube roots (round constants) and square roots (initial hash
    value) of the first primes. *)
Definition is_prime (n : nat) : bool :=
  forallb (fun d => negb (Nat.eqb (Nat.modulo n d) 0)) (seq 2 (n - 2)).

Definition primes : list Z :=
  Eval vm_compute in map Z.of_nat (List.filter is_prime (seq 2 310)).

(** Integer cube root, one bit at a time from bit [bits - 1] down. *)
Fixpoint cube_root (bits : nat) (n acc : Z) : Z :=
  match bits with
  | O => acc
  | S b =>
      let candidate := acc + Z.shiftl 1 (Z.of_nat b) in
      cube_root b n (if candidate * candidate * candidate <=? n then candidate else acc)
  end.

Definition K : list Z :=
  Eval vm_compute in
    map (fun p => Z.land (cube_root 40 (Z.shiftl p 96) 0) mask32) (firstn 64 primes).

Definition H0 : regs :=
  Eval vm_compute in
    match map (fun p => Z.land (Z.sqrt (Z.shiftl p 64)) mask32) (firstn 8 primes) with
    | [a; b; c; d; e; f; g; h] => Regs a b c d e f g h
    | _ => Regs 0 0 0 0 0 0 0 0
    end.

Definition bytes_of_string (s : string) : list Z :=
  map (fun c => Z.of_N (N_of_ascii c)) (list_ascii_of_string s).

(** Big-endian bytes of [x], [n] of them. *)
Fixpoint be_bytes (n : nat) (x : Z) : list Z :=
  match n with
  | O => []
  | S m => Z.land (Z.shiftr x (8 * Z.of_nat m)) 0xFF :: be_bytes m x
  end.

Definition pad (msg : list Z) : list Z :=
  let len := Z.of_nat (length msg) in
  msg ++ [0x80] ++ repeat 0 (Z.to_nat ((55 - len) mod 64)) ++ be_bytes 8 (8 * len).

Fixpoint be_words (fuel : nat) (bs : list Z) : list Z :=
  match fuel, bs with
  | S f, b0 :: b1 :: b2 :: b3 :: rest =>
      (Z.shiftl b0 24 + Z.shiftl b1 16 + Z.shiftl b2 8 + b3) :: be_words f rest
  | _, _ => []
  end.

(** Message schedule: the sixteen block words extended to sixty-four. *)
Definition schedule (block : list Z) : list Z :=
  fold_left
    (fun w t =>
       w ++ [ add32 (add32 (sigma1 (nth (t - 2) w 0)) (nth (t - 7) w 0))
                    (add32 (sigma0 (nth (t - 15) w 0)) (nth (t - 16) w 0)) ])
    (seq 16 48) block.

Definition round (s : regs) (kw : Z * Z) : regs :=
  let t1 := add32 (add32 (add32 (rh s) (Sigma1 (re s))) (Ch (re s) (rf s) (rg s)))
                  (add32 (fst kw) (snd kw)) in
  let t2 := add32 (Sigma0 (ra s)) (Maj (ra s) (rb s) (rc s)) in
  Regs (add32 t1 t2) (ra s) (rb s) (rc s) (add32 (rd s) t1) (re s) (rf s) (rg s).

Definition compress (h : regs) (block : list Z) : regs :=
  let s := fold_left round (combine K (schedule block)) h in
  Regs (add32 (ra h) (ra s)) (add32 (rb h) (rb s)) (add32 (rc h) (rc s))
       (add32 (rd h) (rd s)) (add32 (re h) (re s)) (add32 (rf h) (rf s))
       (add32 (rg h) (rg s)) (add32 (rh h) (rh s)).

Fixpoint blocks (fuel : nat) (ws : list Z) : list (list Z) :=
  match fuel with
  | O => []
  | S f => match ws with
           | [] => []
           | _ => firstn 16 ws :: blocks f (skipn 16 ws)
           end
  end.

Definition digest_words (msg : list Z) : list Z :=
  let bs := pad msg in
  let ws := be_words (length bs) bs in
  let h := fold_left compress (blocks (length ws) ws) H0 in
  [ra h; rb h; rc h; rd h; re h; rf h; rg h; rh h].

Definition hex_digit (d : Z) : ascii :=
  ascii_of_N (Z.to_N (if d <? 10 then 48 + d else 87 + d)).

Fixpoint hex_of_word (n : nat) (x : Z) : string :=
  match n with
  | O => EmptyString
  | S m => String (hex_digit (Z.land (Z.shiftr x (4 * Z.of_nat m)) 0xF)) (hex_of_word m x)
  end.

Definition hex (msg : string) : string :=
  fold_right (fun w acc => String.append (hex_of_word 8 w) acc) ""
    (digest_words (bytes_of_string msg)).

End SHA256.

(** [CryptoJS.enc.Base64], the text form of a ciphertext (RFC 4648). *)

Module Base64.

(** The digit of a six-bit value (RFC 4648, table 1). *)
Definition digit (v : N) : ascii :=
  ascii_of_N (if v <? 26 then 65 + v
              else if v <? 52 then 71 + v
              else if v <? 62 then v - 4
              else if v =? 62 then 43 else 47)%N.

Definition value (c : ascii) : option N :=
  let n := N_of_ascii c in
  if ((65 <=? n) && (n <=? 90))%N then Some (n - 65)%N
  else if ((97 <=? n) && (n <=? 122))%N then Some (n - 71)%N
  else if ((48 <=? n) && (n <=? 57))%N then Some (n + 4)%N
  else if (n =? 43)%N then Some 62%N
  else if (n =? 47)%N then Some 63%N
  else None.

Definition padding : ascii := "="%char.

(** A character of Base64 text: a digit or the padding character. *)
Definition symbol (c : ascii) : bool :=
  match value c with
  | Some _ => true
  | None => Ascii.eqb c padding
  end.

(** Six bits, most significant first. *)
Definition sextet (b5 b4 b3 b2 b1 b0 : bool) : N :=
  (32 * N.b2n b5 + 16 * N.b2n b4 + 8 * N.b2n b3 + 4 * N.b2n b2 + 2 * N.b2n b1 + N.b2n b0)%N.

(** Three bytes become four digits; a last group of one or two bytes
    is padded.  [Ascii] lists the bits of a byte least significant
    first. *)
Fixpoint encode (bytes : list ascii) : list ascii :=
  match bytes with
  | Ascii a0 a1 a2 a3 a4 a5 a6 a7 :: Ascii b0 b1 b2 b3 b4 b5 b6 b7
      :: Ascii c0 c1 c2 c3 c4 c5 c6 c7 :: rest =>
      digit (sextet a7 a6 a5 a4 a3 a2) :: digit (sextet a1 a0 b7 b6 b5 b4)
      :: digit (sextet b3 b2 b1 b0 c7 c6) :: digit (sextet c5 c4 c3 c2 c1 c0)
      :: encode rest
  | [Ascii a0 a1 a2 a3 a4 a5 a6 a7; Ascii b0 b1 b2 b3 b4 b5 b6 b7] =>
      [digit (sextet a7 a6 a5 a4 a3 a2); digit (sextet a1 a0 b7 b6 b5 b4);
       digit (sextet b3 b2 b1 b0 false false); padding]
  | [Ascii a0 a1 a2 a3 a4 a5 a6 a7] =>
      [digit (sextet a7 a6 a5 a4 a3 a2); digit (sextet a1 a0 false false false false);
       padding; padding]
  | [] => []
  end.

Definition bit (v : N) (i : N) : bool := N.testbit v i.

Definition byte1 (v1 v2 : N) : ascii :=
  Ascii (bit v2 4) (bit v2 5) (bit v1 0) (bit v1 1) (bit v1 2) (bit v1 3) (bit v1 4) (bit v1 5).
Definition byte2 (v2 v3 : N) : ascii :=
  Ascii (bit v3 2) (bit v3 3) (bit v3 4) (bit v3 5) (bit v2 0) (bit v2 1) (bit v2 2) (bit v2 3).
Definition byte3 (v3 v4 : N) : ascii :=
  Ascii (bit v4 0) (bit v4 1) (bit v4 2) (bit v4 3) (bit v4 4) (bit v4 5) (bit v3 0) (bit v3 1).

Fixpoint decode (text : list ascii) : option (list ascii) :=
  match text with
  | [] => Some []
  | d1 :: d2 :: d3 :: d4 :: rest =>
      match value d1, value d2, value d3, value d4 with
      | Some v1, Some v2, Some v3, Some v4 =>
          (fun bytes => byte1 v1 v2 :: byte2 v2 v3 :: byte3 v3 v4 :: bytes) <$> decode rest
      | Some v1, Some v2, Some v3, None =>
          match rest with
          | [] => if Ascii.eqb d4 padding then Some [byte1 v1 v2; byte2 v2 v3] else None
          | _ :: _ => None
          end
      | Some v1, Some v2, None, None =>
          match rest with
          | [] => if Ascii.eqb d3 padding && Ascii.eqb d4 padding
                  then Some [byte1 v1 v2] else None
          | _ :: _ => None
          end
      | _, _, _, _ => None
      end
  | _ => None
  end.

(** The number of characters that encode [n] bytes. *)
Definition length_of (n : nat) : nat := (4 * ((n + 2) / 3))%nat.

(** [s] is made of digits and padding characters. *)
Fixpoint text (s : string) : bool :=
  match s with
  | EmptyString => true
  | String c rest => symbol c && text rest
  end.

End Base64.

(** ** Part II.  Data model *)

Abbreviation UUID := string (only parsing).

(** Instants are milliseconds since the epoch. *)
Abbreviation Timestamp := Z (only parsing).

(** Values held in the [jsonb] columns and in audit snapshots. *)
Inductive Json :=
| JBool (b : bool)
| JString (s : string)
| JIsoDate (t : Timestamp).

Abbreviation JsonObject := (list (string * Json)) (only parsing).

Module ConsentStatus.
Inductive t := GRANTED | REVOKED | PENDING | EXPIRED.
Definition to_string (s : t) : string :=
  match s with
  | GRANTED => "granted" | REVOKED => "revoked"
  | PENDING => "pending" | EXPIRED => "expired"
  end.
End ConsentStatus.

Module ConsentType.
Inductive t := EMAIL | PHONE | VISIT | REMOTE_DETAILING | DATA_PROCESSING | MARKETING.
Definition to_string (c : t) : string :=
  match c with
  | EMAIL => "email" | PHONE => "phone" | VISIT => "visit"
  | REMOTE_DETAILING => "remote_detailing"
  | DATA_PROCESSING => "data_processing" | MARKETING => "marketing"
  end.
End ConsentType.

Module AuditAction.
Inductive t :=
| CREATE | UPDATE | DELETE | VIEW | EXPORT
| LOGIN | LOGOUT | CONSENT_CHANGE | AI_DECISION.
End AuditAction.

#[global] Instance ConsentStatus_eq_dec : EqDecision ConsentStatus.t.
Proof. solve_decision. Defined.
#[global] Instance ConsentType_eq_dec : EqDecision ConsentType.t.
Proof. solve_decision. Defined.
#[global] Instance AuditAction_eq_dec : EqDecision AuditAction.t.
Proof. solve_decision. Defined.

(** *** Column types of the store *)

Module Pg.

(** A byte that continues a UTF-8 character ([10xxxxxx]); [Ascii]
    lists the bits of a byte least significant first. *)
Definition continuation (c : ascii) : bool :=
  match c with
  | Ascii _ _ _ _ _ _ b6 b7 => b7 && negb b6
  end.

(** The first [n] characters of [s]. *)
Fixpoint fit (n : nat) (s : string) : string :=
  match s with
  | EmptyString => EmptyString
  | String c rest =>
      if continuation c then String c (fit n rest)
      else match n with
           | O => EmptyString
           | S m => String c (fit m rest)
           end
  end.

(** What follows the first [n] characters of [s]. *)
Fixpoint excess (n : nat) (s : string) : string :=
  match s with
  | EmptyString => EmptyString
  | String c rest =>
      if continuation c then excess n rest
      else match n with
           | O => s
           | S m => excess m rest
           end
  end.

Fixpoint blank (s : string) : bool :=
  match s with
  | EmptyString => true
  | String c rest => Ascii.eqb c " " && blank rest
  end.

(** [character varying(n)]: a value of more than [n] characters is
    refused, unless the characters beyond the [n]-th are all spaces,
    which are then dropped. *)
Definition varchar (n : nat) (v : string) : option string :=
  if blank (excess n v) then Some (fit n v) else None.

(** [integer] *)
Definition int4 (v : Z) : bool := (-2147483648 <=? v) && (v <=? 2147483647).

End Pg.

Inductive DbFailure :=
| ConnectionLost
| StringTooLong (column : string)
| NumericOutOfRange (column : string)
| CheckViolation (column : string)
| UniqueViolation (column : string)
| ForeignKeyViolation (column : string).

(** The first failure among [checks], in order. *)
Definition first_failure (checks : list (option DbFailure)) : option DbFailure :=
  fold_right (fun check rest => match check with Some why => Some why | None => rest end)
             None checks.

(** *** Table [hcps] (migration 001) *)
Module Hcps.

Record row := Row {
  id : UUID;
  external_id : option string;
  first_name_encrypted : string;
  first_name_hash : string;
  last_name_encrypted : string;
  last_name_hash : string;
  email_encrypted : option string;
  email_hash : option string;
  phone_encrypted : option string;
  phone_hash : option string;
  specialty : string;
  sub_specialty : option string;
  influence_level : string;
  primary_institution_id : option UUID;
  territory_id : option UUID;
  title : option string;
  years_of_practice : option Z;
  languages : list string;
  therapeutic_areas : list string;
  metadata : JsonObject;
  is_active : bool;
  created_at : Timestamp;
  updated_at : Timestamp;
  deleted_at : option Timestamp
}.

(** The object handed to [.update(...)]: a column is assigned when
    its entry is [Some]; [Some None] assigns SQL [NULL]. *)
Record updates := Updates {
  set_external_id : option (option string);
  set_first_name_encrypted : option string;
  set_first_name_hash : option string;
  set_last_name_encrypted : option string;
  set_last_name_hash : option string;
  set_email_encrypted : option (option string);
  set_email_hash : option (option string);
  set_phone_encrypted : option (option string);
  set_phone_hash : option (option string);
  set_specialty : option string;
  set_sub_specialty : option (option string);
  set_influence_level : option string;
  set_primary_institution_id : option (option UUID);
  set_territory_id : option (option UUID);
  set_title : option (option string);
  set_years_of_practice : option (option Z);
  set_languages : option (list string);
  set_therapeutic_areas : option (list string);
  set_metadata : option JsonObject;
  set_is_active : option bool;
  set_updated_at : option Timestamp;
  set_deleted_at : option (option Timestamp)
}.

Definition assign {A} (o : option A) (old : A) : A :=
  match o with Some v => v | None => old end.

Definition apply (u : updates) (r : row) : row :=
  {| id := id r;
     external_id := assign (set_external_id u) (external_id r);
     first_name_encrypted := assign (set_first_name_encrypted u) (first_name_encrypted r);
     first_name_hash := assign (set_first_name_hash u) (first_name_hash r);
     last_name_encrypted := assign (set_last_name_encrypted u) (last_name_encrypted r);
     last_name_hash := assign (set_last_name_hash u) (last_name_hash r);
     email_encrypted := assign (set_email_encrypted u) (email_encrypted r);
     email_hash := assign (set_email_hash u) (email_hash r);
     phone_encrypted := assign (set_phone_encrypted u) (phone_encrypted r);
     phone_hash := assign (set_phone_hash u) (phone_hash r);
     specialty := assign (set_specialty u) (specialty r);
     sub_specialty := assign (set_sub_specialty u) (sub_specialty r);
     influence_level := assign (set_influence_level u) (influence_level r);
     primary_institution_id :=
       assign (set_primary_institution_id u) (primary_institution_id r);
     territory_id := assign (set_territory_id u) (territory_id r);
     title := assign (set_title u) (title r);
     years_of_practice := assign (set_years_of_practice u) (years_of_practice r);
     languages := assign (set_languages u) (languages r);
     therapeutic_areas := assign (set_therapeutic_areas u) (therapeutic_areas r);
     metadata := assign (set_metadata u) (metadata r);
     is_active := assign (set_is_active u) (is_active r);
     created_at := created_at r;
     updated_at := assign (set_updated_at u) (updated_at r);
     deleted_at := assign (set_deleted_at u) (deleted_at r) |}.

(** The empty object [{}]. *)
Definition nothing : updates :=
  Updates None None None None None None None None None None None
          None None None None None None None None None None None.

(** The assignment of every column of [r], as [insert] makes it. *)
Definition assignments (r : row) : updates :=
  {| set_external_id := Some (external_id r);
     set_first_name_encrypted := Some (first_name_encrypted r);
     set_first_name_hash := Some (first_name_hash r);
     set_last_name_encrypted := Some (last_name_encrypted r);
     set_last_name_hash := Some (last_name_hash r);
     set_email_encrypted := Some (email_encrypted r);
     set_email_hash := Some (email_hash r);
     set_phone_encrypted := Some (phone_encrypted r);
     set_phone_hash := Some (phone_hash r);
     set_specialty := Some (specialty r);
     set_sub_specialty := Some (sub_specialty r);
     set_influence_level := Some (influence_level r);
     set_primary_institution_id := Some (primary_institution_id r);
     set_territory_id := Some (territory_id r);
     set_title := Some (title r);
     set_years_of_practice := Some (years_of_practice r);
     set_languages := Some (languages r);
     set_therapeutic_areas := Some (therapeutic_areas r);
     set_metadata := Some (metadata r);
     set_is_active := Some (is_active r);
     set_updated_at := Some (updated_at r);
     set_deleted_at := Some (deleted_at r) |}.

(** The values of [t.enum('specialty', ...)] and
    [t.enum('influence_level', ...)], which the store keeps as check
    constraints. *)
Definition specialties : list string :=
  ["cardiology"; "oncology"; "neurology"; "endocrinology";
   "pulmonology"; "rheumatology"; "gastroenterology"; "dermatology";
   "psychiatry"; "general_practice"; "internal_medicine"; "pediatrics"; "other"].

Definition influence_levels : list string :=
  ["key_opinion_leader"; "high"; "medium"; "low"].

Definition too_long (n : nat) (column : string) (v : option string) : option DbFailure :=
  match v with
  | Some s =>
      match Pg.varchar n s with
      | Some _ => None
      | None => Some (StringTooLong column)
      end
  | None => None
  end.

Definition out_of_range (column : string) (v : option Z) : option DbFailure :=
  match v with
  | Some n => if Pg.int4 n then None else Some (NumericOutOfRange column)
  | None => None
  end.

Definition not_among (values : list string) (column : string) (v : option string)
    : option DbFailure :=
  match v with
  | Some s => if bool_decide (s ∈ values) then None else Some (CheckViolation column)
  | None => None
  end.

(** An assigned value that is not of its column's type:
    [t.integer(...)], then the [t.string(name, n)] columns in the order
    of the table, [n] being 255 where the migration gives none.  SQL
    [NULL] is of every type. *)
Definition type_error (u : updates) : option DbFailure :=
  first_failure
    [ out_of_range "years_of_practice" (mjoin (set_years_of_practice u));
      too_long 100 "external_id" (mjoin (set_external_id u));
      too_long 255 "first_name_encrypted" (set_first_name_encrypted u);
      too_long 64 "first_name_hash" (set_first_name_hash u);
      too_long 255 "last_name_encrypted" (set_last_name_encrypted u);
      too_long 64 "last_name_hash" (set_last_name_hash u);
      too_long 255 "email_encrypted" (mjoin (set_email_encrypted u));
      too_long 64 "email_hash" (mjoin (set_email_hash u));
      too_long 255 "phone_encrypted" (mjoin (set_phone_encrypted u));
      too_long 64 "phone_hash" (mjoin (set_phone_hash u));
      too_long 100 "sub_specialty" (mjoin (set_sub_specialty u));
      too_long 50 "title" (mjoin (set_title u)) ].

(** An assigned value outside its enumeration. *)
Definition check_failure (u : updates) : option DbFailure :=
  first_failure
    [ not_among influence_levels "influence_level" (set_influence_level u);
      not_among specialties "specialty" (set_specialty u) ].

(** [f] on a value, SQL [NULL] being kept. *)
Definition nullable {A} (f : A -> A) (v : option A) : option A := f <$> v.

(** The values as the columns keep them: a [varchar(n)] column keeps
    the first [n] characters. *)
Definition stored (u : updates) : updates :=
  {| set_external_id := nullable (Pg.fit 100) <$> set_external_id u;
     set_first_name_encrypted := Pg.fit 255 <$> set_first_name_encrypted u;
     set_first_name_hash := Pg.fit 64 <$> set_first_name_hash u;
     set_last_name_encrypted := Pg.fit 255 <$> set_last_name_encrypted u;
     set_last_name_hash := Pg.fit 64 <$> set_last_name_hash u;
     set_email_encrypted := nullable (Pg.fit 255) <$> set_email_encrypted u;
     set_email_hash := nullable (Pg.fit 64) <$> set_email_hash u;
     set_phone_encrypted := nullable (Pg.fit 255) <$> set_phone_encrypted u;
     set_phone_hash := nullable (Pg.fit 64) <$> set_phone_hash u;
     set_specialty := set_specialty u;
     set_sub_specialty := nullable (Pg.fit 100) <$> set_sub_specialty u;
     set_influence_level := set_influence_level u;
     set_primary_institution_id := set_primary_institution_id u;
     set_territory_id := set_territory_id u;
     set_title := nullable (Pg.fit 50) <$> set_title u;
     set_years_of_practice := set_years_of_practice u;
     set_languages := set_languages u;
     set_therapeutic_areas := set_therapeutic_areas u;
     set_metadata := set_metadata u;
     set_is_active := set_is_active u;
     set_updated_at := set_updated_at u;
     set_deleted_at := set_deleted_at u |}.

End Hcps.

(** *** Table [consents] *)
Module Consents.

Record row := Row {
  id : UUID;
  hcp_id : UUID;
  consent_type : ConsentType.t;
  status : ConsentStatus.t;
  granted_at : option Timestamp;
  revoked_at : option Timestamp;
  expires_at : option Timestamp;
  source : option string;
  evidence_url : option string;
  recorded_by : UUID;
  notes : option string;
  created_at : Timestamp
}.

End Consents.

(** *** Table [audit_log] *)
Module AuditLog.

Record row := Row {
  id : UUID;
  user_id : option UUID;
  action : AuditAction.t;
  entity_type : string;
  entity_id : option UUID;
  previous_state : option JsonObject;
  new_state : option JsonObject;
  ip_address : string;
  user_agent : string;
  metadata : JsonObject;
  created_at : Timestamp
}.

End AuditLog.

(** *** The store and the statements issued against it *)

Inductive Table := T_hcps | T_consents | T_audit_log.

#[global] Instance Table_eq_dec : EqDecision Table.
Proof. solve_decision. Defined.

Inductive Stmt :=
| Select (t : Table)
| Insert (t : Table)
| Update (t : Table)
| Delete (t : Table).

Definition stmt_table (s : Stmt) : Table :=
  match s with Select t | Insert t | Update t | Delete t => t end.

(** [statements] is the log of every statement sent to the store, in
    order, whether or not it succeeded.  Of the tables [institutions]
    and [territories], which this layer never writes, the store holds
    the identifiers present: [hcps.primary_institution_id] and
    [hcps.territory_id] reference them. *)
Record World := MkWorld {
  hcps : gmap string Hcps.row;
  consents : list Consents.row;
  audit_log : list AuditLog.row;
  statements : list Stmt;
  institutions : gset string;
  territories : gset string
}.

Record Config := MkConfig {
  encryption_key : string;
  encryption_iv : string
}.

(** What a request reads from outside the store: the process
    configuration, the clock ([new Date()] and the store's [now()]),
    the two identifiers [uuidv4()] yields (one for the service, one for
    the audit writer), and which tables currently reject statements. *)
Record Env := MkEnv {
  config : Config;
  clock : Timestamp;
  uuid_service : UUID;
  uuid_audit : UUID;
  unavailable : Table -> bool
}.

Inductive Error :=
| NotFoundError (entity : string) (id : string)
| ConsentRequiredError (hcpId : string) (consentType : ConsentType.t)
| JsError (message : string)
| DatabaseError (t : Table) (why : DbFailure).

Inductive Result (A : Type) :=
| Ok (a : A)
| Err (e : Error).
Arguments Ok {A} a.
Arguments Err {A} e.

(** ** Part III.  Effects: reader over [Env], state over [World],
       exceptions.  A throw keeps the writes made before it: the
       services never open a transaction. *)

Definition M (A : Type) : Type := Env -> World -> Result A * World.

Definition ret {A} (a : A) : M A := fun _ w => (Ok a, w).
Definition throw {A} (e : Error) : M A := fun _ w => (Err e, w).
Definition bind {A B} (m : M A) (k : A -> M B) : M B :=
  fun env w =>
    match m env w with
    | (Ok a, w') => k a env w'
    | (Err e, w') => (Err e, w')
    end.

Notation "'do' x <- m ;; k" := (bind m (fun x => k))
  (at level 10, x name, m at level 99, k at level 200).

Definition ask : M Env := fun env w => (Ok env, w).
Definition get : M World := fun _ w => (Ok w, w).
Definition put (w : World) : M unit := fun _ _ => (Ok tt, w).
Definition lift {A} (r : Config -> Result A) : M A :=
  fun env w => (r (config env), w).

(** [p.catch(handler)] where the handler only logs. *)
Definition catch_and_log (m : M unit) : M unit :=
  fun env w =>
    match m env w with
    | (Err _, w') => (Ok tt, w')
    | r => r
    end.

Definition outcome {A} (r : Result A * World) : Result A := fst r.
Definition succeeded {A} (r : Result A * World) : bool :=
  match fst r with Ok _ => true | Err _ => false end.
Definition final {A} (r : Result A * World) : World := snd r.

(** *** Query builder *)

Inductive Direction := asc | desc.

Definition precedes (d : Direction) (x y : Z) : bool :=
  match d with
  | asc => x <=? y
  | desc => y <=? x
  end.

Fixpoint place {A} (key : A -> Z) (d : Direction) (x : A) (l : list A) : list A :=
  match l with
  | [] => [x]
  | y :: rest =>
      if precedes d (key x) (key y) then x :: y :: rest
      else y :: place key d x rest
  end.

(** [.orderBy(column, direction)]; rows with equal keys keep their
    stored order. *)
Definition orderBy {A} (key : A -> Z) (d : Direction) (l : list A) : list A :=
  fold_right (place key d) [] l.

(** [.first()] *)
Definition first {A} (l : list A) : option A := head l.

Definition logged (s : Stmt) (w : World) : World :=
  MkWorld (hcps w) (consents w) (audit_log w) (statements w ++ [s])
          (institutions w) (territories w).

Definition issue (s : Stmt) : M unit :=
  fun env w =>
    if unavailable env (stmt_table s)
    then (Err (DatabaseError (stmt_table s) ConnectionLost), logged s w)
    else (Ok tt, logged s w).

Definition with_hcps (h : gmap string Hcps.row) (w : World) : World :=
  MkWorld h (consents w) (audit_log w) (statements w) (institutions w) (territories w).
Definition with_consents (c : list Consents.row) (w : World) : World :=
  MkWorld (hcps w) c (audit_log w) (statements w) (institutions w) (territories w).
Definition with_audit_log (a : list AuditLog.row) (w : World) : World :=
  MkWorld (hcps w) (consents w) a (statements w) (institutions w) (territories w).

(** The store refuses the statement when [why] names a failure. *)
Definition refuse (t : Table) (why : option DbFailure) : M unit :=
  match why with
  | Some failure => throw (DatabaseError t failure)
  | None => ret tt
  end.

Definition is_null {A} (o : option A) : bool :=
  match o with None => true | Some _ => false end.

(** [db('hcps').where({ id }).first()] *)
Definition hcps_where_id_first (id : UUID) : M (option Hcps.row) :=
  do _ <- issue (Select T_hcps) ;;
  do w <- get ;;
  ret (hcps w !! id).

(** [db('hcps').where({ id, deleted_at: null }).first()] *)
Definition hcps_where_id_live_first (id : UUID) : M (option Hcps.row) :=
  do _ <- issue (Select T_hcps) ;;
  do w <- get ;;
  ret (match hcps w !! id with
       | Some r => if is_null (Hcps.deleted_at r) then Some r else None
       | None => None
       end).

(** Does some row other than [id] carry the external identifier [e]?
    ([external_id] is [unique]; [NULL]s never collide.) *)
Definition external_id_taken (e : option string) (id : UUID)
    (h : gmap string Hcps.row) : bool :=
  match e with
  | None => false
  | Some x =>
      bool_decide (Exists (fun kr => kr.1 <> id /\ Hcps.external_id kr.2 = Some x)
                          (map_to_list h))
  end.

(** The key [id], or the external identifier [e], is already in the
    table. *)
Definition duplicate (id : UUID) (e : option string) (h : gmap string Hcps.row)
    : option DbFailure :=
  if bool_decide (is_Some (h !! id)) then Some (UniqueViolation "id")
  else if external_id_taken e id h then Some (UniqueViolation "external_id")
  else None.

(** An institution or territory assigned by [u] that the store does not
    hold.  SQL [NULL] references nothing. *)
Definition dangling (w : World) (u : Hcps.updates) : option DbFailure :=
  first_failure
    [ match mjoin (Hcps.set_primary_institution_id u) with
      | Some i => if bool_decide (i ∈ institutions w) then None
                  else Some (ForeignKeyViolation "primary_institution_id")
      | None => None
      end;
      match mjoin (Hcps.set_territory_id u) with
      | Some t => if bool_decide (t ∈ territories w) then None
                  else Some (ForeignKeyViolation "territory_id")
      | None => None
      end ].

(** [db('hcps').insert(record)].  The values are brought to their
    columns' types, the row is checked against the check constraints
    and the unique indexes, and the foreign keys are checked last. *)
Definition hcps_insert (r : Hcps.row) : M unit :=
  do _ <- issue (Insert T_hcps) ;;
  do w <- get ;;
  let u := Hcps.assignments r in
  let kept := Hcps.apply (Hcps.stored u) r in
  do _ <- refuse T_hcps (Hcps.type_error u) ;;
  do _ <- refuse T_hcps (Hcps.check_failure u) ;;
  do _ <- refuse T_hcps (duplicate (Hcps.id r) (Hcps.external_id kept) (hcps w)) ;;
  do _ <- refuse T_hcps (dangling w u) ;;
  put (with_hcps (<[Hcps.id r := kept]> (hcps w)) w).

(** [db('hcps').where({ id }).update(updates)].  The values are brought
    to their columns' types when the statement is prepared; the
    constraints are checked on the row that is written.  The columns
    that are not assigned passed them when they were written. *)
Definition hcps_where_id_update (id : UUID) (u : Hcps.updates) : M unit :=
  do _ <- issue (Update T_hcps) ;;
  do w <- get ;;
  do _ <- refuse T_hcps (Hcps.type_error u) ;;
  match hcps w !! id with
  | None => ret tt
  | Some r =>
      do _ <- refuse T_hcps (Hcps.check_failure u) ;;
      do _ <- refuse T_hcps
                (if external_id_taken (mjoin (Hcps.set_external_id (Hcps.stored u))) id (hcps w)
                 then Some (UniqueViolation "external_id") else None) ;;
      do _ <- refuse T_hcps (dangling w u) ;;
      put (with_hcps (<[id := Hcps.apply (Hcps.stored u) r]> (hcps w)) w)
  end.

(** [db('consents').where({ hcp_id, consent_type }).orderBy('created_at', 'desc').first()] *)
Definition consents_latest (hcpId : UUID) (ct : ConsentType.t) : M (option Consents.row) :=
  do _ <- issue (Select T_consents) ;;
  do w <- get ;;
  ret (first (orderBy Consents.created_at desc
                (filter (fun c => Consents.hcp_id c = hcpId /\ Consents.consent_type c = ct)
                        (consents w)))).

(** [db('consents').where({ hcp_id }).orderBy('created_at', 'desc')] *)
Definition consents_of_hcp (hcpId : UUID) : M (list Consents.row) :=
  do _ <- issue (Select T_consents) ;;
  do w <- get ;;
  ret (orderBy Consents.created_at desc
         (filter (fun c => Consents.hcp_id c = hcpId) (consents w))).

(** [db('consents').insert(record)]; [hcp_id] references [hcps.id]. *)
Definition consents_insert (r : Consents.row) : M unit :=
  do _ <- issue (Insert T_consents) ;;
  do w <- get ;;
  if bool_decide (Exists (fun c => Consents.id c = Consents.id r) (consents w))
  then throw (DatabaseError T_consents (UniqueViolation "id"))
  else if bool_decide (is_Some (hcps w !! Consents.hcp_id r))
  then put (with_consents (consents w ++ [r]) w)
  else throw (DatabaseError T_consents (ForeignKeyViolation "hcp_id")).

(** [db('audit_log').where({ entity_type, entity_id }).orderBy('created_at', dir)] *)
Definition audit_log_of_entity (entityType : string) (entityId : UUID) (d : Direction)
    : M (list AuditLog.row) :=
  do _ <- issue (Select T_audit_log) ;;
  do w <- get ;;
  ret (orderBy AuditLog.created_at d
         (filter (fun a => AuditLog.entity_type a = entityType
                           /\ AuditLog.entity_id a = Some entityId)
                 (audit_log w))).

(** [db('audit_log').insert(record)] *)
Definition audit_log_insert (r : AuditLog.row) : M unit :=
  do _ <- issue (Insert T_audit_log) ;;
  do w <- get ;;
  if bool_decide (Exists (fun a => AuditLog.id a = AuditLog.id r) (audit_log w))
  then throw (DatabaseError T_audit_log (UniqueViolation "id"))
  else put (with_audit_log (audit_log w ++ [r]) w).

(** ** Part IV.  Field vault ([utils/encryption.ts]) *)

(** The cipher is the external [crypto-js] package.  [AES_encrypt key iv m]
    stands for
    [CryptoJS.AES.encrypt(m, Hex.parse(key), { iv: Hex.parse(iv) }).toString()]
    and [AES_decrypt key iv c] for
    [CryptoJS.AES.decrypt(c, Hex.parse(key), { iv: Hex.parse(iv) }).toString(Utf8)],
    which is [None] when the package throws on malformed plaintext bytes. *)
Class CryptoJS_AES := {
  AES_encrypt : string -> string -> string -> string;
  AES_decrypt : string -> string -> string -> option string;
  (** The ciphertext is the Base64 text of the CBC blocks of the
      message after PKCS#7 padding: sixteen bytes for every sixteen
      bytes of the message begun, no salt or header being written when
      the key is given as a word array. *)
  AES_encrypt_length :
    forall key iv m,
      String.length (AES_encrypt key iv m)
      = Base64.length_of (16 * (String.length m / 16 + 1));
  AES_encrypt_text :
    forall key iv m, Base64.text (AES_encrypt key iv m) = true
}.

(** The contract of the package: decryption under the key and IV used
    for encryption gives the message back. *)
Class AES_inverse (aes : CryptoJS_AES) : Prop :=
  AES_decrypt_encrypt :
    forall key iv m, AES_decrypt key iv (AES_encrypt key iv m) = Some m.

Definition not_configured (key : string) : bool :=
  match key with
  | EmptyString => true
  | String _ _ => false
  end.

Definition key_missing : Error := JsError "Encryption key not configured".

Section Vault.
Context {aes : CryptoJS_AES}.

Definition encryptPII (cfg : Config) (plaintext : string) : Result string :=
  if not_configured (encryption_key cfg) then Err key_missing
  else Ok (AES_encrypt (encryption_key cfg) (encryption_iv cfg) plaintext).

Definition decryptPII (cfg : Config) (ciphertext : string) : Result string :=
  if not_configured (encryption_key cfg) then Err key_missing
  else match AES_decrypt (encryption_key cfg) (encryption_iv cfg) ciphertext with
       | Some plaintext => Ok plaintext
       | None => Err (JsError "Malformed UTF-8 data")
       end.

End Vault.

Definition hashForIndex (cfg : Config) (value : string) : string :=
  SHA256.hex (String.append value (encryption_key cfg)).

Arguments hashForIndex : simpl never.

(** ** Part V.  Audit writer ([middleware/audit.ts]) *)

(** A request as the handlers see it, after [authenticate] has set
    [req.user]. *)
Record Request := MkRequest {
  user_id : UUID;
  method : string;
  ip : option string;
  socket_remoteAddress : option string;
  header_user_agent : option string;
  params_id : option string;
  params_hcpId : option string;
  body_hcpId : option string
}.

Record AuditParams := MkAuditParams {
  userId : string;
  action : AuditAction.t;
  entityType : string;
  entityId : option string;
  previousState : option JsonObject;
  newState : option JsonObject;
  ipAddress : string;
  userAgent : string;
  metadata : option JsonObject
}.

Definition createAuditEntry (params : AuditParams) : M unit :=
  do env <- ask ;;
  audit_log_insert
    {| AuditLog.id := uuid_audit env;
       AuditLog.user_id := Some (userId params);
       AuditLog.action := action params;
       AuditLog.entity_type := entityType params;
       AuditLog.entity_id := entityId params;
       AuditLog.previous_state := previousState params;
       AuditLog.new_state := newState params;
       AuditLog.ip_address := ipAddress params;
       AuditLog.user_agent := userAgent params;
       AuditLog.metadata := default [] (metadata params);
       AuditLog.created_at := clock env |}.

(** Helper to extract request metadata for audit entries:
    [(ipAddress, userAgent)]. *)
Definition getRequestMeta (req : Request) : string * string :=
  (default "unknown" (Js.or_else (ip req) (socket_remoteAddress req)),
   default "unknown" (Js.truthy (header_user_agent req))).

(** [auditDataAccess(entityType)]: the view entry is written without
    being awaited and its failure is only logged; the write is placed
    here before the handler runs. *)
Definition auditDataAccess (entity : string) (req : Request) : M unit :=
  if String.eqb (method req) "GET"
  then catch_and_log
         (createAuditEntry
            {| userId := user_id req;
               action := AuditAction.VIEW;
               entityType := entity;
               entityId := params_id req;
               previousState := None;
               newState := None;
               ipAddress := default "unknown" (Js.truthy (ip req));
               userAgent := default "unknown" (Js.truthy (header_user_agent req));
               metadata := None |})
  else ret tt.

(** ** Part VI.  Consent gate ([middleware/consent-check.ts]) *)

(** [Ok tt] is [next()], [Err e] is [next(e)]. *)
Definition requireConsent (consentType : ConsentType.t) (req : Request) : M unit :=
  match Js.truthy (Js.or_else (params_hcpId req) (body_hcpId req)) with
  | None => ret tt
  | Some hcpId =>
      do consent <- consents_latest hcpId consentType ;;
      match consent with
      | None => throw (ConsentRequiredError hcpId consentType)
      | Some c =>
          if negb (bool_decide (Consents.status c = ConsentStatus.GRANTED))
          then throw (ConsentRequiredError hcpId consentType)
          else
            do env <- ask ;;
            match Consents.expires_at c with
            | Some expires =>
                if expires <? clock env
                then throw (ConsentRequiredError hcpId consentType)
                else ret tt
            | None => ret tt
            end
      end
  end.

(** ** Part VII.  Subject repository ([modules/hcp/hcp.service.ts]) *)

Record CreateHCPInput := MkCreateHCPInput {
  c_externalId : option string;
  c_firstName : string;
  c_lastName : string;
  c_email : option string;
  c_phone : option string;
  c_specialty : string;
  c_subSpecialty : option string;
  c_influenceLevel : string;
  c_primaryInstitutionId : option UUID;
  c_territoryId : option UUID;
  c_title : option string;
  c_yearsOfPractice : option Z;
  c_languages : option (list string);
  c_therapeuticAreas : option (list string);
  c_metadata : option JsonObject
}.

(** [createHCPSchema.partial()] *)
Record UpdateHCPInput := MkUpdateHCPInput {
  u_externalId : option string;
  u_firstName : option string;
  u_lastName : option string;
  u_email : option string;
  u_phone : option string;
  u_specialty : option string;
  u_subSpecialty : option string;
  u_influenceLevel : option string;
  u_primaryInstitutionId : option UUID;
  u_territoryId : option UUID;
  u_title : option string;
  u_yearsOfPractice : option Z;
  u_languages : option (list string);
  u_therapeuticAreas : option (list string);
  u_metadata : option JsonObject
}.

Record CreateConsentInput := MkCreateConsentInput {
  i_hcpId : UUID;
  i_consentType : ConsentType.t;
  i_status : ConsentStatus.t;
  i_expiresAt : option Timestamp;
  i_source : option string;
  i_evidenceUrl : option string;
  i_notes : option string
}.

Module HCPRecord.
Record t := Make {
  id : UUID;
  externalId : option string;
  firstName : string;
  lastName : string;
  email : option string;
  phone : option string;
  specialty : string;
  subSpecialty : option string;
  influenceLevel : string;
  primaryInstitutionId : option UUID;
  territoryId : option UUID;
  title : option string;
  yearsOfPractice : option Z;
  languages : list string;
  therapeuticAreas : list string;
  metadata : JsonObject;
  isActive : bool;
  createdAt : Timestamp;
  updatedAt : Timestamp
}.
End HCPRecord.

Definition ANONYMIZED : string := "[ANONYMIZED]".

Section Repository.
Context {aes : CryptoJS_AES} {js : Js.Engine}.

Definition encrypt (plaintext : string) : M string :=
  lift (fun cfg => encryptPII cfg plaintext).

Definition decrypt (ciphertext : string) : M string :=
  lift (fun cfg => decryptPII cfg ciphertext).

(** [v ? encryptPII(v) : null] *)
Definition encrypt_or_null (v : option string) : M (option string) :=
  match Js.truthy v with
  | Some s => do c <- encrypt s ;; ret (Some c)
  | None => ret None
  end.

(** [c ? decryptPII(c) : undefined] *)
Definition decrypt_or_undefined (c : option string) : M (option string) :=
  match Js.truthy c with
  | Some s => do p <- decrypt s ;; ret (Some p)
  | None => ret None
  end.

Definition decryptHCPRow (row : Hcps.row) : M HCPRecord.t :=
  do first <- decrypt (Hcps.first_name_encrypted row) ;;
  do last <- decrypt (Hcps.last_name_encrypted row) ;;
  do mail <- decrypt_or_undefined (Hcps.email_encrypted row) ;;
  do tel <- decrypt_or_undefined (Hcps.phone_encrypted row) ;;
  ret {| HCPRecord.id := Hcps.id row;
         HCPRecord.externalId := Hcps.external_id row;
         HCPRecord.firstName := first;
         HCPRecord.lastName := last;
         HCPRecord.email := mail;
         HCPRecord.phone := tel;
         HCPRecord.specialty := Hcps.specialty row;
         HCPRecord.subSpecialty := Hcps.sub_specialty row;
         HCPRecord.influenceLevel := Hcps.influence_level row;
         HCPRecord.primaryInstitutionId := Hcps.primary_institution_id row;
         HCPRecord.territoryId := Hcps.territory_id row;
         HCPRecord.title := Hcps.title row;
         HCPRecord.yearsOfPractice := Hcps.years_of_practice row;
         HCPRecord.languages := Hcps.languages row;
         HCPRecord.therapeuticAreas := Hcps.therapeutic_areas row;
         HCPRecord.metadata := Hcps.metadata row;
         HCPRecord.isActive := Hcps.is_active row;
         HCPRecord.createdAt := Hcps.created_at row;
         HCPRecord.updatedAt := Hcps.updated_at row |}.

Definition getById (id : UUID) : M HCPRecord.t :=
  do row <- hcps_where_id_live_first id ;;
  match row with
  | None => throw (NotFoundError "HCP" id)
  | Some r => decryptHCPRow r
  end.

Definition create (input : CreateHCPInput) : M HCPRecord.t :=
  do env <- ask ;;
  let id := uuid_service env in
  let cfg := config env in
  do first <- encrypt (c_firstName input) ;;
  do last <- encrypt (c_lastName input) ;;
  do mail <- encrypt_or_null (c_email input) ;;
  do tel <- encrypt_or_null (c_phone input) ;;
  do _ <- hcps_insert
    {| Hcps.id := id;
       Hcps.external_id := c_externalId input;
       Hcps.first_name_encrypted := first;
       Hcps.first_name_hash := hashForIndex cfg (Js.toLowerCase (c_firstName input));
       Hcps.last_name_encrypted := last;
       Hcps.last_name_hash := hashForIndex cfg (Js.toLowerCase (c_lastName input));
       Hcps.email_encrypted := mail;
       Hcps.email_hash :=
         (fun v => hashForIndex cfg (Js.toLowerCase v)) <$> Js.truthy (c_email input);
       Hcps.phone_encrypted := tel;
       Hcps.phone_hash := hashForIndex cfg <$> Js.truthy (c_phone input);
       Hcps.specialty := c_specialty input;
       Hcps.sub_specialty := c_subSpecialty input;
       Hcps.influence_level := c_influenceLevel input;
       Hcps.primary_institution_id := c_primaryInstitutionId input;
       Hcps.territory_id := c_territoryId input;
       Hcps.title := c_title input;
       Hcps.years_of_practice := c_yearsOfPractice input;
       Hcps.languages := default [] (c_languages input);
       Hcps.therapeutic_areas := default [] (c_therapeuticAreas input);
       Hcps.metadata := default [] (c_metadata input);
       Hcps.is_active := true;
       Hcps.created_at := clock env;
       Hcps.updated_at := clock env;
       Hcps.deleted_at := None |} ;;
  getById id.

(** [if (v !== undefined) column = encryptPII(v)] *)
Definition encrypt_if_given (v : option string) : M (option string) :=
  match v with
  | Some s => do c <- encrypt s ;; ret (Some c)
  | None => ret None
  end.

(** [if (v !== undefined) column = v ? encryptPII(v) : null] *)
Definition encrypt_or_null_if_given (v : option string) : M (option (option string)) :=
  match v with
  | Some s => do c <- encrypt_or_null (Some s) ;; ret (Some c)
  | None => ret None
  end.

Definition update (id : UUID) (input : UpdateHCPInput) : M HCPRecord.t :=
  do existing <- hcps_where_id_live_first id ;;
  match existing with
  | None => throw (NotFoundError "HCP" id)
  | Some _ =>
      do env <- ask ;;
      let cfg := config env in
      do first <- encrypt_if_given (u_firstName input) ;;
      do last <- encrypt_if_given (u_lastName input) ;;
      do mail <- encrypt_or_null_if_given (u_email input) ;;
      do tel <- encrypt_or_null_if_given (u_phone input) ;;
      do _ <- hcps_where_id_update id
        {| Hcps.set_external_id := None;
           Hcps.set_first_name_encrypted := first;
           Hcps.set_first_name_hash :=
             (fun v => hashForIndex cfg (Js.toLowerCase v)) <$> u_firstName input;
           Hcps.set_last_name_encrypted := last;
           Hcps.set_last_name_hash :=
             (fun v => hashForIndex cfg (Js.toLowerCase v)) <$> u_lastName input;
           Hcps.set_email_encrypted := mail;
           Hcps.set_email_hash :=
             (fun v => (fun s => hashForIndex cfg (Js.toLowerCase s)) <$> Js.truthy (Some v))
               <$> u_email input;
           Hcps.set_phone_encrypted := tel;
           Hcps.set_phone_hash :=
             (fun v => hashForIndex cfg <$> Js.truthy (Some v)) <$> u_phone input;
           Hcps.set_specialty := u_specialty input;
           Hcps.set_sub_specialty := Some <$> u_subSpecialty input;
           Hcps.set_influence_level := u_influenceLevel input;
           Hcps.set_primary_institution_id := Some <$> u_primaryInstitutionId input;
           Hcps.set_territory_id := Some <$> u_territoryId input;
           Hcps.set_title := Some <$> u_title input;
           Hcps.set_years_of_practice := Some <$> u_yearsOfPractice input;
           Hcps.set_languages := u_languages input;
           Hcps.set_therapeutic_areas := u_therapeuticAreas input;
           Hcps.set_metadata := u_metadata input;
           Hcps.set_is_active := None;
           Hcps.set_updated_at := Some (clock env);
           Hcps.set_deleted_at := None |} ;;
      getById id
  end.

Definition softDelete (id : UUID) : M unit :=
  do existing <- hcps_where_id_live_first id ;;
  match existing with
  | None => throw (NotFoundError "HCP" id)
  | Some _ =>
      do env <- ask ;;
      hcps_where_id_update id
        {| Hcps.set_external_id := None;
           Hcps.set_first_name_encrypted := None;
           Hcps.set_first_name_hash := None;
           Hcps.set_last_name_encrypted := None;
           Hcps.set_last_name_hash := None;
           Hcps.set_email_encrypted := None;
           Hcps.set_email_hash := None;
           Hcps.set_phone_encrypted := None;
           Hcps.set_phone_hash := None;
           Hcps.set_specialty := None;
           Hcps.set_sub_specialty := None;
           Hcps.set_influence_level := None;
           Hcps.set_primary_institution_id := None;
           Hcps.set_territory_id := None;
           Hcps.set_title := None;
           Hcps.set_years_of_practice := None;
           Hcps.set_languages := None;
           Hcps.set_therapeutic_areas := None;
           Hcps.set_metadata := None;
           Hcps.set_is_active := Some false;
           Hcps.set_updated_at := None;
           Hcps.set_deleted_at := Some (Some (clock env)) |}
  end.

(** GDPR right-to-erasure: anonymize PII but preserve record for
    audit integrity. *)
Definition anonymize (id : UUID) : M unit :=
  do existing <- hcps_where_id_first id ;;
  match existing with
  | None => throw (NotFoundError "HCP" id)
  | Some _ =>
      do env <- ask ;;
      let cfg := config env in
      do first <- encrypt ANONYMIZED ;;
      do last <- encrypt ANONYMIZED ;;
      hcps_where_id_update id
        {| Hcps.set_external_id := Some None;
           Hcps.set_first_name_encrypted := Some first;
           Hcps.set_first_name_hash := Some (hashForIndex cfg ANONYMIZED);
           Hcps.set_last_name_encrypted := Some last;
           Hcps.set_last_name_hash := Some (hashForIndex cfg ANONYMIZED);
           Hcps.set_email_encrypted := Some None;
           Hcps.set_email_hash := Some None;
           Hcps.set_phone_encrypted := Some None;
           Hcps.set_phone_hash := Some None;
           Hcps.set_specialty := None;
           Hcps.set_sub_specialty := None;
           Hcps.set_influence_level := None;
           Hcps.set_primary_institution_id := None;
           Hcps.set_territory_id := None;
           Hcps.set_title := None;
           Hcps.set_years_of_practice := None;
           Hcps.set_languages := None;
           Hcps.set_therapeutic_areas := None;
           Hcps.set_metadata :=
             Some [("anonymized", JBool true); ("anonymized_at", JIsoDate (clock env))];
           Hcps.set_is_active := Some false;
           Hcps.set_updated_at := None;
           Hcps.set_deleted_at := Some (Some (clock env)) |}
  end.

Definition recordConsent (input : CreateConsentInput) (recordedBy : UUID)
    : M Consents.row :=
  do env <- ask ;;
  let record :=
    {| Consents.id := uuid_service env;
       Consents.hcp_id := i_hcpId input;
       Consents.consent_type := i_consentType input;
       Consents.status := i_status input;
       Consents.granted_at :=
         if bool_decide (i_status input = ConsentStatus.GRANTED)
         then Some (clock env) else None;
       Consents.revoked_at :=
         if bool_decide (i_status input = ConsentStatus.REVOKED)
         then Some (clock env) else None;
       Consents.expires_at := i_expiresAt input;
       Consents.source := i_source input;
       Consents.evidence_url := i_evidenceUrl input;
       Consents.recorded_by := recordedBy;
       Consents.notes := i_notes input;
       Consents.created_at := clock env |} in
  do _ <- consents_insert record ;;
  ret record.

End Repository.

(** ** Part VIII.  Routes ([modules/hcp/hcp.routes.ts]) *)

(** The handlers run after [authenticate], [requireRole] and the
    validators; [id] is [req.params.id]. *)

Section Routes.
Context {aes : CryptoJS_AES} {js : Js.Engine}.

(** [router.get('/:id', ..., auditDataAccess('hcp'), handler)] *)
Definition get_hcps_id (req : Request) (id : UUID) : M HCPRecord.t :=
  do _ <- auditDataAccess "hcp" req ;;
  getById id.

(** [router.post('/')] *)
Definition post_hcps (req : Request) (body : CreateHCPInput) : M HCPRecord.t :=
  do hcp <- create body ;;
  do _ <- createAuditEntry
    {| userId := user_id req;
       action := AuditAction.CREATE;
       entityType := "hcp";
       entityId := Some (HCPRecord.id hcp);
       previousState := None;
       newState := Some [("specialty", JString (HCPRecord.specialty hcp));
                         ("influenceLevel", JString (HCPRecord.influenceLevel hcp))];
       ipAddress := fst (getRequestMeta req);
       userAgent := snd (getRequestMeta req);
       metadata := None |} ;;
  ret hcp.

(** [router.patch('/:id')] *)
Definition patch_hcps_id (req : Request) (id : UUID) (body : UpdateHCPInput)
    : M HCPRecord.t :=
  do previousHcp <- getById id ;;
  do updatedHcp <- update id body ;;
  do _ <- createAuditEntry
    {| userId := user_id req;
       action := AuditAction.UPDATE;
       entityType := "hcp";
       entityId := Some id;
       previousState := Some [("specialty", JString (HCPRecord.specialty previousHcp));
                              ("influenceLevel", JString (HCPRecord.influenceLevel previousHcp))];
       newState := Some [("specialty", JString (HCPRecord.specialty updatedHcp));
                         ("influenceLevel", JString (HCPRecord.influenceLevel updatedHcp))];
       ipAddress := fst (getRequestMeta req);
       userAgent := snd (getRequestMeta req);
       metadata := None |} ;;
  ret updatedHcp.

(** [router.delete('/:id')] *)
Definition delete_hcps_id (req : Request) (id : UUID) : M unit :=
  do _ <- softDelete id ;;
  createAuditEntry
    {| userId := user_id req;
       action := AuditAction.DELETE;
       entityType := "hcp";
       entityId := Some id;
       previousState := None;
       newState := None;
       ipAddress := fst (getRequestMeta req);
       userAgent := snd (getRequestMeta req);
       metadata := None |}.

(** [router.post('/:id/anonymize')] *)
Definition post_hcps_id_anonymize (req : Request) (id : UUID) : M unit :=
  do _ <- anonymize id ;;
  createAuditEntry
    {| userId := user_id req;
       action := AuditAction.DELETE;
       entityType := "hcp";
       entityId := Some id;
       previousState := None;
       newState := None;
       ipAddress := fst (getRequestMeta req);
       userAgent := snd (getRequestMeta req);
       metadata := Some [("type", JString "gdpr_anonymization")] |}.

(** [router.post('/:id/consents')] *)
Definition post_hcps_id_consents (req : Request) (body : CreateConsentInput)
    : M Consents.row :=
  do consent <- recordConsent body (user_id req) ;;
  do _ <- createAuditEntry
    {| userId := user_id req;
       action := AuditAction.CONSENT_CHANGE;
       entityType := "consent";
       entityId := Some (Consents.id consent);
       previousState := None;
       newState := Some [("hcpId", JString (i_hcpId body));
                         ("type", JString (ConsentType.to_string (i_consentType body)));
                         ("status", JString (ConsentStatus.to_string (i_status body)))];
       ipAddress := fst (getRequestMeta req);
       userAgent := snd (getRequestMeta req);
       metadata := None |} ;;
  ret consent.

End Routes.

(** ** Part IX.  Compliance service ([modules/compliance/compliance.service.ts]) *)

Record IntegrityReport := MkIntegrityReport {
  isConsistent : bool;
  issues : list string
}.

(** [Array.prototype.findIndex]: the first index whose element
    satisfies [p], or [-1]. *)
Fixpoint findIndex {A} (p : A -> bool) (l : list A) : Z :=
  match l with
  | [] => -1
  | x :: rest =>
      if p x then 0
      else let i := findIndex p rest in if i <? 0 then -1 else i + 1
  end.

(** [Array.prototype.slice(start)] for a non-negative [start]. *)
Definition slice {A} (start : Z) (l : list A) : list A := skipn (Z.to_nat start) l.

Definition missing_create_message : string := "Missing CREATE audit entry for entity".
Definition update_after_delete_message : string := "Updates found after DELETE action".

Definition has_action (a : AuditAction.t) (e : AuditLog.row) : bool :=
  bool_decide (AuditLog.action e = a).

Definition verifyDataIntegrity (entityType : string) (entityId : UUID)
    : M IntegrityReport :=
  do auditEntries <- audit_log_of_entity entityType entityId asc ;;
  let hasCreate :=
    fold_left (fun found entry => if has_action AuditAction.CREATE entry then true else found)
              auditEntries false in
  let issues1 :=
    if (0 <? Z.of_nat (length auditEntries)) && negb hasCreate
    then [missing_create_message] else [] in
  let deleteIndex := findIndex (has_action AuditAction.DELETE) auditEntries in
  let issues2 :=
    if 0 <=? deleteIndex
    then
      let postDeleteUpdates :=
        List.filter (has_action AuditAction.UPDATE) (slice (deleteIndex + 1) auditEntries) in
      if 0 <? Z.of_nat (length postDeleteUpdates)
      then issues1 ++ [update_after_delete_message] else issues1
    else issues1 in
  ret {| isConsistent := Z.of_nat (length issues2) =? 0; issues := issues2 |}.

(** Get full consent history for an HCP (all consent records, not just
    latest). *)
Definition getConsentHistory (hcpId : UUID) : M (list Consents.row) :=
  consents_of_hcp hcpId.

Record PersonalData := MkPersonalData {
  pd_specialty : string;
  pd_influenceLevel : string;
  pd_territory : option UUID;
  pd_isActive : bool;
  pd_createdAt : Timestamp;
  hasEncryptedEmail : bool;
  hasEncryptedPhone : bool;
  hasEncryptedName : bool
}.

(** The part of the GDPR report drawn from the three tables of this
    layer; its interaction, task and AI-score sections read tables kept
    by other modules. *)
Record DataSubjectReport := MkDataSubjectReport {
  generatedAt : Timestamp;
  report_hcpId : UUID;
  personalData : option PersonalData;
  consentRecords : list Consents.row;
  accessLog : list (AuditAction.t * option UUID * Timestamp)
}.

Definition generateDataSubjectReport (hcpId : UUID) : M DataSubjectReport :=
  do hcp <- hcps_where_id_first hcpId ;;
  do consentRows <- consents_of_hcp hcpId ;;
  do auditEntries <- audit_log_of_entity "hcp" hcpId desc ;;
  do env <- ask ;;
  ret {| generatedAt := clock env;
         report_hcpId := hcpId;
         personalData :=
           (fun h =>
              {| pd_specialty := Hcps.specialty h;
                 pd_influenceLevel := Hcps.influence_level h;
                 pd_territory := Hcps.territory_id h;
                 pd_isActive := Hcps.is_active h;
                 pd_createdAt := Hcps.created_at h;
                 hasEncryptedEmail := negb (is_null (Js.truthy (Hcps.email_encrypted h)));
                 hasEncryptedPhone := negb (is_null (Js.truthy (Hcps.phone_encrypted h)));
                 hasEncryptedName := true |}) <$> hcp;
         consentRecords := consentRows;
         accessLog :=
           map (fun a => (AuditLog.action a, AuditLog.user_id a, AuditLog.created_at a))
               auditEntries |}.

(** [router.get('/gdpr/data-subject-report/:hcpId')]
    ([modules/compliance/compliance.routes.ts]) *)
Definition get_gdpr_data_subject_report (req : Request) (hcpId : UUID)
    : M DataSubjectReport :=
  do report <- generateDataSubjectReport hcpId ;;
  do _ <- createAuditEntry
    {| userId := user_id req;
       action := AuditAction.EXPORT;
       entityType := "gdpr_report";
       entityId := Some hcpId;
       previousState := None;
       newState := None;
       ipAddress := fst (getRequestMeta req);
       userAgent := snd (getRequestMeta req);
       metadata := Some [("reportType", JString "data_subject_access")] |} ;;
  ret report.

(** ** Part X.  The operations of the layer as one transition system *)

Inductive Op :=
| CreateSubject (req : Request) (body : CreateHCPInput)
| ViewSubject (req : Request) (id : UUID)
| UpdateSubject (req : Request) (id : UUID) (body : UpdateHCPInput)
| SoftDeleteSubject (req : Request) (id : UUID)
| AnonymizeSubject (req : Request) (id : UUID)
| RecordConsent (req : Request) (body : CreateConsentInput)
| Enforce (consentType : ConsentType.t) (req : Request)
| ConsentHistory (hcpId : UUID)
| SubjectReport (req : Request) (hcpId : UUID)
| VerifyIntegrity (entityType : string) (entityId : UUID).

Definition discard {A} (m : M A) : M unit := do _ <- m ;; ret tt.

Definition exec {aes : CryptoJS_AES} {js : Js.Engine} (op : Op) : M unit :=
  match op with
  | CreateSubject req body => discard (post_hcps req body)
  | ViewSubject req id => discard (get_hcps_id req id)
  | UpdateSubject req id body => discard (patch_hcps_id req id body)
  | SoftDeleteSubject req id => delete_hcps_id req id
  | AnonymizeSubject req id => post_hcps_id_anonymize req id
  | RecordConsent req body => discard (post_hcps_id_consents req body)
  | Enforce consentType req => requireConsent consentType req
  | ConsentHistory hcpId => discard (getConsentHistory hcpId)
  | SubjectReport req hcpId => discard (get_gdpr_data_subject_report req hcpId)
  | VerifyIntegrity entityType entityId => discard (verifyDataIntegrity entityType entityId)
  end.

(** A history: requests served one after the other, each in its own
    environment; the store is what the previous request left, whether
    it succeeded or threw. *)
Fixpoint serve {aes : CryptoJS_AES} {js : Js.Engine}
    (history : list (Env * Op)) (w : World) : World :=
  match history with
  | [] => w
  | (env, op) :: rest => serve rest (final (exec op env w))
  end.

(** The five mutations of the layer, with the audit entry each handler
    writes. *)
Definition mutating (op : Op) : bool :=
  match op with
  | CreateSubject _ _ | UpdateSubject _ _ _ | SoftDeleteSubject _ _
  | AnonymizeSubject _ _ | RecordConsent _ _ => true
  | _ => false
  end.

Definition audited_action (op : Op) : AuditAction.t :=
  match op with
  | CreateSubject _ _ => AuditAction.CREATE
  | UpdateSubject _ _ _ => AuditAction.UPDATE
  | SoftDeleteSubject _ _ | AnonymizeSubject _ _ => AuditAction.DELETE
  | RecordConsent _ _ => AuditAction.CONSENT_CHANGE
  | ViewSubject _ _ => AuditAction.VIEW
  | _ => AuditAction.EXPORT
  end.

Definition audited_entity (env : Env) (op : Op) : string * option UUID :=
  match op with
  | CreateSubject _ _ => ("hcp", Some (uuid_service env))
  | UpdateSubject _ id _ | SoftDeleteSubject _ id | AnonymizeSubject _ id
  | ViewSubject _ id => ("hcp", Some id)
  | RecordConsent _ _ => ("consent", Some (uuid_service env))
  | SubjectReport _ hcpId => ("gdpr_report", Some hcpId)
  | _ => ("", None)
  end.

(** The same environment with the audit table rejecting statements. *)
Definition audit_down (env : Env) : Env :=
  MkEnv (config env) (clock env) (uuid_service env) (uuid_audit env)
        (fun t => match t with T_audit_log => true | _ => unavailable env t end).

Definition healthy (env : Env) : Prop := forall t, unavailable env t = false.

Definition fresh_audit_id (env : Env) (w : World) : Prop :=
  Forall (fun a => AuditLog.id a <> uuid_audit env) (audit_log w).

Definition key_configured (env : Env) : Prop :=
  not_configured (encryption_key (config env)) = false.

(** ** Part XI.  An executable cipher instance and sample data *)

(** The framing of the package around a byte-wise XOR in place of the
    block cipher: the message is padded as PKCS#7 pads it, every byte
    is combined with a byte folded from the key and IV characters, and
    the result is written as Base64.  It is an instance of the cipher
    interface on which the handlers can be run on concrete requests. *)

Lemma Base64_value_digit b5 b4 b3 b2 b1 b0 :
  Base64.value (Base64.digit (Base64.sextet b5 b4 b3 b2 b1 b0))
  = Some (Base64.sextet b5 b4 b3 b2 b1 b0).
Proof. by destruct b5, b4, b3, b2, b1, b0. Qed.

Lemma Base64_bits b5 b4 b3 b2 b1 b0 :
  let v := Base64.sextet b5 b4 b3 b2 b1 b0 in
  Base64.bit v 5 = b5 /\ Base64.bit v 4 = b4 /\ Base64.bit v 3 = b3
  /\ Base64.bit v 2 = b2 /\ Base64.bit v 1 = b1 /\ Base64.bit v 0 = b0.
Proof. by destruct b5, b4, b3, b2, b1, b0. Qed.

Lemma Base64_padding_value : Base64.value Base64.padding = None.
Proof. reflexivity. Qed.

Lemma Base64_symbol_digit b5 b4 b3 b2 b1 b0 :
  Base64.symbol (Base64.digit (Base64.sextet b5 b4 b3 b2 b1 b0)) = true.
Proof. unfold Base64.symbol. by rewrite Base64_value_digit. Qed.

(** Induction three bytes at a time. *)
Lemma list_ind3 {A} (P : list A -> Prop) :
  P [] -> (forall a, P [a]) -> (forall a b, P [a; b]) ->
  (forall a b c rest, P rest -> P (a :: b :: c :: rest)) ->
  forall l, P l.
Proof.
  intros H0 H1 H2 H3. fix IH 1.
  intros [|a [|b [|c rest]]]; [done..|]. apply H3, IH.
Qed.

Lemma Base64_decode_encode bytes : Base64.decode (Base64.encode bytes) = Some bytes.
Proof.
  induction bytes as [|[a0 a1 a2 a3 a4 a5 a6 a7]
                      |[a0 a1 a2 a3 a4 a5 a6 a7] [b0 b1 b2 b3 b4 b5 b6 b7]
                      |[a0 a1 a2 a3 a4 a5 a6 a7] [b0 b1 b2 b3 b4 b5 b6 b7]
                       [c0 c1 c2 c3 c4 c5 c6 c7] rest IH] using list_ind3.
  - done.
  - cbn [Base64.encode Base64.decode].
    rewrite !Base64_value_digit, Base64_padding_value. cbn.
    unfold Base64.byte1.
    destruct (Base64_bits a7 a6 a5 a4 a3 a2) as (-> & -> & -> & -> & -> & ->).
    by destruct (Base64_bits a1 a0 false false false false) as (-> & -> & _).
  - cbn [Base64.encode Base64.decode].
    rewrite !Base64_value_digit, Base64_padding_value. cbn.
    unfold Base64.byte1, Base64.byte2.
    destruct (Base64_bits a7 a6 a5 a4 a3 a2) as (-> & -> & -> & -> & -> & ->).
    destruct (Base64_bits a1 a0 b7 b6 b5 b4) as (-> & -> & -> & -> & -> & ->).
    by destruct (Base64_bits b3 b2 b1 b0 false false) as (-> & -> & -> & -> & _).
  - cbn [Base64.encode Base64.decode].
    rewrite !Base64_value_digit, IH. cbn.
    unfold Base64.byte1, Base64.byte2, Base64.byte3.
    destruct (Base64_bits a7 a6 a5 a4 a3 a2) as (-> & -> & -> & -> & -> & ->).
    destruct (Base64_bits a1 a0 b7 b6 b5 b4) as (-> & -> & -> & -> & -> & ->).
    destruct (Base64_bits b3 b2 b1 b0 c7 c6) as (-> & -> & -> & -> & -> & ->).
    by destruct (Base64_bits c5 c4 c3 c2 c1 c0) as (-> & -> & -> & -> & -> & ->).
Qed.

Lemma Base64_encode_length bytes :
  length (Base64.encode bytes) = Base64.length_of (length bytes).
Proof.
  unfold Base64.length_of.
  induction bytes as [|[]|[] []|[] [] [] rest IH] using list_ind3; [done..|].
  cbn [Base64.encode length]. rewrite IH.
  replace (S (S (S (length rest))) + 2)%nat with (1 * 3 + (length rest + 2))%nat by lia.
  rewrite Nat.div_add_l by lia. lia.
Qed.

Lemma Base64_encode_symbols bytes :
  Forall (fun c => Base64.symbol c = true) (Base64.encode bytes).
Proof.
  induction bytes as [|[]|[] []|[] [] [] rest IH] using list_ind3;
    cbn [Base64.encode]; repeat constructor; try apply Base64_symbol_digit; done.
Qed.

Lemma Base64_text_encode bytes :
  Base64.text (string_of_list_ascii (Base64.encode bytes)) = true.
Proof.
  pose proof (Base64_encode_symbols bytes) as H.
  induction H as [|c l Hc _ IH]; simpl; [done|]. by rewrite Hc, IH.
Qed.

Module XorCipher.

Definition xor_char (a b : ascii) : ascii :=
  match a, b with
  | Ascii a0 a1 a2 a3 a4 a5 a6 a7, Ascii b0 b1 b2 b3 b4 b5 b6 b7 =>
      Ascii (xorb a0 b0) (xorb a1 b1) (xorb a2 b2) (xorb a3 b3)
            (xorb a4 b4) (xorb a5 b5) (xorb a6 b6) (xorb a7 b7)
  end.

Fixpoint fold_chars (s : string) (acc : ascii) : ascii :=
  match s with
  | EmptyString => acc
  | String c rest => fold_chars rest (xor_char acc c)
  end.

Definition key_byte (key iv : string) : ascii := fold_chars iv (fold_chars key "*"%char).

Definition mask (k : ascii) (m : list ascii) : list ascii := map (xor_char k) m.

(** PKCS#7: [p] bytes of value [p], [1 <= p <= 16], bring the message
    to a whole number of sixteen-byte blocks. *)
Definition pkcs7_pad (m : list ascii) : list ascii :=
  let p := (16 - length m mod 16)%nat in
  m ++ replicate p (ascii_of_nat p).

Definition pkcs7_unpad (m : list ascii) : list ascii :=
  match last m with
  | Some c => take (length m - nat_of_ascii c) m
  | None => []
  end.

Definition encrypt (key iv m : string) : string :=
  string_of_list_ascii
    (Base64.encode (mask (key_byte key iv) (pkcs7_pad (list_ascii_of_string m)))).

Definition decrypt (key iv c : string) : option string :=
  match Base64.decode (list_ascii_of_string c) with
  | Some blocks => Some (string_of_list_ascii (pkcs7_unpad (mask (key_byte key iv) blocks)))
  | None => None
  end.

Lemma xor_char_involutive k c : xor_char k (xor_char k c) = c.
Proof.
  destruct k, c; simpl.
  f_equal; rewrite <- xorb_assoc, xorb_nilpotent; apply xorb_false_l.
Qed.

Lemma mask_involutive k m : mask k (mask k m) = m.
Proof.
  unfold mask. rewrite map_map. rewrite <- (map_id m) at 2.
  apply map_ext. intros c. apply xor_char_involutive.
Qed.

Lemma pkcs7_pad_length m : length (pkcs7_pad m) = (16 * (length m / 16 + 1))%nat.
Proof.
  unfold pkcs7_pad. rewrite length_app, length_replicate.
  pose proof (Nat.div_mod_eq (length m) 16).
  pose proof (Nat.mod_upper_bound (length m) 16). lia.
Qed.

Lemma pkcs7_unpad_pad m : pkcs7_unpad (pkcs7_pad m) = m.
Proof.
  unfold pkcs7_unpad, pkcs7_pad.
  pose proof (Nat.mod_upper_bound (length m) 16 ltac:(lia)) as Hlt.
  set (p := (16 - length m mod 16)%nat).
  assert (Hp : (1 <= p <= 16)%nat) by (unfold p; lia).
  destruct p as [|q] eqn:Hq; [lia|].
  rewrite replicate_S_end, app_assoc, last_snoc.
  rewrite nat_ascii_embedding by lia.
  rewrite length_app, length_app, length_replicate. simpl.
  rewrite <- app_assoc.
  replace (length m + q + 1 - S q)%nat with (length m) by lia.
  by rewrite take_app_length.
Qed.

Lemma length_string_of_list_ascii l : String.length (string_of_list_ascii l) = length l.
Proof. induction l as [|c l IH]; simpl; [done|]. by rewrite IH. Qed.

Lemma length_list_ascii_of_string s : length (list_ascii_of_string s) = String.length s.
Proof. induction s as [|c s IH]; simpl; [done|]. by rewrite IH. Qed.

Lemma encrypt_length key iv m :
  String.length (encrypt key iv m) = Base64.length_of (16 * (String.length m / 16 + 1)).
Proof.
  unfold encrypt, mask.
  rewrite length_string_of_list_ascii, Base64_encode_length, length_map, pkcs7_pad_length.
  by rewrite length_list_ascii_of_string.
Qed.

Lemma encrypt_text key iv m : Base64.text (encrypt key iv m) = true.
Proof. apply Base64_text_encode. Qed.

Definition instance : CryptoJS_AES :=
  {| AES_encrypt := encrypt;
     AES_decrypt := decrypt;
     AES_encrypt_length := encrypt_length;
     AES_encrypt_text := encrypt_text |}.

End XorCipher.

Lemma XorCipher_inverse : AES_inverse XorCipher.instance.
Proof.
  intros key iv m. simpl. unfold XorCipher.decrypt, XorCipher.encrypt.
  rewrite list_ascii_of_string_of_list_ascii, Base64_decode_encode.
  by rewrite XorCipher.mask_involutive, XorCipher.pkcs7_unpad_pad,
    string_of_list_ascii_of_string.
Qed.

(** An engine for requests in ASCII: on those every engine lower-cases
    the letters A to Z and keeps the rest. *)
Module AsciiEngine.

Definition instance : Js.Engine :=
  {| Js.toLowerCase := Js.ascii_lower;
     Js.toLowerCase_ascii := fun _ _ => eq_refl |}.

End AsciiEngine.

Module Sample.

Definition key : string :=
  "00112233445566778899aabbccddeeff00112233445566778899aabbccddeeff".
Definition iv : string := "000102030405060708090a0b0c0d0e0f".
Definition cfg : Config := MkConfig key iv.

Definition all_up : Table -> bool := fun _ => false.
Definition audit_log_down : Table -> bool :=
  fun t => match t with T_audit_log => true | _ => false end.

Definition env (now : Timestamp) (service_id audit_id : UUID) : Env :=
  MkEnv cfg now service_id audit_id all_up.

Definition req : Request :=
  {| user_id := "u-1"; method := "POST"; ip := Some "10.0.0.7";
     socket_remoteAddress := None; header_user_agent := Some "curl/8";
     params_id := None; params_hcpId := None; body_hcpId := None |}.

(** An empty store that knows one institution and one territory. *)
Definition empty : World := MkWorld ∅ [] [] [] {["i-1"]} {["t-1"]}.

Definition alice : CreateHCPInput :=
  {| c_externalId := Some "NPI-1"; c_firstName := "Alice"; c_lastName := "Moreau";
     c_email := Some "a@x.com"; c_phone := Some "555-CALL";
     c_specialty := "cardiology"; c_subSpecialty := None;
     c_influenceLevel := "high"; c_primaryInstitutionId := None;
     c_territoryId := None; c_title := Some "Dr."; c_yearsOfPractice := Some 12;
     c_languages := None; c_therapeuticAreas := None; c_metadata := None |}.

(** The store after Alice has been created at time 1000. *)
Definition w1 : World :=
  final (@post_hcps XorCipher.instance AsciiEngine.instance
           req alice (env 1000 "h-1" "a-1") empty).

Definition to_oncology : UpdateHCPInput :=
  MkUpdateHCPInput None None None None None (Some "oncology")
                   None None None None None None None None None.

Definition rename_to_alicia : UpdateHCPInput :=
  MkUpdateHCPInput None (Some "Alicia") None None None None
                   None None None None None None None None None.

Definition grant_email : CreateConsentInput :=
  {| i_hcpId := "h-1"; i_consentType := ConsentType.EMAIL;
     i_status := ConsentStatus.GRANTED; i_expiresAt := Some 5000;
     i_source := Some "form"; i_evidenceUrl := None; i_notes := None |}.

(** The store after an e-mail consent, expiring at 5000, was granted
    at time 1500. *)
Definition w2 : World :=
  final (post_hcps_id_consents req grant_email (env 1500 "c-1" "a-2") w1).

Definition engagement : Request :=
  {| user_id := "u-1"; method := "POST"; ip := Some "10.0.0.7";
     socket_remoteAddress := None; header_user_agent := Some "curl/8";
     params_id := None; params_hcpId := None; body_hcpId := Some "h-1" |}.

(** The store after Alice was soft-deleted at time 2500. *)
Definition w3 : World :=
  final (delete_hcps_id req "h-1" (env 2500 "x" "a-3") w2).

(** A subject whose first name is the sentinel itself. *)
Definition nameless : CreateHCPInput :=
  {| c_externalId := None; c_firstName := "[ANONYMIZED]"; c_lastName := "Roe";
     c_email := None; c_phone := None;
     c_specialty := "other"; c_subSpecialty := None;
     c_influenceLevel := "low"; c_primaryInstitutionId := None;
     c_territoryId := None; c_title := None; c_yearsOfPractice := None;
     c_languages := None; c_therapeuticAreas := None; c_metadata := None |}.

Definition w4 : World :=
  final (@post_hcps XorCipher.instance AsciiEngine.instance
           req nameless (env 1200 "h-2" "a-9") empty).

Definition entry (id : UUID) (a : AuditAction.t) (at_ : Timestamp) : AuditLog.row :=
  {| AuditLog.id := id; AuditLog.user_id := Some "u-1"; AuditLog.action := a;
     AuditLog.entity_type := "hcp"; AuditLog.entity_id := Some "h-7";
     AuditLog.previous_state := None; AuditLog.new_state := None;
     AuditLog.ip_address := "10.0.0.7"; AuditLog.user_agent := "curl/8";
     AuditLog.metadata := []; AuditLog.created_at := at_ |}.

(** An audit log built by hand, stored out of order: an update dated
    after a delete, and no create. *)
Definition tampered : World :=
  MkWorld ∅ []
    [entry "e-3" AuditAction.UPDATE 30; entry "e-2" AuditAction.DELETE 20;
     entry "e-1" AuditAction.VIEW 10]
    [] ∅ ∅.

End Sample.

(** ** Part XII.  Vocabulary of the properties *)

(** [x] may stand before [y] in rows ordered by [key] in direction [d]. *)
Definition in_order {A : Type} (key : A -> Z) (d : Direction) (x y : A) : Prop :=
  precedes d (key x) (key y) = true.

(** The consent records of one (subject, channel) pair. *)
Definition consent_records (w : World) (hcpId : UUID) (ct : ConsentType.t)
    : list Consents.row :=
  filter (fun c => Consents.hcp_id c = hcpId /\ Consents.consent_type c = ct) (consents w).

(** [c] is a most recently created record of [records]. *)
Definition most_recent (records : list Consents.row) (c : Consents.row) : Prop :=
  c ∈ records
  /\ forall c', c' ∈ records -> Consents.created_at c' <= Consents.created_at c.

(** Granted, and not past its expiry when it has one. *)
Definition in_force (now : Timestamp) (c : Consents.row) : Prop :=
  Consents.status c = ConsentStatus.GRANTED
  /\ forall e, Consents.expires_at c = Some e -> ~ e < now.

(** The audit entries of one (entity type, entity id) pair. *)
Definition entity_entries (w : World) (entityType : string) (entityId : UUID)
    : list AuditLog.row :=
  filter (fun a => AuditLog.entity_type a = entityType
                   /\ AuditLog.entity_id a = Some entityId)
         (audit_log w).

Definition ascending (entries : list AuditLog.row) : Prop :=
  StronglySorted (fun a b => AuditLog.created_at a <= AuditLog.created_at b) entries.

(** Check (a) fails: there are entries and none is a [create]. *)
Definition missing_create (entries : list AuditLog.row) : Prop :=
  entries <> []
  /\ forall e, e ∈ entries -> AuditLog.action e <> AuditAction.CREATE.

(** Check (b) fails: an [update] stands after a [delete]. *)
Definition update_after_delete (entries : list AuditLog.row) : Prop :=
  exists (i j : nat) d u,
    (i < j)%nat
    /\ entries !! i = Some d /\ AuditLog.action d = AuditAction.DELETE
    /\ entries !! j = Some u /\ AuditLog.action u = AuditAction.UPDATE.

(** A statement that leaves the rows of [consents] and [audit_log] as
    they are: a read, an insert, or a write to another table. *)
Definition read_or_insert (s : Stmt) : Prop :=
  match s with
  | Select _ | Insert _ => True
  | Update t | Delete t => t = T_hcps
  end.

(** [w'] keeps every consent and audit row of [w], in place and
    unchanged, and was reached by reads and inserts on those tables. *)
Record extends (w w' : World) : Prop := Extends {
  audit_kept : audit_log w `prefix_of` audit_log w';
  consents_kept : consents w `prefix_of` consents w';
  only_appends :
    exists issued, statements w' = statements w ++ issued
                   /\ Forall read_or_insert issued
}.

(** Every run of [m] takes a world to one related to it by [R]. *)
Definition respects (R : World -> World -> Prop) {A} (m : M A) : Prop :=
  forall env w, R w (final (m env w)).

(** The audit table is left exactly as it was. *)
Definition same_audit_log (w w' : World) : Prop := audit_log w' = audit_log w.

(** The row [createAuditEntry] inserts for [params]. *)
Definition audit_row (params : AuditParams) (env : Env) : AuditLog.row :=
  {| AuditLog.id := uuid_audit env;
     AuditLog.user_id := Some (userId params);
     AuditLog.action := action params;
     AuditLog.entity_type := entityType params;
     AuditLog.entity_id := entityId params;
     AuditLog.previous_state := previousState params;
     AuditLog.new_state := newState params;
     AuditLog.ip_address := ipAddress params;
     AuditLog.user_agent := userAgent params;
     AuditLog.metadata := default [] (metadata params);
     AuditLog.created_at := clock env |}.

(** [a] and [b] differ at most in letter case: the engine lower-cases
    them to the same string. *)
Definition differ_in_case_only {js : Js.Engine} (a b : string) : Prop :=
  Js.toLowerCase a = Js.toLowerCase b.

(** Two strings that differ only in the case of the letters A to Z. *)
Definition is_upper (c : ascii) : Prop := (65 <= N_of_ascii c <= 90)%N.

Inductive case_variant_char : ascii -> ascii -> Prop :=
| same_char c : case_variant_char c c
| upper_lower c : is_upper c -> case_variant_char c (ascii_of_N (N_of_ascii c + 32))
| lower_upper c : is_upper c -> case_variant_char (ascii_of_N (N_of_ascii c + 32)) c.

Inductive case_variant : string -> string -> Prop :=
| variant_nil : case_variant EmptyString EmptyString
| variant_cons a b s t :
    case_variant_char a b -> case_variant s t ->
    case_variant (String a s) (String b t).

(** The assignments [update] hands to the store for [input]. *)
Definition update_assignments {aes : CryptoJS_AES} {js : Js.Engine}
    (cfg : Config) (now : Timestamp) (input : UpdateHCPInput) : Hcps.updates :=
  let enc := AES_encrypt (encryption_key cfg) (encryption_iv cfg) in
  let token := fun v => hashForIndex cfg (Js.toLowerCase v) in
  {| Hcps.set_external_id := None;
     Hcps.set_first_name_encrypted := enc <$> u_firstName input;
     Hcps.set_first_name_hash := token <$> u_firstName input;
     Hcps.set_last_name_encrypted := enc <$> u_lastName input;
     Hcps.set_last_name_hash := token <$> u_lastName input;
     Hcps.set_email_encrypted := (fun v => enc <$> Js.truthy (Some v)) <$> u_email input;
     Hcps.set_email_hash := (fun v => token <$> Js.truthy (Some v)) <$> u_email input;
     Hcps.set_phone_encrypted := (fun v => enc <$> Js.truthy (Some v)) <$> u_phone input;
     Hcps.set_phone_hash :=
       (fun v => hashForIndex cfg <$> Js.truthy (Some v)) <$> u_phone input;
     Hcps.set_specialty := u_specialty input;
     Hcps.set_sub_specialty := Some <$> u_subSpecialty input;
     Hcps.set_influence_level := u_influenceLevel input;
     Hcps.set_primary_institution_id := Some <$> u_primaryInstitutionId input;
     Hcps.set_territory_id := Some <$> u_territoryId input;
     Hcps.set_title := Some <$> u_title input;
     Hcps.set_years_of_practice := Some <$> u_yearsOfPractice input;
     Hcps.set_languages := u_languages input;
     Hcps.set_therapeutic_areas := u_therapeuticAreas input;
     Hcps.set_metadata := u_metadata input;
     Hcps.set_is_active := None;
     Hcps.set_updated_at := Some now;
     Hcps.set_deleted_at := None |}.

(** [input] with the sub-specialty and the title cut to their columns,
    [varchar(100)] and [varchar(50)]. *)
Definition within_columns (input : UpdateHCPInput) : UpdateHCPInput :=
  {| u_externalId := u_externalId input;
     u_firstName := u_firstName input;
     u_lastName := u_lastName input;
     u_email := u_email input;
     u_phone := u_phone input;
     u_specialty := u_specialty input;
     u_subSpecialty := Pg.fit 100 <$> u_subSpecialty input;
     u_influenceLevel := u_influenceLevel input;
     u_primaryInstitutionId := u_primaryInstitutionId input;
     u_territoryId := u_territoryId input;
     u_title := Pg.fit 50 <$> u_title input;
     u_yearsOfPractice := u_yearsOfPractice input;
     u_languages := u_languages input;
     u_therapeuticAreas := u_therapeuticAreas input;
     u_metadata := u_metadata input |}.

(** The assignments [anonymize] hands to the store. *)
Definition anonymize_assignments {aes : CryptoJS_AES}
    (cfg : Config) (now : Timestamp) : Hcps.updates :=
  let sentinel := AES_encrypt (encryption_key cfg) (encryption_iv cfg) ANONYMIZED in
  {| Hcps.set_external_id := Some None;
     Hcps.set_first_name_encrypted := Some sentinel;
     Hcps.set_first_name_hash := Some (hashForIndex cfg ANONYMIZED);
     Hcps.set_last_name_encrypted := Some sentinel;
     Hcps.set_last_name_hash := Some (hashForIndex cfg ANONYMIZED);
     Hcps.set_email_encrypted := Some None;
     Hcps.set_email_hash := Some None;
     Hcps.set_phone_encrypted := Some None;
     Hcps.set_phone_hash := Some None;
     Hcps.set_specialty := None;
     Hcps.set_sub_specialty := None;
     Hcps.set_influence_level := None;
     Hcps.set_primary_institution_id := None;
     Hcps.set_territory_id := None;
     Hcps.set_title := None;
     Hcps.set_years_of_practice := None;
     Hcps.set_languages := None;
     Hcps.set_therapeutic_areas := None;
     Hcps.set_metadata :=
       Some [("anonymized", JBool true); ("anonymized_at", JIsoDate now)];
     Hcps.set_is_active := Some false;
     Hcps.set_updated_at := None;
     Hcps.set_deleted_at := Some (Some now) |}.

(** The store takes the assignments [u]: every value is of its column's
    type and enumeration, and the institution and territory assigned
    are rows the store holds. *)
Definition accepted (w : World) (u : Hcps.updates) : Prop :=
  Hcps.type_error u = None /\ Hcps.check_failure u = None /\ dangling w u = None.

(** The ciphertexts stored in [row] decrypt under [cfg]. *)
Definition decryptable {aes : CryptoJS_AES} (cfg : Config) (row : Hcps.row) : Prop :=
  (exists p, decryptPII cfg (Hcps.first_name_encrypted row) = Ok p)
  /\ (exists p, decryptPII cfg (Hcps.last_name_encrypted row) = Ok p)
  /\ (forall c, Js.truthy (Hcps.email_encrypted row) = Some c ->
                exists p, decryptPII cfg c = Ok p)
  /\ (forall c, Js.truthy (Hcps.phone_encrypted row) = Some c ->
                exists p, decryptPII cfg c = Ok p).

(** [m] runs the same whether or not the audit table is reachable. *)
Definition oblivious {A} (m : M A) : Prop :=
  forall env w, m (audit_down env) w = m env w.

(** The shape of the mutating routes: the service call, then the audit
    entry built from its result, then the response. *)
Definition audited {A B} (service : M A) (params : A -> AuditParams) (respond : A -> B)
    : M B :=
  do x <- service ;;
  do _ <- createAuditEntry (params x) ;;
  ret (respond x).

(** ** Part XIII.  Properties *)

(** *** Sorting and searching *)

Lemma StronglySorted_weaken {A} (R S : A -> A -> Prop) (l : list A) :
  (forall a b, R a b -> S a b) -> StronglySorted R l -> StronglySorted S l.
Proof.
  intros HRS. induction 1 as [|x rest Hrest IH Hall]; constructor; [done|].
  eapply Forall_impl; [exact Hall|]. intros y. apply HRS.
Qed.

Section OrderBy.
Context {A : Type} (key : A -> Z) (d : Direction).

Local Abbreviation in_order := (in_order key d).

Lemma precedes_total x y : precedes d x y = false -> precedes d y x = true.
Proof. destruct d; simpl; lia. Qed.

Lemma precedes_trans x y z :
  precedes d x y = true -> precedes d y z = true -> precedes d x z = true.
Proof. destruct d; simpl; lia. Qed.

Lemma place_perm x l : Permutation (place key d x l) (x :: l).
Proof.
  induction l as [|y rest IH]; simpl; [done|].
  destruct (precedes d (key x) (key y)); [done|].
  rewrite IH. apply perm_swap.
Qed.

Lemma orderBy_perm l : Permutation (orderBy key d l) l.
Proof.
  induction l as [|x rest IH]; simpl; [done|].
  rewrite place_perm. by constructor.
Qed.

Lemma place_sorted x l :
  StronglySorted in_order l -> StronglySorted in_order (place key d x l).
Proof.
  induction 1 as [|y rest Hrest IH Hall]; simpl.
  - repeat constructor.
  - destruct (precedes d (key x) (key y)) eqn:Hxy.
    + constructor; [by constructor|].
      constructor; [done|].
      eapply Forall_impl; [exact Hall|].
      intros z Hz. by eapply precedes_trans.
    + constructor; [done|].
      rewrite (place_perm x rest).
      constructor; [|done].
      by apply precedes_total.
Qed.

Lemma orderBy_sorted l : StronglySorted in_order (orderBy key d l).
Proof.
  induction l as [|x rest IH]; simpl; [constructor|].
  by apply place_sorted.
Qed.

Lemma orderBy_nil l : orderBy key d l = [] <-> l = [].
Proof.
  split; [|by intros ->].
  intros H. apply Permutation_nil. by rewrite <- H, orderBy_perm.
Qed.

(** The head of the ordered rows is one of the rows and precedes
    every row. *)
Lemma first_orderBy l x :
  first (orderBy key d l) = Some x ->
  x ∈ l /\ forall y, y ∈ l -> in_order x y.
Proof.
  unfold first. intros H.
  pose proof (orderBy_sorted l) as Hs. pose proof (orderBy_perm l) as Hp.
  destruct (orderBy key d l) as [|h rest]; simplify_eq/=.
  split.
  - rewrite <- Hp. by left.
  - intros y Hy. rewrite <- Hp in Hy.
    apply elem_of_cons in Hy as [->|Hy].
    + unfold in_order. destruct d; simpl; lia.
    + apply StronglySorted_inv in Hs as [_ Hall].
      by eapply Forall_forall in Hall.
Qed.

End OrderBy.

Section FindIndex.
Context {A : Type} (p : A -> bool).

Lemma findIndex_none (l : list A) :
  findIndex p l < 0 -> Forall (fun x => p x = false) l.
Proof.
  induction l as [|x rest IH]; simpl; [constructor|].
  destruct (p x) eqn:Hx; [lia|].
  destruct (findIndex p rest <? 0) eqn:E; [|lia].
  intros _. constructor; [done|]. apply IH. lia.
Qed.

(** A non-negative result is the position of the first match. *)
Lemma findIndex_some (l : list A) :
  0 <= findIndex p l ->
  exists x, l !! Z.to_nat (findIndex p l) = Some x /\ p x = true
            /\ Forall (fun y => p y = false) (take (Z.to_nat (findIndex p l)) l).
Proof.
  induction l as [|x rest IH]; simpl; [lia|].
  destruct (p x) eqn:Hx.
  - intros _. exists x. simpl. by repeat split.
  - destruct (findIndex p rest <? 0) eqn:E; [lia|].
    intros _. destruct IH as (y & Hy & Hpy & Hbefore); [lia|].
    exists y.
    replace (Z.to_nat (findIndex p rest + 1)) with (S (Z.to_nat (findIndex p rest))) by lia.
    simpl. repeat split; [done..|]. by constructor.
Qed.

End FindIndex.

(** *** SHA-256 test vectors (FIPS 180-4) *)

Lemma SHA256_round_constants :
  length SHA256.K = 64%nat
  /\ head SHA256.K = Some 0x428a2f98 /\ last SHA256.K = Some 0xc67178f2.
Proof. by vm_compute. Qed.

Lemma SHA256_empty :
  SHA256.hex "" = "e3b0c44298fc1c149afbf4c8996fb92427ae41e4649b934ca495991b7852b855".
Proof. by vm_compute. Qed.

Lemma SHA256_abc :
  SHA256.hex "abc" = "ba7816bf8f01cfea414140de5dae2223b00361a396177a9cb410ff61f20015ad".
Proof. by vm_compute. Qed.

Lemma SHA256_two_blocks :
  SHA256.hex "abcdbcdecdefdefgefghfghighijhijkijkljklmklmnlmnomnopnopq"
  = "248d6a61d20638b8e5c026930c3e6039a33ce45964ff2167f6ecedd419db06c1".
Proof. by vm_compute. Qed.

Example ascii_lower_sample : Js.ascii_lower "Moreau@X.com" = "moreau@x.com".
Proof. reflexivity. Qed.

Example hashForIndex_alice :
  hashForIndex Sample.cfg "alice"
  = "83ddfb12819c699009c068620b00c249e05ea4191ea59b16822c08afa0c317a9".
Proof. by vm_compute. Qed.

(** *** Column types *)

Lemma fit_short n s : (String.length s <= n)%nat -> Pg.fit n s = s.
Proof.
  revert n. induction s as [|c rest IH]; intros n Hn; simpl in *; [done|].
  destruct (Pg.continuation c); [rewrite IH by lia; done|].
  destruct n as [|m]; [lia|]. rewrite IH by lia. done.
Qed.

Lemma excess_short n s : (String.length s <= n)%nat -> Pg.excess n s = "".
Proof.
  revert n. induction s as [|c rest IH]; intros n Hn; simpl in *; [done|].
  destruct (Pg.continuation c); [apply IH; lia|].
  destruct n as [|m]; [lia|]. apply IH. lia.
Qed.

(** A value no longer than the column is kept as it is. *)
Lemma varchar_short n s : (String.length s <= n)%nat -> Pg.varchar n s = Some s.
Proof. intros Hn. unfold Pg.varchar. by rewrite excess_short, fit_short. Qed.

(** Base64 text holds no space: it is kept as it is or refused. *)
Lemma fit_text n s :
  Base64.text s = true -> Pg.blank (Pg.excess n s) = true -> Pg.fit n s = s.
Proof.
  revert n. induction s as [|c rest IH]; intros n Htext Hblank; simpl in *; [done|].
  apply andb_true_iff in Htext as [Hc Hrest].
  destruct (Pg.continuation c); [by rewrite IH|].
  destruct n as [|m]; [|by rewrite IH].
  simpl in Hblank. apply andb_true_iff in Hblank as [Hspace _].
  apply Ascii.eqb_eq in Hspace. by subst c.
Qed.

Lemma first_failure_None checks :
  first_failure checks = None <-> Forall (fun check => check = None) checks.
Proof.
  induction checks as [|[why|] rest IH]; simpl.
  - split; [constructor|done].
  - split; [done|]. by intros [? _]%Forall_cons.
  - rewrite IH. split; [by constructor|]. by intros [_ ?]%Forall_cons.
Qed.

Lemma too_long_None n column v :
  Hcps.too_long n column v = None <->
  forall s, v = Some s -> Pg.blank (Pg.excess n s) = true.
Proof.
  unfold Hcps.too_long, Pg.varchar. destruct v as [s|]; [|by split].
  destruct (Pg.blank (Pg.excess n s)) eqn:Hblank; split; try done.
  - intros _ s' ?. by simplify_eq.
  - intros H. specialize (H s eq_refl). congruence.
Qed.

(** *** Monad steps *)

Lemma issue_up s env w :
  unavailable env (stmt_table s) = false -> issue s env w = (Ok tt, logged s w).
Proof. unfold issue. by intros ->. Qed.

Lemma issue_down s env w :
  unavailable env (stmt_table s) = true ->
  issue s env w = (Err (DatabaseError (stmt_table s) ConnectionLost), logged s w).
Proof. unfold issue. by intros ->. Qed.

(** *** Field vault *)

(** C7.  With key material configured, decrypting what [encryptPII]
    produced gives the plaintext back; the ciphertext is a function of
    the key, the IV and the plaintext alone (the request's clock,
    identifiers and store play no part); and the index token is a
    function of the key and the value alone. *)
Theorem vault_roundtrip_and_determinism
    {aes : CryptoJS_AES} {contract : AES_inverse aes} (cfg : Config) (x : string) :
  not_configured (encryption_key cfg) = false ->
  (exists c, encryptPII cfg x = Ok c /\ decryptPII cfg c = Ok x)
  /\ (forall env1 env2 w1 w2,
        config env1 = cfg -> config env2 = cfg ->
        outcome (encrypt x env1 w1) = outcome (encrypt x env2 w2))
  /\ (forall cfg', encryption_key cfg' = encryption_key cfg ->
                   hashForIndex cfg' x = hashForIndex cfg x).
Proof.
  intros Hkey. split; [|split].
  - exists (AES_encrypt (encryption_key cfg) (encryption_iv cfg) x).
    unfold encryptPII, decryptPII. rewrite Hkey.
    by rewrite AES_decrypt_encrypt.
  - intros env1 env2 w1 w2 H1 H2. unfold encrypt, lift, outcome. simpl.
    by rewrite H1, H2.
  - intros cfg' Hsame. unfold hashForIndex. by rewrite Hsame.
Qed.

(** C7, witness: the sample key and the e-mail [a@x.com] under the reference cipher. *)
Lemma vault_roundtrip_and_determinism_witness :
  not_configured (encryption_key Sample.cfg) = false
  /\ exists c, @encryptPII XorCipher.instance Sample.cfg "a@x.com" = Ok c
               /\ @decryptPII XorCipher.instance Sample.cfg c = Ok "a@x.com".
Proof.
  split; [reflexivity|].
  apply (@vault_roundtrip_and_determinism XorCipher.instance XorCipher_inverse
           Sample.cfg "a@x.com").
  reflexivity.
Defined.

(** *** Consent gate *)

(** C10.  A request with neither [params.hcpId] nor [body.hcpId] goes
    straight to [next()]: the result is [Ok] and the world, statement
    log included, is the one the middleware was given, so no statement
    was sent to the store. *)
Theorem requireConsent_without_subject
    (consentType : ConsentType.t) (req : Request) (env : Env) (w : World) :
  params_hcpId req = None ->
  body_hcpId req = None ->
  requireConsent consentType req env w = (Ok tt, w).
Proof. intros Hp Hb. unfold requireConsent. by rewrite Hp, Hb. Qed.

(** C10, witness: a request without subject passes even with every table unreachable. *)
Lemma requireConsent_without_subject_witness :
  params_hcpId Sample.req = None
  /\ body_hcpId Sample.req = None
  /\ requireConsent ConsentType.EMAIL Sample.req
       (MkEnv Sample.cfg 2000 "x" "y" (fun _ => true)) Sample.w1
     = (Ok tt, Sample.w1).
Proof.
  split; [reflexivity|]. split; [reflexivity|].
  apply requireConsent_without_subject; reflexivity.
Defined.

(** C4.  For a request that names a subject, with the consent table
    reachable, the gate only reads; it answers [ConsentRequired] when
    the pair has no record, and otherwise there is a most recently
    created record of the pair that decides: the request proceeds when
    that record is granted and not past its expiry, and is answered
    [ConsentRequired] in every other case. *)
Theorem consent_gate_decision
    (ct : ConsentType.t) (req : Request) (env : Env) (w : World) (hcpId : UUID) :
  Js.truthy (Js.or_else (params_hcpId req) (body_hcpId req)) = Some hcpId ->
  unavailable env T_consents = false ->
  final (requireConsent ct req env w) = logged (Select T_consents) w
  /\ ((consent_records w hcpId ct = []
       /\ outcome (requireConsent ct req env w) = Err (ConsentRequiredError hcpId ct))
      \/ exists c,
           most_recent (consent_records w hcpId ct) c
           /\ ((in_force (clock env) c
                /\ outcome (requireConsent ct req env w) = Ok tt)
               \/ (~ in_force (clock env) c
                   /\ outcome (requireConsent ct req env w)
                      = Err (ConsentRequiredError hcpId ct)))).
Proof.
  intros Hid Hup. unfold requireConsent. rewrite Hid.
  unfold consents_latest, bind.
  rewrite issue_up by done.
  unfold get, ret, ask, throw, outcome, final; simpl.
  fold (consent_records w hcpId ct).
  destruct (first (orderBy Consents.created_at desc (consent_records w hcpId ct)))
    as [c|] eqn:Hfirst.
  - apply first_orderBy in Hfirst as [Hin Hmax].
    assert (Hrecent : most_recent (consent_records w hcpId ct) c).
    { split; [done|]. intros c' Hc'. specialize (Hmax c' Hc').
      unfold in_order in Hmax. simpl in Hmax. lia. }
    case_bool_decide as Hst; simpl.
    + destruct (Consents.expires_at c) as [e|] eqn:He.
      * destruct (e <? clock env) eqn:Hlt; simpl.
        -- split; [done|]. right. exists c. split; [done|]. right. split; [|done].
           intros [_ Hexp]. apply (Hexp e); [done|lia].
        -- split; [done|]. right. exists c. split; [done|]. left. split; [|done].
           split; [done|]. intros e' He'. simplify_eq. lia.
      * split; [done|]. right. exists c. split; [done|]. left. split; [|done].
        split; [done|]. intros e' He'. simplify_eq.
    + split; [done|]. right. exists c. split; [done|]. right. split; [|done].
      by intros [Hg _].
  - split; [done|]. left. split; [|done].
    unfold first in Hfirst. apply head_None in Hfirst.
    by apply orderBy_nil in Hfirst.
Qed.

(** C4, witness: Alice's e-mail consent, granted at 1500 and expiring at 5000, lets an e-mail engagement through at 2000, not at 6000, and never a phone engagement. *)
Lemma consent_gate_decision_witness :
  Js.truthy (Js.or_else (params_hcpId Sample.engagement) (body_hcpId Sample.engagement))
    = Some "h-1"
  /\ unavailable (Sample.env 2000 "x" "y") T_consents = false
  /\ outcome (requireConsent ConsentType.EMAIL Sample.engagement
                (Sample.env 2000 "x" "y") Sample.w2) = Ok tt
  /\ outcome (requireConsent ConsentType.EMAIL Sample.engagement
                (Sample.env 6000 "x" "y") Sample.w2)
     = Err (ConsentRequiredError "h-1" ConsentType.EMAIL)
  /\ outcome (requireConsent ConsentType.PHONE Sample.engagement
                (Sample.env 2000 "x" "y") Sample.w2)
     = Err (ConsentRequiredError "h-1" ConsentType.PHONE).
Proof.
  split; [reflexivity|]. split; [reflexivity|].
  pose proof (consent_gate_decision ConsentType.EMAIL Sample.engagement
                (Sample.env 2000 "x" "y") Sample.w2 "h-1" eq_refl eq_refl) as [_ H].
  split; [|split; vm_compute; reflexivity].
  destruct H as [[Hnil _]|(c & _ & [[_ Hok]|[_ Herr]])].
  - vm_compute in Hnil. discriminate Hnil.
  - exact Hok.
  - vm_compute in Herr. discriminate Herr.
Defined.

(** *** Integrity check *)

Lemma fold_found {A} (p : A -> bool) (l : list A) (b : bool) :
  fold_left (fun found x => if p x then true else found) l b = b || existsb p l.
Proof.
  revert b. induction l as [|x rest IH]; intros b; simpl.
  - by rewrite orb_false_r.
  - rewrite IH. destruct (p x), b; simpl; try done.
Qed.

Lemma no_create_iff (entries : list AuditLog.row) :
  existsb (has_action AuditAction.CREATE) entries = false
  <-> forall e, e ∈ entries -> AuditLog.action e <> AuditAction.CREATE.
Proof.
  split.
  - intros H e He Hact.
    assert (existsb (has_action AuditAction.CREATE) entries = true) as Ht; [|congruence].
    apply existsb_exists. exists e. split; [by apply list_elem_of_In|].
    unfold has_action. by apply bool_decide_eq_true.
  - intros H. apply not_true_is_false. intros Ht.
    apply existsb_exists in Ht as (e & He & Hact).
    unfold has_action in Hact. apply bool_decide_eq_true in Hact.
    apply (H e); [by apply list_elem_of_In|done].
Qed.

Lemma positive_length {A} (l : list A) : (0 <? Z.of_nat (length l)) = negb (is_null (head l)).
Proof. destruct l; simpl; [done|]. apply Z.ltb_lt. lia. Qed.

(** What [findIndex] / [slice] / [filter] compute is check (b). *)
Lemma post_delete_updates_iff (entries : list AuditLog.row) :
  update_after_delete entries
  <-> 0 <= findIndex (has_action AuditAction.DELETE) entries
      /\ List.filter (has_action AuditAction.UPDATE)
           (slice (findIndex (has_action AuditAction.DELETE) entries + 1) entries) <> [].
Proof.
  set (idx := findIndex (has_action AuditAction.DELETE) entries).
  split.
  - intros (i & j & d & u & Hij & Hi & Hd & Hj & Hu).
    assert (0 <= idx) as Hidx.
    { destruct (Z_lt_le_dec idx 0) as [Hneg|]; [|done].
      apply findIndex_none in Hneg.
      eapply Forall_lookup_1 in Hneg; [|exact Hi].
      unfold has_action in Hneg. apply bool_decide_eq_false in Hneg. done. }
    split; [done|].
    destruct (findIndex_some (has_action AuditAction.DELETE) entries Hidx)
      as (d0 & Hd0 & _ & Hbefore).
    fold idx in Hd0, Hbefore.
    assert (Z.to_nat idx <= i)%nat as Hle.
    { destruct (le_lt_dec (Z.to_nat idx) i) as [|Hlt]; [done|].
      apply (Forall_lookup_1 _ _ i d) in Hbefore;
        [|by rewrite lookup_take_lt].
      unfold has_action in Hbefore. apply bool_decide_eq_false in Hbefore. done. }
    intros Hnil.
    assert (In u (List.filter (has_action AuditAction.UPDATE) (slice (idx + 1) entries))) as Hin.
    { apply filter_In. split.
      - apply list_elem_of_In. apply list_elem_of_lookup.
        exists (j - Z.to_nat (idx + 1))%nat. unfold slice.
        rewrite lookup_drop. rewrite <- Hj. f_equal. lia.
      - unfold has_action. by apply bool_decide_eq_true. }
    rewrite Hnil in Hin. destruct Hin.
  - intros [Hidx Hne].
    destruct (findIndex_some (has_action AuditAction.DELETE) entries Hidx)
      as (d & Hd & Hpd & _).
    fold idx in Hd.
    destruct (List.filter (has_action AuditAction.UPDATE) (slice (idx + 1) entries))
      as [|u rest] eqn:Hf; [done|].
    assert (In u (List.filter (has_action AuditAction.UPDATE) (slice (idx + 1) entries))) as Hin
      by (rewrite Hf; by left).
    apply filter_In in Hin as [Hin Hpu].
    apply list_elem_of_In, list_elem_of_lookup in Hin as [k Hk].
    unfold slice in Hk. rewrite lookup_drop in Hk.
    exists (Z.to_nat idx), (Z.to_nat (idx + 1) + k)%nat, d, u.
    unfold has_action in Hpd, Hpu.
    apply bool_decide_eq_true in Hpd, Hpu.
    repeat split; [lia|done..].
Qed.

(** C6.  With the audit table reachable, [verifyDataIntegrity] reads
    the entries of the pair in ascending creation-time order and does
    nothing else; the first issue is reported exactly when there are
    entries and no [create] among them, the second exactly when an
    [update] stands after a [delete]; no other issue is reported; and
    [isConsistent] holds exactly when neither check fails. *)
Theorem verifyDataIntegrity_decision
    (entityType : string) (entityId : UUID) (env : Env) (w : World) :
  unavailable env T_audit_log = false ->
  exists entries report,
    verifyDataIntegrity entityType entityId env w
      = (Ok report, logged (Select T_audit_log) w)
    /\ Permutation entries (entity_entries w entityType entityId)
    /\ ascending entries
    /\ (missing_create_message ∈ issues report <-> missing_create entries)
    /\ (update_after_delete_message ∈ issues report <-> update_after_delete entries)
    /\ (forall m, m ∈ issues report ->
                  m = missing_create_message \/ m = update_after_delete_message)
    /\ (isConsistent report = true
        <-> ~ missing_create entries /\ ~ update_after_delete entries).
Proof.
  intros Hup.
  set (entries := orderBy AuditLog.created_at asc (entity_entries w entityType entityId)).
  unfold verifyDataIntegrity, audit_log_of_entity, bind.
  rewrite issue_up by done.
  unfold get, ret; simpl.
  fold (entity_entries w entityType entityId). fold entries.
  eexists entries, _. split; [reflexivity|].
  split; [apply orderBy_perm|].
  split.
  { unfold ascending. eapply StronglySorted_weaken; [|apply orderBy_sorted].
    intros a b Hab. unfold in_order in Hab. simpl in Hab. lia. }
  rewrite fold_found, !positive_length. simpl.
  set (a := negb (is_null (head entries))
            && negb (existsb (has_action AuditAction.CREATE) entries)).
  set (idx := findIndex (has_action AuditAction.DELETE) entries).
  set (updates := List.filter (has_action AuditAction.UPDATE) (slice (idx + 1) entries)).
  set (b := (0 <=? idx) && negb (is_null (head updates))).
  assert (Ha : missing_create entries <-> a = true).
  { unfold missing_create, a. rewrite <- no_create_iff.
    destruct entries as [|e rest]; simpl.
    - split; [by intros [? _]|done].
    - destruct (has_action AuditAction.CREATE e || existsb (has_action AuditAction.CREATE) rest);
        simpl; split; try done. by intros [_ ?]. }
  assert (Hb : update_after_delete entries <-> b = true).
  { rewrite post_delete_updates_iff. fold idx. fold updates. unfold b.
    destruct updates; simpl; rewrite ?andb_false_r, ?andb_true_r; split;
      try (intros [_ ?]; done); try done.
    - intros [H _]. lia.
    - intros H. split; [lia|done]. }
  assert (Hissues :
    (if 0 <=? idx
     then if negb (is_null (head updates))
          then (if a then [missing_create_message] else []) ++ [update_after_delete_message]
          else if a then [missing_create_message] else []
     else if a then [missing_create_message] else [])
    = (if a then [missing_create_message] else [])
        ++ (if b then [update_after_delete_message] else [])).
  { unfold b.
    destruct (0 <=? idx), (negb (is_null (head updates))); simpl;
      by rewrite ?app_nil_r. }
  rewrite Hissues, Ha, Hb. clear Hissues Ha Hb.
  assert (Hmsg : missing_create_message <> update_after_delete_message) by done.
  destruct a, b; simpl; repeat split; intros;
    rewrite ?list_elem_of_In in *; simpl in *;
    intuition (subst; first [done | congruence]).
Qed.

(** C6, witness: Alice's history (create, then delete) is consistent. *)
Lemma verifyDataIntegrity_decision_witness :
  unavailable (Sample.env 4000 "x" "y") T_audit_log = false
  /\ exists report,
       outcome (verifyDataIntegrity "hcp" "h-1" (Sample.env 4000 "x" "y") Sample.w3)
       = Ok report
       /\ isConsistent report = true /\ issues report = [].
Proof.
  split; [reflexivity|].
  destruct (verifyDataIntegrity_decision "hcp" "h-1" (Sample.env 4000 "x" "y")
              Sample.w3 eq_refl)
    as (entries & report & Hrun & _).
  exists report. rewrite Hrun. split; [reflexivity|].
  vm_compute in Hrun. by simplify_eq.
Defined.

Example verifyDataIntegrity_tampered :
  outcome (verifyDataIntegrity "hcp" "h-7" (Sample.env 40 "x" "y") Sample.tampered)
  = Ok {| isConsistent := false;
          issues := [missing_create_message; update_after_delete_message] |}.
Proof. reflexivity. Qed.

Example orderBy_ascending :
  map AuditLog.id
    (orderBy AuditLog.created_at asc (audit_log Sample.tampered))
  = ["e-1"; "e-2"; "e-3"].
Proof. reflexivity. Qed.

(** *** Frames: what a computation leaves alone *)

Section Respects.
Context (R : World -> World -> Prop) {R_preorder : PreOrder R}.

Lemma respects_ret {A} (a : A) : respects R (ret a).
Proof. intros env w. simpl. reflexivity. Qed.

Lemma respects_throw {A} e : respects R (@throw A e).
Proof. intros env w. simpl. reflexivity. Qed.

Lemma respects_ask : respects R ask.
Proof. intros env w. simpl. reflexivity. Qed.

Lemma respects_get : respects R get.
Proof. intros env w. simpl. reflexivity. Qed.

Lemma respects_lift {A} (r : Config -> Result A) : respects R (lift r).
Proof. intros env w. simpl. reflexivity. Qed.

Lemma respects_bind {A B} (m : M A) (k : A -> M B) :
  respects R m -> (forall a, respects R (k a)) -> respects R (bind m k).
Proof.
  intros Hm Hk env w. specialize (Hm env w). unfold bind, final in *.
  destruct (m env w) as [[a|e] w1]; simpl in *; [|done].
  etrans; [exact Hm|]. apply Hk.
Qed.

Lemma respects_catch (m : M unit) : respects R m -> respects R (catch_and_log m).
Proof.
  intros Hm env w. specialize (Hm env w). unfold catch_and_log, final in *.
  by destruct (m env w) as [[a|e] w1].
Qed.

End Respects.

Create HintDb respects discriminated.

Ltac respects_step :=
  lazymatch goal with
  | |- respects _ (bind _ _) => apply respects_bind; [tc_solve| |intros ?]
  | |- respects _ (ret _) => apply respects_ret; tc_solve
  | |- respects _ (throw _) => apply respects_throw; tc_solve
  | |- respects _ ask => apply respects_ask; tc_solve
  | |- respects _ get => apply respects_get; tc_solve
  | |- respects _ (lift _) => apply respects_lift; tc_solve
  | |- respects _ (catch_and_log _) => apply respects_catch
  | |- respects _ (match ?x with _ => _ end) => destruct x
  | |- respects _ _ => solve [auto with respects]
  end.

Ltac respects := repeat respects_step.

(** *** Append-only tables *)

Lemma extends_refl w : extends w w.
Proof. split; [done..|]. exists []. by rewrite app_nil_r. Qed.

Lemma extends_trans w1 w2 w3 : extends w1 w2 -> extends w2 w3 -> extends w1 w3.
Proof.
  intros [Ha1 Hc1 (i1 & Hs1 & Hf1)] [Ha2 Hc2 (i2 & Hs2 & Hf2)].
  split; [by etrans..|].
  exists (i1 ++ i2). rewrite Hs2, Hs1, app_assoc. split; [done|].
  by apply Forall_app.
Qed.

#[global] Instance extends_preorder : PreOrder extends.
Proof. split; [exact extends_refl|exact extends_trans]. Qed.

#[global] Instance same_audit_log_preorder : PreOrder same_audit_log.
Proof.
  split; [done|]. unfold same_audit_log. intros w1 w2 w3 H1 H2. by rewrite H2.
Qed.

Lemma extends_issue s : read_or_insert s -> respects extends (issue s).
Proof.
  intros Hs env w. unfold issue, final.
  destruct (unavailable env (stmt_table s)); simpl;
    (split; [done..|]); exists [s]; split; try done; by constructor.
Qed.

(** The primitives that write: the subject table is replaced, the other
    two only grow at the end. *)
Lemma extends_hcps_insert r : respects extends (hcps_insert r).
Proof.
  intros env w. unfold hcps_insert, refuse, bind, issue, get, put, throw, ret, final.
  repeat case_match; simplify_eq/=;
    (split; simpl; [done..|]); exists [Insert T_hcps]; split; try done;
    by repeat constructor.
Qed.

Lemma extends_hcps_update id u : respects extends (hcps_where_id_update id u).
Proof.
  intros env w. unfold hcps_where_id_update, refuse, bind, issue, get, put, throw, ret, final.
  repeat case_match; simplify_eq/=;
    (split; simpl; [done..|]); exists [Update T_hcps]; split; try done;
    by repeat constructor.
Qed.

Lemma extends_consents_insert r : respects extends (consents_insert r).
Proof.
  intros env w. unfold consents_insert, bind, issue, get, put, throw, final.
  repeat case_match; simplify_eq/=;
    (split; simpl; [try done; try by apply prefix_app_r..|]);
    exists [Insert T_consents]; split; try done; by repeat constructor.
Qed.

Lemma extends_audit_log_insert r : respects extends (audit_log_insert r).
Proof.
  intros env w. unfold audit_log_insert, bind, issue, get, put, throw, final.
  repeat case_match; simplify_eq/=;
    (split; simpl; [try done; try by apply prefix_app_r..|]);
    exists [Insert T_audit_log]; split; try done; by repeat constructor.
Qed.

Lemma extends_select t : respects extends (issue (Select t)).
Proof. by apply extends_issue. Qed.

(** The statements of the subject and consent tables leave the audit
    table alone. *)
Lemma same_audit_log_issue s : respects same_audit_log (issue s).
Proof. intros env w. unfold issue, final. by destruct (unavailable env (stmt_table s)). Qed.

Lemma same_audit_log_hcps_insert r : respects same_audit_log (hcps_insert r).
Proof.
  intros env w. unfold hcps_insert, refuse, bind, issue, get, put, throw, ret, final.
  by repeat case_match; simplify_eq/=.
Qed.

Lemma same_audit_log_hcps_update id u :
  respects same_audit_log (hcps_where_id_update id u).
Proof.
  intros env w. unfold hcps_where_id_update, refuse, bind, issue, get, put, throw, ret, final.
  by repeat case_match; simplify_eq/=.
Qed.

Lemma same_audit_log_consents_insert r : respects same_audit_log (consents_insert r).
Proof.
  intros env w. unfold consents_insert, bind, issue, get, put, throw, final.
  by repeat case_match; simplify_eq/=.
Qed.

#[global] Hint Resolve extends_select extends_hcps_insert extends_hcps_update
  extends_consents_insert extends_audit_log_insert
  same_audit_log_issue same_audit_log_hcps_insert same_audit_log_hcps_update
  same_audit_log_consents_insert : respects.

Section Frames.
Context {aes : CryptoJS_AES} {js : Js.Engine}.
Context (R : World -> World -> Prop) {R_preorder : PreOrder R}.
Context (R_select : forall t, respects R (issue (Select t))).
Context (R_hcps_insert : forall r, respects R (hcps_insert r)).
Context (R_hcps_update : forall id u, respects R (hcps_where_id_update id u)).
Context (R_consents_insert : forall r, respects R (consents_insert r)).

Hint Resolve R_select R_hcps_insert R_hcps_update R_consents_insert : respects.

Lemma respects_hcps_where_id_first id : respects R (hcps_where_id_first id).
Proof. unfold hcps_where_id_first. respects. Qed.

Lemma respects_hcps_where_id_live_first id : respects R (hcps_where_id_live_first id).
Proof. unfold hcps_where_id_live_first. respects. Qed.

Lemma respects_consents_latest id ct : respects R (consents_latest id ct).
Proof. unfold consents_latest. respects. Qed.

Lemma respects_consents_of_hcp id : respects R (consents_of_hcp id).
Proof. unfold consents_of_hcp. respects. Qed.

Lemma respects_audit_log_of_entity t id d : respects R (audit_log_of_entity t id d).
Proof. unfold audit_log_of_entity. respects. Qed.

Hint Resolve respects_hcps_where_id_first respects_hcps_where_id_live_first
  respects_consents_latest respects_consents_of_hcp respects_audit_log_of_entity
  : respects.

Lemma respects_getById id : respects R (getById id).
Proof. unfold getById, decryptHCPRow, decrypt_or_undefined, decrypt. respects. Qed.

Hint Resolve respects_getById : respects.

Lemma respects_create input : respects R (create input).
Proof. unfold create, encrypt_or_null, encrypt. respects. Qed.

Lemma respects_update id input : respects R (update id input).
Proof.
  unfold update, encrypt_if_given, encrypt_or_null_if_given, encrypt_or_null, encrypt.
  respects.
Qed.

Lemma respects_softDelete id : respects R (softDelete id).
Proof. unfold softDelete. respects. Qed.

Lemma respects_anonymize id : respects R (anonymize id).
Proof. unfold anonymize, encrypt. respects. Qed.

Lemma respects_recordConsent input by_ : respects R (recordConsent input by_).
Proof. unfold recordConsent. respects. Qed.

Lemma respects_requireConsent ct req : respects R (requireConsent ct req).
Proof. unfold requireConsent. respects. Qed.

Lemma respects_verifyDataIntegrity t id : respects R (verifyDataIntegrity t id).
Proof. unfold verifyDataIntegrity. respects. Qed.

Lemma respects_generateDataSubjectReport id :
  respects R (generateDataSubjectReport id).
Proof. unfold generateDataSubjectReport. respects. Qed.

End Frames.

Section AppendOnly.
Context {aes : CryptoJS_AES} {js : Js.Engine}.

Lemma extends_createAuditEntry params : respects extends (createAuditEntry params).
Proof. unfold createAuditEntry. respects. Qed.

Hint Resolve extends_createAuditEntry : respects.

Lemma extends_exec op : respects extends (exec op).
Proof.
  pose proof (respects_getById extends extends_select) as H1.
  pose proof (respects_create extends extends_select extends_hcps_insert) as H2.
  pose proof (respects_update extends extends_select extends_hcps_update) as H3.
  pose proof (respects_softDelete extends extends_select extends_hcps_update) as H4.
  pose proof (respects_anonymize extends extends_select extends_hcps_update) as H5.
  pose proof (respects_recordConsent extends extends_consents_insert) as H6.
  pose proof (respects_requireConsent extends extends_select) as H7.
  pose proof (respects_verifyDataIntegrity extends extends_select) as H8.
  pose proof (respects_generateDataSubjectReport extends extends_select) as H9.
  pose proof (respects_consents_of_hcp extends extends_select) as H10.
  destruct op; simpl;
    unfold discard, post_hcps, get_hcps_id, patch_hcps_id, delete_hcps_id,
      post_hcps_id_anonymize, post_hcps_id_consents,
      getConsentHistory, get_gdpr_data_subject_report, auditDataAccess;
    respects.
Qed.

(** C5.  Whatever requests the layer serves, one after the other and
    whether they succeed or throw, the audit rows and the consent rows
    present before are still there afterwards, in place and unchanged
    (the old table is a prefix of the new one), and every statement
    sent to those two tables was a read or an insert. *)
Theorem audit_and_consent_rows_are_append_only
    (history : list (Env * Op)) (w : World) :
  audit_log w `prefix_of` audit_log (serve history w)
  /\ consents w `prefix_of` consents (serve history w)
  /\ exists issued,
       statements (serve history w) = statements w ++ issued
       /\ Forall (fun s => stmt_table s <> T_hcps ->
                           exists t, s = Select t \/ s = Insert t) issued.
Proof.
  assert (H : extends w (serve history w)).
  { revert w. induction history as [|[env op] rest IH]; intros w; simpl.
    - apply extends_refl.
    - eapply extends_trans; [apply extends_exec|apply IH]. }
  destruct H as [Ha Hc (issued & Hs & Hf)].
  split; [done|]. split; [done|].
  exists issued. split; [done|].
  eapply Forall_impl; [exact Hf|].
  intros [t|t|t|t]; simpl; intros Ht Hne; by eauto.
Qed.

End AppendOnly.

(** *** Runs of the statements on an available store *)

Lemma bind_Ok {A B} (m : M A) (k : A -> M B) env w b w' :
  bind m k env w = (Ok b, w') ->
  exists a w1, m env w = (Ok a, w1) /\ k a env w1 = (Ok b, w').
Proof.
  unfold bind. destruct (m env w) as [[a|e] w1]; [|done]. intros H. by exists a, w1.
Qed.

Lemma hcps_where_id_first_run id env w :
  unavailable env T_hcps = false ->
  hcps_where_id_first id env w = (Ok (hcps w !! id), logged (Select T_hcps) w).
Proof. intros Hup. unfold hcps_where_id_first, bind. by rewrite issue_up. Qed.

Lemma hcps_where_id_live_first_run id env w :
  unavailable env T_hcps = false ->
  hcps_where_id_live_first id env w
  = (Ok (match hcps w !! id with
         | Some r => if is_null (Hcps.deleted_at r) then Some r else None
         | None => None
         end),
     logged (Select T_hcps) w).
Proof. intros Hup. unfold hcps_where_id_live_first, bind. by rewrite issue_up. Qed.

Lemma stored_external_id u :
  mjoin (Hcps.set_external_id u) = None ->
  mjoin (Hcps.set_external_id (Hcps.stored u)) = None.
Proof. unfold Hcps.stored; simpl. by destruct (Hcps.set_external_id u) as [[e|]|]. Qed.

Lemma dangling_logged s w u : dangling (logged s w) u = dangling w u.
Proof. reflexivity. Qed.

Lemma hcps_where_id_update_run id u r env w :
  unavailable env T_hcps = false ->
  hcps w !! id = Some r ->
  mjoin (Hcps.set_external_id u) = None ->
  accepted w u ->
  hcps_where_id_update id u env w
  = (Ok tt, with_hcps (<[id := Hcps.apply (Hcps.stored u) r]> (hcps w))
              (logged (Update T_hcps) w)).
Proof.
  intros Hup Hr Hext (Htype & Hcheck & Hfk).
  unfold hcps_where_id_update, bind. rewrite issue_up by done.
  unfold get at 1. cbn [hcps logged]. rewrite Htype. unfold refuse at 1, ret at 1.
  rewrite Hr, Hcheck. unfold refuse at 1, ret at 1.
  rewrite (stored_external_id u Hext). unfold external_id_taken, refuse at 1, ret at 1.
  rewrite dangling_logged, Hfk. reflexivity.
Qed.

(** An update of a row that is there succeeds only when the store
    takes the values, and writes them as the columns keep them. *)
Lemma hcps_where_id_update_Ok id u r env w w1 :
  hcps w !! id = Some r ->
  mjoin (Hcps.set_external_id u) = None ->
  hcps_where_id_update id u env w = (Ok tt, w1) ->
  unavailable env T_hcps = false
  /\ accepted w u
  /\ w1 = with_hcps (<[id := Hcps.apply (Hcps.stored u) r]> (hcps w))
            (logged (Update T_hcps) w).
Proof.
  intros Hr Hext. unfold hcps_where_id_update, bind, issue, get.
  cbn [stmt_table]. destruct (unavailable env T_hcps); [done|]. cbn [hcps logged].
  destruct (Hcps.type_error u) eqn:Htype; [done|]. unfold refuse at 1, ret at 1.
  rewrite Hr.
  destruct (Hcps.check_failure u) eqn:Hcheck; [done|]. unfold refuse at 1, ret at 1.
  rewrite (stored_external_id u Hext). unfold external_id_taken, refuse at 1, ret at 1.
  rewrite dangling_logged.
  destruct (dangling w u) eqn:Hfk; [done|]. unfold refuse, ret, put.
  intros Heq. by simplify_eq.
Qed.

Lemma fresh_audit_id_decide env w :
  fresh_audit_id env w ->
  bool_decide (Exists (fun a => AuditLog.id a = uuid_audit env) (audit_log w)) = false.
Proof.
  intros Hfresh. apply bool_decide_eq_false. intros Hex.
  apply Exists_exists in Hex as (a & Ha & Hid).
  unfold fresh_audit_id in Hfresh. rewrite Forall_forall in Hfresh.
  by apply (Hfresh a).
Qed.

Lemma createAuditEntry_run params env w :
  unavailable env T_audit_log = false ->
  fresh_audit_id env w ->
  createAuditEntry params env w
  = (Ok tt, with_audit_log (audit_log w ++ [audit_row params env])
              (logged (Insert T_audit_log) w)).
Proof.
  intros Hup Hfresh. unfold createAuditEntry, audit_log_insert, bind, ask.
  rewrite issue_up by done. simpl.
  by rewrite (fresh_audit_id_decide env w Hfresh).
Qed.

(** A successful audit write appended exactly the row built from its
    parameters. *)
Lemma createAuditEntry_Ok params env w w' :
  createAuditEntry params env w = (Ok tt, w') ->
  unavailable env T_audit_log = false
  /\ w' = with_audit_log (audit_log w ++ [audit_row params env])
            (logged (Insert T_audit_log) w).
Proof.
  unfold createAuditEntry, audit_log_insert, bind, ask, issue, get, put, throw.
  simpl. destruct (unavailable env T_audit_log); [done|].
  simpl. case_bool_decide; [done|]. intros Heq. by simplify_eq.
Qed.

(** *** What fits the columns *)

Lemma length_append s t :
  String.length (String.append s t) = (String.length s + String.length t)%nat.
Proof.
  induction s as [|c s IH]; [done|].
  change (S (String.length (String.append s t))
          = (S (String.length s) + String.length t)%nat).
  by rewrite IH.
Qed.

Lemma hex_of_word_length n x : String.length (SHA256.hex_of_word n x) = n.
Proof. induction n as [|m IH]; simpl; [done|]. by rewrite IH. Qed.

(** An index token is sixty-four characters long, the width of the
    [_hash] columns. *)
Lemma hashForIndex_length cfg value : String.length (hashForIndex cfg value) = 64%nat.
Proof.
  unfold hashForIndex, SHA256.hex, SHA256.digest_words.
  set (h := fold_left SHA256.compress _ _).
  cbv [fold_right].
  by rewrite !length_append, !hex_of_word_length.
Qed.

Lemma too_long_token column cfg (v : option string) :
  Hcps.too_long 64 column (hashForIndex cfg <$> v) = None.
Proof.
  destruct v as [s|]; [|done]. unfold Hcps.too_long. cbn [fmap option_fmap option_map].
  rewrite varchar_short; [done|]. by rewrite hashForIndex_length.
Qed.

Lemma fit_token cfg (v : option string) :
  Pg.fit 64 <$> (hashForIndex cfg <$> v) = hashForIndex cfg <$> v.
Proof.
  destruct v as [s|]; [|done]. cbn [fmap option_fmap option_map].
  rewrite fit_short; [done|]. by rewrite hashForIndex_length.
Qed.

Section Ciphertexts.
Context {aes : CryptoJS_AES}.

(** The ciphertext of a message shorter than 176 bytes fits a
    [varchar(255)] column: it has eleven blocks at most, 236
    characters of Base64. *)
Lemma ciphertext_length key iv m :
  (String.length m < 176)%nat -> (String.length (AES_encrypt key iv m) <= 255)%nat.
Proof.
  intros Hm. rewrite AES_encrypt_length. unfold Base64.length_of.
  assert (String.length m / 16 <= 10)%nat
    by (apply Nat.lt_succ_r, Nat.Div0.div_lt_upper_bound; lia).
  assert ((16 * (String.length m / 16 + 1) + 2) / 3 <= 59)%nat
    by (apply Nat.lt_succ_r, Nat.Div0.div_lt_upper_bound; lia).
  lia.
Qed.

(** A ciphertext is kept as it is by the column that takes it. *)
Lemma fit_ciphertext n column key iv (v : option string) :
  Hcps.too_long n column (AES_encrypt key iv <$> v) = None ->
  Pg.fit n <$> (AES_encrypt key iv <$> v) = AES_encrypt key iv <$> v.
Proof.
  intros H. destruct v as [m|]; [|done]. simpl. f_equal.
  apply fit_text; [apply AES_encrypt_text|].
  by apply (proj1 (too_long_None n column _) H).
Qed.

Lemma anonymize_stored cfg now :
  Hcps.stored (anonymize_assignments cfg now) = anonymize_assignments cfg now.
Proof.
  unfold Hcps.stored, anonymize_assignments. cbn [fmap option_fmap option_map
    Hcps.set_external_id Hcps.set_first_name_encrypted Hcps.set_first_name_hash
    Hcps.set_last_name_encrypted Hcps.set_last_name_hash Hcps.set_email_encrypted
    Hcps.set_email_hash Hcps.set_phone_encrypted Hcps.set_phone_hash Hcps.set_specialty
    Hcps.set_sub_specialty Hcps.set_influence_level Hcps.set_primary_institution_id
    Hcps.set_territory_id Hcps.set_title Hcps.set_years_of_practice Hcps.set_languages
    Hcps.set_therapeutic_areas Hcps.set_metadata Hcps.set_is_active Hcps.set_updated_at
    Hcps.set_deleted_at Hcps.nullable].
  rewrite (fit_short 64) by (by rewrite hashForIndex_length).
  rewrite (fit_short 255) by (by apply ciphertext_length; vm_compute; lia).
  reflexivity.
Qed.

Lemma anonymize_accepted cfg now w : accepted w (anonymize_assignments cfg now).
Proof.
  split; [|by split].
  apply first_failure_None. unfold anonymize_assignments.
  cbn [mjoin option_join Hcps.set_external_id Hcps.set_first_name_encrypted
    Hcps.set_first_name_hash Hcps.set_last_name_encrypted Hcps.set_last_name_hash
    Hcps.set_email_encrypted Hcps.set_email_hash Hcps.set_phone_encrypted
    Hcps.set_phone_hash Hcps.set_sub_specialty Hcps.set_title Hcps.set_years_of_practice].
  assert (Hc : forall column,
    Hcps.too_long 255 column
      (Some (AES_encrypt (encryption_key cfg) (encryption_iv cfg) ANONYMIZED)) = None).
  { intros column. unfold Hcps.too_long. rewrite varchar_short; [done|].
    apply ciphertext_length. vm_compute. lia. }
  assert (Ht : forall column,
    Hcps.too_long 64 column (Some (hashForIndex cfg ANONYMIZED)) = None).
  { intros column. apply (too_long_token column cfg (Some ANONYMIZED)). }
  repeat constructor; first [apply Hc | apply Ht].
Qed.

End Ciphertexts.

Section Erasure.
Context {aes : CryptoJS_AES}.

Lemma encrypt_run x env w :
  key_configured env ->
  encrypt x env w
  = (Ok (AES_encrypt (encryption_key (config env)) (encryption_iv (config env)) x), w).
Proof. intros Hkey. unfold encrypt, lift, encryptPII. by rewrite Hkey. Qed.

Lemma anonymize_run id row env w :
  unavailable env T_hcps = false ->
  hcps w !! id = Some row ->
  key_configured env ->
  anonymize id env w
  = (Ok tt,
     with_hcps
       (<[id := Hcps.apply (anonymize_assignments (config env) (clock env)) row]> (hcps w))
       (logged (Update T_hcps) (logged (Select T_hcps) w))).
Proof.
  intros Hup Hrow Hkey. unfold anonymize, bind.
  rewrite hcps_where_id_first_run by done. rewrite Hrow.
  unfold ask at 1. rewrite !encrypt_run by done.
  change (hcps_where_id_update id ?u env ?w1)
    with (hcps_where_id_update id (anonymize_assignments (config env) (clock env)) env w1).
  rewrite (hcps_where_id_update_run id _ row);
    [|done|exact Hrow|done|apply anonymize_accepted].
  by rewrite anonymize_stored.
Qed.

(** C2, amended.  For an id present in the subject table,
    soft-deleted or not, with key material configured, the store
    reachable and a fresh audit identifier, the anonymize route
    succeeds; it overwrites the name ciphertexts and tokens with those
    of the sentinel, nulls the e-mail and phone pairs and the external
    identifier, sets [is_active] to false, replaces the metadata by the
    anonymized flag and its time, sets the deletion timestamp to the
    time of the call, keeps every other column, leaves the consent rows
    alone and appends one [delete] audit entry with metadata
    [{type: gdpr_anonymization}].  For an id absent from the table it
    answers [NotFound] after a single read. *)
Theorem anonymize_erases_and_audits
    (req : Request) (id : UUID) (env : Env) (w : World) :
  (forall row,
      hcps w !! id = Some row ->
      key_configured env -> healthy env -> fresh_audit_id env w ->
      exists w',
        post_hcps_id_anonymize req id env w = (Ok tt, w')
        /\ hcps w'
           = <[id :=
                {| Hcps.id := Hcps.id row;
                   Hcps.external_id := None;
                   Hcps.first_name_encrypted :=
                     AES_encrypt (encryption_key (config env))
                                 (encryption_iv (config env)) ANONYMIZED;
                   Hcps.first_name_hash := hashForIndex (config env) ANONYMIZED;
                   Hcps.last_name_encrypted :=
                     AES_encrypt (encryption_key (config env))
                                 (encryption_iv (config env)) ANONYMIZED;
                   Hcps.last_name_hash := hashForIndex (config env) ANONYMIZED;
                   Hcps.email_encrypted := None;
                   Hcps.email_hash := None;
                   Hcps.phone_encrypted := None;
                   Hcps.phone_hash := None;
                   Hcps.specialty := Hcps.specialty row;
                   Hcps.sub_specialty := Hcps.sub_specialty row;
                   Hcps.influence_level := Hcps.influence_level row;
                   Hcps.primary_institution_id := Hcps.primary_institution_id row;
                   Hcps.territory_id := Hcps.territory_id row;
                   Hcps.title := Hcps.title row;
                   Hcps.years_of_practice := Hcps.years_of_practice row;
                   Hcps.languages := Hcps.languages row;
                   Hcps.therapeutic_areas := Hcps.therapeutic_areas row;
                   Hcps.metadata := [("anonymized", JBool true);
                                     ("anonymized_at", JIsoDate (clock env))];
                   Hcps.is_active := false;
                   Hcps.created_at := Hcps.created_at row;
                   Hcps.updated_at := Hcps.updated_at row;
                   Hcps.deleted_at := Some (clock env) |}]> (hcps w)
        /\ consents w' = consents w
        /\ audit_log w'
           = audit_log w ++
             [ {| AuditLog.id := uuid_audit env;
                  AuditLog.user_id := Some (user_id req);
                  AuditLog.action := AuditAction.DELETE;
                  AuditLog.entity_type := "hcp";
                  AuditLog.entity_id := Some id;
                  AuditLog.previous_state := None;
                  AuditLog.new_state := None;
                  AuditLog.ip_address := fst (getRequestMeta req);
                  AuditLog.user_agent := snd (getRequestMeta req);
                  AuditLog.metadata := [("type", JString "gdpr_anonymization")];
                  AuditLog.created_at := clock env |} ])
  /\ (hcps w !! id = None ->
      unavailable env T_hcps = false ->
      post_hcps_id_anonymize req id env w
      = (Err (NotFoundError "HCP" id), logged (Select T_hcps) w)).
Proof.
  split.
  - intros row Hrow Hkey Hup Hfresh.
    unfold post_hcps_id_anonymize, bind.
    rewrite (anonymize_run id row) by (try apply Hup; done).
    rewrite createAuditEntry_run; [|apply Hup|exact Hfresh].
    eexists. split; [reflexivity|]. by repeat split.
  - intros Hnone Hup.
    unfold post_hcps_id_anonymize, anonymize, bind.
    rewrite hcps_where_id_first_run by done. by rewrite Hnone.
Qed.

Lemma anonymize_Ok id env w w1 :
  anonymize id env w = (Ok tt, w1) ->
  exists row,
    hcps w !! id = Some row
    /\ key_configured env
    /\ w1 = with_hcps
              (<[id := Hcps.apply (anonymize_assignments (config env) (clock env)) row]>
                 (hcps w))
              (logged (Update T_hcps) (logged (Select T_hcps) w)).
Proof.
  intros H.
  destruct (unavailable env T_hcps) eqn:Hup.
  { unfold anonymize, hcps_where_id_first, bind in H. by rewrite issue_down in H. }
  destruct (hcps w !! id) as [row|] eqn:Hrow; cycle 1.
  { unfold anonymize, bind in H. rewrite hcps_where_id_first_run in H by done.
    by rewrite Hrow in H. }
  destruct (not_configured (encryption_key (config env))) eqn:Hkey.
  { unfold anonymize, bind in H. rewrite hcps_where_id_first_run in H by done.
    rewrite Hrow in H. unfold ask at 1, encrypt, lift, encryptPII in H.
    by rewrite Hkey in H. }
  rewrite (anonymize_run id row) in H by done.
  simplify_eq. by exists row.
Qed.

(** C3, amended.  After a successful anonymize request the
    row is still in the subject table; its name ciphertexts and tokens
    are those of the sentinel and its e-mail and phone pairs are null,
    whatever they were before; [is_active] is false; the deletion
    timestamp is set, so that [getById] answers [NotFound]; the consent
    rows are untouched; and the audit log is the former log followed by
    one new entry, the [delete] entry of the subject, made by the
    requesting user at the time of the call and tagged
    [{type: gdpr_anonymization}]. *)
Theorem after_anonymize
    (req : Request) (id : UUID) (env : Env) (w w' : World) :
  post_hcps_id_anonymize req id env w = (Ok tt, w') ->
  (exists row',
      hcps w' !! id = Some row'
      /\ Hcps.first_name_encrypted row'
         = AES_encrypt (encryption_key (config env)) (encryption_iv (config env)) ANONYMIZED
      /\ Hcps.first_name_hash row' = hashForIndex (config env) ANONYMIZED
      /\ Hcps.last_name_encrypted row'
         = AES_encrypt (encryption_key (config env)) (encryption_iv (config env)) ANONYMIZED
      /\ Hcps.last_name_hash row' = hashForIndex (config env) ANONYMIZED
      /\ Hcps.email_encrypted row' = None /\ Hcps.email_hash row' = None
      /\ Hcps.phone_encrypted row' = None /\ Hcps.phone_hash row' = None
      /\ Hcps.external_id row' = None
      /\ Hcps.is_active row' = false
      /\ Hcps.deleted_at row' = Some (clock env))
  /\ (forall env', unavailable env' T_hcps = false ->
                   outcome (getById id env' w') = Err (NotFoundError "HCP" id))
  /\ consents w' = consents w
  /\ audit_log w'
     = audit_log w ++
       [ {| AuditLog.id := uuid_audit env;
            AuditLog.user_id := Some (user_id req);
            AuditLog.action := AuditAction.DELETE;
            AuditLog.entity_type := "hcp";
            AuditLog.entity_id := Some id;
            AuditLog.previous_state := None;
            AuditLog.new_state := None;
            AuditLog.ip_address := fst (getRequestMeta req);
            AuditLog.user_agent := snd (getRequestMeta req);
            AuditLog.metadata := [("type", JString "gdpr_anonymization")];
            AuditLog.created_at := clock env |} ].
Proof.
  unfold post_hcps_id_anonymize, bind.
  destruct (anonymize id env w) as [[[]|e] w1] eqn:Hs; [|done].
  intros Haudit. apply createAuditEntry_Ok in Haudit as [_ ->].
  apply anonymize_Ok in Hs as (row & Hrow & Hkey & ->). simpl.
  split; [|split; [|split]].
  - eexists. rewrite lookup_insert_eq. split; [reflexivity|]. by repeat split.
  - intros env' Hup. unfold getById, bind, outcome.
    rewrite hcps_where_id_live_first_run by done. simpl.
    by rewrite lookup_insert_eq.
  - done.
  - done.
Qed.

End Erasure.

Lemma healthy_sample now a b : healthy (Sample.env now a b).
Proof. by intros t. Qed.

(** C2, witness: Alice is anonymized at 3000. *)
Lemma anonymize_erases_and_audits_witness :
  exists row w',
    hcps Sample.w2 !! "h-1" = Some row
    /\ key_configured (Sample.env 3000 "x" "a-4")
    /\ healthy (Sample.env 3000 "x" "a-4")
    /\ fresh_audit_id (Sample.env 3000 "x" "a-4") Sample.w2
    /\ @post_hcps_id_anonymize XorCipher.instance Sample.req "h-1"
         (Sample.env 3000 "x" "a-4") Sample.w2 = (Ok tt, w')
    /\ consents w' = consents Sample.w2.
Proof.
  destruct (hcps Sample.w2 !! "h-1") as [row|] eqn:Hrow;
    [|vm_compute in Hrow; discriminate Hrow].
  assert (Hfresh : fresh_audit_id (Sample.env 3000 "x" "a-4") Sample.w2).
  { unfold fresh_audit_id. apply (bool_decide_unpack _). vm_compute. exact I. }
  destruct (proj1 (@anonymize_erases_and_audits XorCipher.instance Sample.req "h-1"
                     (Sample.env 3000 "x" "a-4") Sample.w2)
              row Hrow eq_refl (healthy_sample _ _ _) Hfresh)
    as (w' & Hrun & _ & Hc & _).
  exists row, w'. repeat split; done.
Defined.

(** C2, counterexample.  Alice, soft-deleted at 2500 with an e-mail and
    a phone on file, is anonymized at 3000: the e-mail and phone pairs
    become null rather than the sentinel's ciphertext and token, and
    the deletion timestamp, which was set, is overwritten.  Without key
    material the same request throws and changes no row. *)
Lemma anonymize_counterexample :
  let before := hcps Sample.w3 !! "h-1" in
  let run := @post_hcps_id_anonymize XorCipher.instance Sample.req "h-1"
               (Sample.env 3000 "x" "a-4") Sample.w3 in
  let after := hcps (final run) !! "h-1" in
  let keyless := @post_hcps_id_anonymize XorCipher.instance Sample.req "h-1"
                   (MkEnv (MkConfig "" "") 3000 "x" "a-4" Sample.all_up) Sample.w3 in
  outcome keyless = Err key_missing
  /\ hcps (final keyless) = hcps Sample.w3
  /\ outcome run = Ok tt
  /\ Hcps.deleted_at <$> before = Some (Some 2500)
  /\ Hcps.deleted_at <$> after = Some (Some 3000)
  /\ Hcps.email_encrypted <$> after = Some None
  /\ Hcps.email_hash <$> after = Some None
  /\ Hcps.phone_encrypted <$> after = Some None
  /\ Hcps.phone_hash <$> after = Some None
  /\ Hcps.first_name_encrypted <$> after
     = Some (@AES_encrypt XorCipher.instance Sample.key Sample.iv ANONYMIZED).
Proof. vm_compute. repeat split. Qed.

(** C3, witness: the store after Alice is anonymized at 3000. *)
Lemma after_anonymize_witness :
  exists w',
    @post_hcps_id_anonymize XorCipher.instance Sample.req "h-1"
      (Sample.env 3000 "x" "a-4") Sample.w2 = (Ok tt, w')
    /\ (Hcps.is_active <$> hcps w' !! "h-1") = Some false
    /\ consents w' = consents Sample.w2
    /\ (AuditLog.action <$> last (audit_log w')) = Some AuditAction.DELETE
    /\ (AuditLog.entity_id <$> last (audit_log w')) = Some (Some "h-1").
Proof.
  eexists. split; [vm_compute; reflexivity|].
  match goal with
  | |- context [hcps ?w' !! _] =>
      destruct (@after_anonymize XorCipher.instance Sample.req "h-1"
                  (Sample.env 3000 "x" "a-4") Sample.w2 w')
        as ((row' & Hrow' & Hfields) & _ & Hc & Hlog)
  end.
  - vm_compute. reflexivity.
  - split; [|split; [exact Hc|]].
    + rewrite Hrow'. simpl. f_equal. apply Hfields.
    + rewrite Hlog, last_snoc. by split.
Defined.

(** C3, counterexample.  After Alice is anonymized, [getById] on her id
    answers [NotFound]; and for the subject named like the sentinel,
    the first-name ciphertext after anonymization is the one stored
    before it. *)
Lemma after_anonymize_counterexample :
  let run := @post_hcps_id_anonymize XorCipher.instance Sample.req "h-1"
               (Sample.env 3000 "x" "a-4") Sample.w2 in
  let run' := @post_hcps_id_anonymize XorCipher.instance Sample.req "h-2"
                (Sample.env 3000 "x" "a-4") Sample.w4 in
  outcome run = Ok tt
  /\ outcome (@getById XorCipher.instance "h-1" (Sample.env 3001 "x" "y") (final run))
     = Err (NotFoundError "HCP" "h-1")
  /\ outcome run' = Ok tt
  /\ Hcps.first_name_encrypted <$> hcps (final run') !! "h-2"
     = Hcps.first_name_encrypted <$> hcps Sample.w4 !! "h-2".
Proof. vm_compute. repeat split. Qed.

(** *** Inversion of successful service calls *)

Lemma hcps_insert_Ok r env w w1 :
  hcps_insert r env w = (Ok tt, w1) ->
  hcps w !! Hcps.id r = None
  /\ accepted w (Hcps.assignments r)
  /\ w1 = with_hcps
            (<[Hcps.id r := Hcps.apply (Hcps.stored (Hcps.assignments r)) r]> (hcps w))
            (logged (Insert T_hcps) w).
Proof.
  unfold hcps_insert, bind, issue, get.
  cbn [stmt_table]. destruct (unavailable env T_hcps); [done|]. cbn [hcps logged].
  destruct (Hcps.type_error (Hcps.assignments r)) eqn:Htype; [done|].
  unfold refuse at 1, ret at 1.
  destruct (Hcps.check_failure (Hcps.assignments r)) eqn:Hcheck; [done|].
  unfold refuse at 1, ret at 1. unfold duplicate.
  case_bool_decide as Hsome; [done|].
  destruct (external_id_taken _ _ _); [done|]. unfold refuse at 1, ret at 1.
  rewrite dangling_logged.
  destruct (dangling w (Hcps.assignments r)) eqn:Hfk; [done|]. unfold refuse, ret, put.
  intros Heq. simplify_eq. split; [|done].
  by apply eq_None_not_Some.
Qed.

Section Inversion.
Context {aes : CryptoJS_AES} {js : Js.Engine}.

Lemma encrypt_or_null_run v env w :
  key_configured env ->
  encrypt_or_null v env w
  = (Ok (AES_encrypt (encryption_key (config env)) (encryption_iv (config env))
           <$> Js.truthy v), w).
Proof.
  intros Hkey. unfold encrypt_or_null.
  destruct (Js.truthy v); [|done].
  unfold bind. by rewrite encrypt_run.
Qed.

Lemma encrypt_if_given_run v env w :
  key_configured env ->
  encrypt_if_given v env w
  = (Ok (AES_encrypt (encryption_key (config env)) (encryption_iv (config env)) <$> v), w).
Proof.
  intros Hkey. unfold encrypt_if_given. destruct v; [|done].
  unfold bind. by rewrite encrypt_run.
Qed.

Lemma encrypt_or_null_if_given_run v env w :
  key_configured env ->
  encrypt_or_null_if_given v env w
  = (Ok ((fun s => AES_encrypt (encryption_key (config env)) (encryption_iv (config env))
                     <$> Js.truthy (Some s)) <$> v), w).
Proof.
  intros Hkey. unfold encrypt_or_null_if_given. destruct v; [|done].
  unfold bind. by rewrite encrypt_or_null_run.
Qed.

(** Decryption only reads the configuration; what it returns carries
    the row's classification columns. *)
Lemma decryptHCPRow_Ok row env w hcp w' :
  decryptHCPRow row env w = (Ok hcp, w') ->
  w' = w
  /\ HCPRecord.id hcp = Hcps.id row
  /\ HCPRecord.specialty hcp = Hcps.specialty row
  /\ HCPRecord.influenceLevel hcp = Hcps.influence_level row.
Proof.
  unfold decryptHCPRow, decrypt_or_undefined, bind, decrypt, lift, ret.
  destruct (decryptPII (config env) (Hcps.first_name_encrypted row)); [|done].
  destruct (decryptPII (config env) (Hcps.last_name_encrypted row)); [|done].
  destruct (Js.truthy (Hcps.email_encrypted row)) as [c|];
    [destruct (decryptPII (config env) c); [|done]|];
    (destruct (Js.truthy (Hcps.phone_encrypted row)) as [c'|];
     [destruct (decryptPII (config env) c'); [|done]|]);
    intros Heq; by simplify_eq.
Qed.

Lemma decryptHCPRow_decryptable row env w hcp w' :
  decryptHCPRow row env w = (Ok hcp, w') -> decryptable (config env) row.
Proof.
  unfold decryptHCPRow, decrypt_or_undefined, bind, decrypt, lift, ret, decryptable.
  destruct (decryptPII (config env) (Hcps.first_name_encrypted row)); [|done].
  destruct (decryptPII (config env) (Hcps.last_name_encrypted row)); [|done].
  intros H. split; [by eexists|]. split; [by eexists|].
  destruct (Js.truthy (Hcps.email_encrypted row)) as [c|].
  - destruct (decryptPII (config env) c) eqn:Hc; [|done]. split.
    + intros c0 ?. simplify_eq. by eexists.
    + destruct (Js.truthy (Hcps.phone_encrypted row)) as [c'|]; [|done].
      destruct (decryptPII (config env) c') eqn:Hc'; [|done].
      intros c0 ?. simplify_eq. by eexists.
  - split; [done|].
    destruct (Js.truthy (Hcps.phone_encrypted row)) as [c'|]; [|done].
    destruct (decryptPII (config env) c') eqn:Hc'; [|done].
    intros c0 ?. simplify_eq. by eexists.
Qed.

Lemma decryptHCPRow_run row env w :
  decryptable (config env) row ->
  exists hcp, decryptHCPRow row env w = (Ok hcp, w).
Proof.
  intros ((p1 & H1) & (p2 & H2) & H3 & H4).
  unfold decryptHCPRow, decrypt_or_undefined, bind, decrypt, lift, ret.
  rewrite H1, H2.
  destruct (Js.truthy (Hcps.email_encrypted row)) as [c|].
  - destruct (H3 c eq_refl) as [p3 ->].
    destruct (Js.truthy (Hcps.phone_encrypted row)) as [c'|].
    + destruct (H4 c' eq_refl) as [p4 ->]. by eexists.
    + by eexists.
  - destruct (Js.truthy (Hcps.phone_encrypted row)) as [c'|].
    + destruct (H4 c' eq_refl) as [p4 ->]. by eexists.
    + by eexists.
Qed.

Lemma decryptable_key_configured cfg row :
  decryptable cfg row -> not_configured (encryption_key cfg) = false.
Proof.
  intros ((p & H) & _). unfold decryptPII in H.
  by destruct (not_configured (encryption_key cfg)).
Qed.

Lemma getById_Ok id env w hcp w' :
  getById id env w = (Ok hcp, w') ->
  exists row,
    hcps w !! id = Some row
    /\ Hcps.deleted_at row = None
    /\ unavailable env T_hcps = false
    /\ decryptable (config env) row
    /\ w' = logged (Select T_hcps) w
    /\ HCPRecord.id hcp = Hcps.id row
    /\ HCPRecord.specialty hcp = Hcps.specialty row
    /\ HCPRecord.influenceLevel hcp = Hcps.influence_level row.
Proof.
  intros H. unfold getById, bind in H.
  destruct (unavailable env T_hcps) eqn:Hup.
  { unfold hcps_where_id_live_first, bind in H. by rewrite issue_down in H. }
  rewrite hcps_where_id_live_first_run in H by done.
  destruct (hcps w !! id) as [row|] eqn:Hrow; [|done].
  destruct (Hcps.deleted_at row) eqn:Hdel; [done|]. simpl in H.
  pose proof (decryptHCPRow_decryptable _ _ _ _ _ H) as Hdec.
  apply decryptHCPRow_Ok in H as (-> & ? & ? & ?).
  exists row. do 4 (split; [done|]). by repeat split.
Qed.

Lemma getById_run id env w row :
  unavailable env T_hcps = false ->
  hcps w !! id = Some row ->
  Hcps.deleted_at row = None ->
  decryptable (config env) row ->
  exists hcp,
    getById id env w = (Ok hcp, logged (Select T_hcps) w)
    /\ HCPRecord.id hcp = Hcps.id row
    /\ HCPRecord.specialty hcp = Hcps.specialty row
    /\ HCPRecord.influenceLevel hcp = Hcps.influence_level row.
Proof.
  intros Hup Hrow Hdel Hdec. unfold getById, bind.
  rewrite hcps_where_id_live_first_run by done. rewrite Hrow, Hdel. simpl.
  destruct (decryptHCPRow_run row env (logged (Select T_hcps) w) Hdec) as [hcp Hrun].
  exists hcp. split; [done|]. by apply decryptHCPRow_Ok in Hrun as (_ & ? & ? & ?).
Qed.

Lemma getById_NotFound id env w :
  unavailable env T_hcps = false ->
  (hcps w !! id = None
   \/ exists row t, hcps w !! id = Some row /\ Hcps.deleted_at row = Some t) ->
  getById id env w = (Err (NotFoundError "HCP" id), logged (Select T_hcps) w).
Proof.
  intros Hup Hgone. unfold getById, bind.
  rewrite hcps_where_id_live_first_run by done.
  destruct Hgone as [->|(row & t & -> & ->)]; done.
Qed.

(** A [create] or an [update] that succeeds ended in a [getById] that
    decrypted a row: key material is configured. *)
Lemma create_Ok_key input env w hcp w' :
  create input env w = (Ok hcp, w') -> key_configured env.
Proof.
  intros H. unfold create in H.
  do 6 (apply bind_Ok in H as (? & ? & _ & H)).
  apply getById_Ok in H as (row & _ & _ & _ & Hdec & _).
  by eapply decryptable_key_configured.
Qed.

Lemma update_Ok_key id input env w hcp w' :
  update id input env w = (Ok hcp, w') -> key_configured env.
Proof.
  intros H. unfold update in H.
  apply bind_Ok in H as ([existing|] & ? & _ & H); [|done].
  do 6 (apply bind_Ok in H as (? & ? & _ & H)).
  apply getById_Ok in H as (row & _ & _ & _ & Hdec & _).
  by eapply decryptable_key_configured.
Qed.

(** What a successful [create] leaves in the store. *)
Lemma create_Ok input env w hcp w' :
  create input env w = (Ok hcp, w') ->
  key_configured env
  /\ HCPRecord.id hcp = uuid_service env
  /\ consents w' = consents w
  /\ audit_log w' = audit_log w
  /\ exists row,
       hcps w' = <[uuid_service env := row]> (hcps w)
       /\ Hcps.first_name_hash row
          = hashForIndex (config env) (Js.toLowerCase (c_firstName input))
       /\ Hcps.last_name_hash row
          = hashForIndex (config env) (Js.toLowerCase (c_lastName input))
       /\ Hcps.email_hash row
          = (fun v => hashForIndex (config env) (Js.toLowerCase v))
              <$> Js.truthy (c_email input)
       /\ Hcps.phone_hash row = hashForIndex (config env) <$> Js.truthy (c_phone input).
Proof.
  intros H. pose proof (create_Ok_key _ _ _ _ _ H) as Hkey.
  unfold create, bind in H. unfold ask at 1 in H.
  rewrite !encrypt_run, !encrypt_or_null_run in H by done.
  match type of H with
  | context [hcps_insert ?r env w] =>
      destruct (hcps_insert r env w) as [[[]|e] w1] eqn:Hins; [|done]
  end.
  apply hcps_insert_Ok in Hins as (Hfree & _ & ->).
  apply getById_Ok in H as (row & Hrow & _ & _ & _ & -> & Hid & _).
  cbn [hcps with_hcps logged] in Hrow. rewrite lookup_insert_eq in Hrow.
  injection Hrow as <-.
  split; [done|]. split; [done|]. split; [done|]. split; [done|].
  eexists. split; [reflexivity|].
  cbn [Hcps.apply Hcps.stored Hcps.assignments Hcps.assign Hcps.nullable
    Hcps.first_name_hash Hcps.last_name_hash Hcps.email_hash Hcps.phone_hash
    Hcps.set_first_name_hash Hcps.set_last_name_hash Hcps.set_email_hash
    Hcps.set_phone_hash fmap option_fmap option_map].
  rewrite !(fit_short 64) by (by rewrite hashForIndex_length).
  split; [done|]. split; [done|]. split.
  - destruct (Js.truthy (c_email input)) as [e|]; [|done]. cbn.
    by rewrite fit_short by (by rewrite hashForIndex_length).
  - destruct (Js.truthy (c_phone input)) as [t|]; [|done]. cbn.
    by rewrite fit_short by (by rewrite hashForIndex_length).
Qed.

(** The columns keep the ciphertexts and the tokens of [update] whole;
    of the other values only the sub-specialty and the title can be
    cut. *)
Lemma stored_update_assignments cfg now input :
  Hcps.type_error (update_assignments cfg now input) = None ->
  Hcps.stored (update_assignments cfg now input)
  = update_assignments cfg now (within_columns input).
Proof.
  intros Htype. apply first_failure_None in Htype.
  unfold update_assignments in Htype.
  cbn [mjoin option_join Hcps.set_external_id Hcps.set_first_name_encrypted
    Hcps.set_first_name_hash Hcps.set_last_name_encrypted Hcps.set_last_name_hash
    Hcps.set_email_encrypted Hcps.set_email_hash Hcps.set_phone_encrypted
    Hcps.set_phone_hash Hcps.set_sub_specialty Hcps.set_title Hcps.set_years_of_practice]
    in Htype.
  apply Forall_cons in Htype as [_ Htype].
  apply Forall_cons in Htype as [_ Htype].
  apply Forall_cons in Htype as [Hfirst Htype].
  apply Forall_cons in Htype as [_ Htype].
  apply Forall_cons in Htype as [Hlast Htype].
  apply Forall_cons in Htype as [_ Htype].
  apply Forall_cons in Htype as [Hmail Htype].
  apply Forall_cons in Htype as [_ Htype].
  apply Forall_cons in Htype as [Htel _].
  unfold Hcps.stored, update_assignments, within_columns, Hcps.nullable.
  cbn [Hcps.set_external_id Hcps.set_first_name_encrypted
    Hcps.set_first_name_hash Hcps.set_last_name_encrypted Hcps.set_last_name_hash
    Hcps.set_email_encrypted Hcps.set_email_hash Hcps.set_phone_encrypted
    Hcps.set_phone_hash Hcps.set_specialty Hcps.set_sub_specialty Hcps.set_influence_level
    Hcps.set_primary_institution_id Hcps.set_territory_id Hcps.set_title
    Hcps.set_years_of_practice Hcps.set_languages Hcps.set_therapeutic_areas
    Hcps.set_metadata Hcps.set_is_active Hcps.set_updated_at Hcps.set_deleted_at
    u_firstName u_lastName u_email u_phone u_specialty u_subSpecialty u_influenceLevel
    u_primaryInstitutionId u_territoryId u_title u_yearsOfPractice u_languages
    u_therapeuticAreas u_metadata].
  f_equal.
  - by apply (fit_ciphertext 255 "first_name_encrypted").
  - destruct (u_firstName input); [|done]. cbn.
    by rewrite fit_short by (by rewrite hashForIndex_length).
  - by apply (fit_ciphertext 255 "last_name_encrypted").
  - destruct (u_lastName input); [|done]. cbn.
    by rewrite fit_short by (by rewrite hashForIndex_length).
  - destruct (u_email input) as [v|]; [|done]. cbn in Hmail |- *. f_equal.
    by apply (fit_ciphertext 255 "email_encrypted").
  - destruct (u_email input) as [[|c v]|]; cbn; [done| |done].
    by rewrite fit_short by (by rewrite hashForIndex_length).
  - destruct (u_phone input) as [v|]; [|done]. cbn in Htel |- *. f_equal.
    by apply (fit_ciphertext 255 "phone_encrypted").
  - destruct (u_phone input) as [[|c v]|]; cbn; [done| |done].
    by rewrite fit_short by (by rewrite hashForIndex_length).
  - by destruct (u_subSpecialty input).
  - by destruct (u_title input).
Qed.

(** What a successful [update] leaves in the store. *)
Lemma update_Ok id input env w hcp w' :
  update id input env w = (Ok hcp, w') ->
  exists row,
    hcps w !! id = Some row
    /\ Hcps.deleted_at row = None
    /\ key_configured env
    /\ accepted w (update_assignments (config env) (clock env) input)
    /\ hcps w'
       = <[id := Hcps.apply (update_assignments (config env) (clock env)
                               (within_columns input)) row]> (hcps w)
    /\ consents w' = consents w
    /\ audit_log w' = audit_log w
    /\ institutions w' = institutions w
    /\ territories w' = territories w
    /\ statements w' = statements w ++ [Select T_hcps; Update T_hcps; Select T_hcps]
    /\ HCPRecord.specialty hcp
       = Hcps.specialty (Hcps.apply (update_assignments (config env) (clock env)
                                       (within_columns input)) row)
    /\ HCPRecord.influenceLevel hcp
       = Hcps.influence_level
           (Hcps.apply (update_assignments (config env) (clock env)
                          (within_columns input)) row).
Proof.
  intros H. pose proof (update_Ok_key _ _ _ _ _ _ H) as Hkey.
  unfold update, bind in H.
  destruct (unavailable env T_hcps) eqn:Hup.
  { unfold hcps_where_id_live_first, bind in H. by rewrite issue_down in H. }
  rewrite hcps_where_id_live_first_run in H by done.
  destruct (hcps w !! id) as [row|] eqn:Hrow; [|done].
  destruct (Hcps.deleted_at row) eqn:Hdel; [done|]. cbn [is_null] in H.
  unfold ask at 1 in H.
  rewrite !encrypt_if_given_run, !encrypt_or_null_if_given_run in H by done.
  change (hcps_where_id_update id ?u env ?w1)
    with (hcps_where_id_update id (update_assignments (config env) (clock env) input) env w1)
    in H.
  destruct (hcps_where_id_update id _ env (logged (Select T_hcps) w))
    as [[[]|e] w1] eqn:Hupd; [|done].
  apply (hcps_where_id_update_Ok id _ row) in Hupd as (_ & Hacc & ->); [|done..].
  rewrite (stored_update_assignments _ _ _ (proj1 Hacc)) in H.
  apply getById_Ok in H as (row' & Hrow' & _ & _ & _ & -> & _ & Hs & Hi).
  cbn [hcps with_hcps logged] in Hrow'. rewrite lookup_insert_eq in Hrow'.
  injection Hrow' as <-.
  exists row. do 4 (split; [done|]).
  split; [done|]. split; [done|]. split; [done|]. split; [done|]. split; [done|].
  split; [|by split].
  cbn [statements with_hcps logged]. by rewrite <- !app_assoc.
Qed.

End Inversion.

(** *** Index tokens *)

Lemma ascii_lower_char_variant a b :
  case_variant_char a b -> Js.ascii_lower_char a = Js.ascii_lower_char b.
Proof.
  assert (Hlow : forall c, is_upper c ->
            Js.ascii_lower_char (ascii_of_N (N_of_ascii c + 32))
            = Js.ascii_lower_char c).
  { intros c [Hlo Hhi]. unfold Js.ascii_lower_char.
    rewrite N_ascii_embedding by lia.
    replace ((65 <=? N_of_ascii c + 32) && (N_of_ascii c + 32 <=? 90))%N with false
      by (symmetry; apply andb_false_iff; right; apply N.leb_gt; lia).
    replace ((65 <=? N_of_ascii c) && (N_of_ascii c <=? 90))%N with true; [done|].
    symmetry. apply andb_true_iff. split; apply N.leb_le; lia. }
  destruct 1 as [c|c Hc|c Hc]; [done|..]; by rewrite Hlow.
Qed.

Lemma ascii_lower_variant s t :
  case_variant s t -> Js.ascii_lower s = Js.ascii_lower t.
Proof.
  induction 1 as [|a b s t Hab _ IH]; simpl; [done|].
  by rewrite (ascii_lower_char_variant a b Hab), IH.
Qed.

(** A case variant of an ASCII string is an ASCII string. *)
Lemma is_ascii_variant s t : case_variant s t -> Js.is_ascii s = Js.is_ascii t.
Proof.
  induction 1 as [|a b s t Hab _ IH]; simpl; [done|]. rewrite IH. f_equal.
  destruct Hab as [c|c [Hlo Hhi]|c [Hlo Hhi]]; [done|..];
    rewrite N_ascii_embedding by lia;
    [transitivity true; [|symmetry]..]; apply N.ltb_lt; lia.
Qed.

Section Tokens.
Context {aes : CryptoJS_AES} {js : Js.Engine}.

(** On strings of ASCII characters, to differ in the case of the
    letters A to Z is to differ in case only. *)
Lemma case_variant_differ_in_case_only a b :
  Js.is_ascii a = true -> case_variant a b -> differ_in_case_only a b.
Proof.
  intros Ha Hab. unfold differ_in_case_only.
  rewrite !Js.toLowerCase_ascii; [by apply ascii_lower_variant|..]; [|done].
  by rewrite <- (is_ascii_variant a b).
Qed.

(** C8, amended.  On [create] and on [update] the tokens stored for
    the first name, the last name and the e-mail are SHA-256 over the
    lower-cased value followed by the encryption key, so that under one
    key two subjects created with names or e-mails that differ only in
    letter case are stored with the same token; the token stored for
    the phone is SHA-256 over the value as given followed by the key,
    without lower-casing.  Lower-casing is the engine's [toLowerCase],
    and to differ only in letter case is to be lower-cased to the same
    string; strings of ASCII characters that differ in the case of the
    letters A to Z do so under every engine. *)
Theorem index_tokens_by_field :
  let digest := fun cfg v => SHA256.hex (String.append v (encryption_key cfg)) in
  (forall input env w hcp w',
      create input env w = (Ok hcp, w') ->
      exists row,
        hcps w' !! uuid_service env = Some row
        /\ Hcps.first_name_hash row
           = digest (config env) (Js.toLowerCase (c_firstName input))
        /\ Hcps.last_name_hash row
           = digest (config env) (Js.toLowerCase (c_lastName input))
        /\ Hcps.email_hash row
           = (fun v => digest (config env) (Js.toLowerCase v)) <$> Js.truthy (c_email input)
        /\ Hcps.phone_hash row = digest (config env) <$> Js.truthy (c_phone input))
  /\ (forall id input env w hcp w',
        update id input env w = (Ok hcp, w') ->
        exists row,
          hcps w' !! id = Some row
          /\ (forall v, u_firstName input = Some v ->
                Hcps.first_name_hash row = digest (config env) (Js.toLowerCase v))
          /\ (forall v, u_lastName input = Some v ->
                Hcps.last_name_hash row = digest (config env) (Js.toLowerCase v))
          /\ (forall v, u_email input = Some v ->
                Hcps.email_hash row
                = (fun s => digest (config env) (Js.toLowerCase s)) <$> Js.truthy (Some v))
          /\ (forall v, u_phone input = Some v ->
                Hcps.phone_hash row = digest (config env) <$> Js.truthy (Some v)))
  /\ (forall input1 input2 env1 env2 w1 w2 hcp1 hcp2 w1' w2' row1 row2,
        encryption_key (config env1) = encryption_key (config env2) ->
        create input1 env1 w1 = (Ok hcp1, w1') ->
        create input2 env2 w2 = (Ok hcp2, w2') ->
        hcps w1' !! uuid_service env1 = Some row1 ->
        hcps w2' !! uuid_service env2 = Some row2 ->
        (differ_in_case_only (c_firstName input1) (c_firstName input2) ->
         Hcps.first_name_hash row1 = Hcps.first_name_hash row2)
        /\ (differ_in_case_only (c_lastName input1) (c_lastName input2) ->
            Hcps.last_name_hash row1 = Hcps.last_name_hash row2)
        /\ (forall e1 e2,
              Js.truthy (c_email input1) = Some e1 ->
              Js.truthy (c_email input2) = Some e2 ->
              differ_in_case_only e1 e2 ->
              Hcps.email_hash row1 = Hcps.email_hash row2))
  /\ (forall a b, Js.is_ascii a = true -> case_variant a b -> differ_in_case_only a b).
Proof.
  intros digest. split; [|split; [|split]].
  - intros input env w hcp w' Hrun.
    apply create_Ok in Hrun as (_ & _ & _ & _ & row & -> & Hfields).
    exists row. by rewrite lookup_insert_eq.
  - intros id input env w hcp w' Hrun.
    apply update_Ok in Hrun as (row & _ & _ & _ & _ & -> & _).
    eexists. rewrite lookup_insert_eq. split; [reflexivity|].
    cbn [Hcps.apply update_assignments within_columns Hcps.assign
      Hcps.first_name_hash Hcps.last_name_hash Hcps.email_hash Hcps.phone_hash
      Hcps.set_first_name_hash Hcps.set_last_name_hash Hcps.set_email_hash
      Hcps.set_phone_hash u_firstName u_lastName u_email u_phone].
    repeat split; intros v ->; done.
  - intros input1 input2 env1 env2 w1 w2 hcp1 hcp2 w1' w2' row1 row2
      Hkey Hrun1 Hrun2 Hrow1 Hrow2.
    apply create_Ok in Hrun1 as (_ & _ & _ & _ & r1 & Hh1 & Hf1 & Hl1 & Hm1 & _).
    apply create_Ok in Hrun2 as (_ & _ & _ & _ & r2 & Hh2 & Hf2 & Hl2 & Hm2 & _).
    rewrite Hh1, lookup_insert_eq in Hrow1. rewrite Hh2, lookup_insert_eq in Hrow2.
    injection Hrow1 as ->. injection Hrow2 as ->.
    rewrite Hf1, Hf2, Hl1, Hl2, Hm1, Hm2. unfold hashForIndex, differ_in_case_only.
    rewrite Hkey. split; [by intros ->|]. split; [by intros ->|].
    intros e1 e2 -> -> Hsame. cbn [fmap option_fmap option_map]. by rewrite Hsame.
  - apply case_variant_differ_in_case_only.
Qed.

End Tokens.

(** C8, witness: Alice's tokens, and two spellings of her first name. *)
Lemma index_tokens_by_field_witness :
  exists hcp w' row,
    @create XorCipher.instance AsciiEngine.instance
      Sample.alice (Sample.env 1000 "h-1" "a-1") Sample.empty
    = (Ok hcp, w')
    /\ hcps w' !! "h-1" = Some row
    /\ Hcps.first_name_hash row
       = "83ddfb12819c699009c068620b00c249e05ea4191ea59b16822c08afa0c317a9"
    /\ Hcps.email_hash row = Some (hashForIndex Sample.cfg "a@x.com")
    /\ Hcps.phone_hash row = Some (hashForIndex Sample.cfg "555-CALL")
    /\ case_variant "Alice" "aLICE"
    /\ @differ_in_case_only AsciiEngine.instance "Alice" "aLICE".
Proof.
  assert (Hvariant : case_variant "Alice" "aLICE").
  { constructor; [apply (upper_lower "A"%char); by vm_compute|].
    constructor; [apply (lower_upper "L"%char); by vm_compute|].
    constructor; [apply (lower_upper "I"%char); by vm_compute|].
    constructor; [apply (lower_upper "C"%char); by vm_compute|].
    constructor; [apply (lower_upper "E"%char); by vm_compute|].
    constructor. }
  destruct (@create XorCipher.instance AsciiEngine.instance
              Sample.alice (Sample.env 1000 "h-1" "a-1")
              Sample.empty) as [[hcp|e] w'] eqn:Hrun;
    [|vm_compute in Hrun; discriminate Hrun].
  pose proof (@index_tokens_by_field XorCipher.instance AsciiEngine.instance) as H.
  cbv zeta in H. destruct H as (Hcreate & _ & _ & Hcase).
  destruct (Hcreate _ _ _ _ _ Hrun) as (row & Hrow & Hfirst & _ & Hmail & Htel).
  exists hcp, w', row.
  split; [reflexivity|]. split; [exact Hrow|].
  split; [rewrite Hfirst; vm_compute; reflexivity|].
  split; [rewrite Hmail; vm_compute; reflexivity|].
  split; [rewrite Htel; vm_compute; reflexivity|].
  split; [exact Hvariant|].
  apply Hcase; [reflexivity|exact Hvariant].
Defined.

(** C8, counterexample.  Alice was created with the phone number
    [555-CALL]; the token stored is the digest of that value, not the
    digest of its lower-cased form, and the two digests differ. *)
Lemma phone_token_counterexample :
  c_phone Sample.alice = Some "555-CALL"
  /\ @Js.toLowerCase AsciiEngine.instance "555-CALL" = "555-call"
  /\ Hcps.phone_hash <$> hcps Sample.w1 !! "h-1"
     = Some (Some "2f8d2721416e0027f5ae08ba4316639bc3dc4cf97e04a0b0398c57f62594d608")
  /\ hashForIndex Sample.cfg "555-CALL"
     = "2f8d2721416e0027f5ae08ba4316639bc3dc4cf97e04a0b0398c57f62594d608"
  /\ hashForIndex Sample.cfg "555-call"
     = "53b8cf98d9189636f76f3abba8027a749896ed312352305281b22f0944a56bf0".
Proof. vm_compute. repeat split. Qed.

(** *** Update *)

Lemma truthy_Some o c : Js.truthy o = Some c -> o = Some c.
Proof. destruct o as [[|a s]|]; simpl; intros H; by simplify_eq. Qed.

Lemma assign_default {A} (o : option A) (old : A) : Hcps.assign o old = default old o.
Proof. by destruct o. Qed.

Lemma fresh_audit_id_same env w w1 :
  audit_log w1 = audit_log w -> fresh_audit_id env w -> fresh_audit_id env w1.
Proof. unfold fresh_audit_id. by intros ->. Qed.

Lemma accepted_same w w1 u :
  institutions w1 = institutions w -> territories w1 = territories w ->
  accepted w u -> accepted w1 u.
Proof.
  intros Hi Ht (? & ? & Hfk). split; [done|]. split; [done|].
  unfold dangling in *. by rewrite Hi, Ht.
Qed.

Section Update.
Context {aes : CryptoJS_AES} {contract : AES_inverse aes} {js : Js.Engine}.

Lemma decryptPII_encrypted cfg v :
  not_configured (encryption_key cfg) = false ->
  decryptPII cfg (AES_encrypt (encryption_key cfg) (encryption_iv cfg) v) = Ok v.
Proof. intros Hkey. unfold decryptPII. by rewrite Hkey, AES_decrypt_encrypt. Qed.

(** Re-encrypted columns decrypt by the cipher's contract, the others
    as they did before. *)
Lemma decryptable_after_update cfg now input row :
  decryptable cfg row ->
  decryptable cfg (Hcps.apply (update_assignments cfg now input) row).
Proof.
  intros Hdec. pose proof (decryptable_key_configured cfg row Hdec) as Hkey.
  destruct Hdec as (H1 & H2 & H3 & H4).
  unfold decryptable; simpl. split; [|split; [|split]].
  - destruct (u_firstName input); simpl; [|done].
    eexists. by apply decryptPII_encrypted.
  - destruct (u_lastName input); simpl; [|done].
    eexists. by apply decryptPII_encrypted.
  - destruct (u_email input) as [v|]; simpl; [|done].
    intros c Hc. apply truthy_Some in Hc.
    destruct v; simpl in Hc; simplify_eq.
    eexists. by apply decryptPII_encrypted.
  - destruct (u_phone input) as [v|]; simpl; [|done].
    intros c Hc. apply truthy_Some in Hc.
    destruct v; simpl in Hc; simplify_eq.
    eexists. by apply decryptPII_encrypted.
Qed.

Lemma update_run id input env w row :
  unavailable env T_hcps = false ->
  hcps w !! id = Some row ->
  Hcps.deleted_at row = None ->
  decryptable (config env) row ->
  accepted w (update_assignments (config env) (clock env) input) ->
  exists hcp,
    update id input env w
    = (Ok hcp,
       logged (Select T_hcps)
         (with_hcps
            (<[id := Hcps.apply (update_assignments (config env) (clock env)
                                   (within_columns input)) row]>
               (hcps w))
            (logged (Update T_hcps) (logged (Select T_hcps) w)))).
Proof.
  intros Hup Hrow Hdel Hdec Hacc.
  pose proof (decryptable_key_configured _ _ Hdec) as Hkey.
  unfold update, bind.
  rewrite hcps_where_id_live_first_run by done. rewrite Hrow, Hdel. cbn [is_null].
  unfold ask at 1.
  rewrite !encrypt_if_given_run, !encrypt_or_null_if_given_run by done.
  change (hcps_where_id_update id ?u env ?w1)
    with (hcps_where_id_update id (update_assignments (config env) (clock env) input) env w1).
  rewrite (hcps_where_id_update_run id _ row);
    [|done|exact Hrow|done|by apply (accepted_same w)].
  rewrite (stored_update_assignments _ _ _ (proj1 Hacc)).
  set (row' := Hcps.apply (update_assignments (config env) (clock env)
                             (within_columns input)) row).
  set (w1 := with_hcps (<[id := row']> (hcps w))
               (logged (Update T_hcps) (logged (Select T_hcps) w))).
  assert (Hrow' : hcps w1 !! id = Some row') by apply lookup_insert_eq.
  assert (Hdec' : decryptable (config env) row')
    by apply (decryptable_after_update (config env) (clock env) _ row Hdec).
  destruct (getById_run id env w1 row' Hup Hrow' Hdel Hdec') as (hcp & Hget & _).
  exists hcp. exact Hget.
Qed.

(** C9, amended.  An update request that succeeds found the subject
    present and not soft-deleted.  In the row it leaves, each name pair
    is the ciphertext and lower-cased token of the supplied value, or
    what it was when none is supplied; likewise the e-mail and phone
    pairs (an empty value nulls the pair); every classification column
    has the supplied value, the sub-specialty and the title as their
    columns keep them, or what it had; [updated_at] is the time of the
    call; the identifier, external identifier, active flag, creation
    and deletion timestamps are what they were; the other rows and the
    consent rows are what they were.  One [update] audit entry is
    appended whose before and after states hold the specialty and
    influence level of the row before and after, and nothing else.
    The request succeeds when the subject is present and not
    soft-deleted, its stored ciphertexts decrypt under the configured
    key, the store is reachable and takes the new values, and the audit
    identifier is fresh.  For a subject absent or soft-deleted it
    answers [NotFound] after a single read. *)
Theorem update_frame_and_audit
    (req : Request) (id : UUID) (body : UpdateHCPInput) (env : Env) (w : World) :
  let enc := AES_encrypt (encryption_key (config env)) (encryption_iv (config env)) in
  let token := fun v => hashForIndex (config env) (Js.toLowerCase v) in
  (forall updated w',
      patch_hcps_id req id body env w = (Ok updated, w') ->
      exists row row',
        hcps w !! id = Some row
        /\ Hcps.deleted_at row = None
        /\ hcps w' = <[id := row']> (hcps w)
        /\ consents w' = consents w
        /\ Hcps.first_name_encrypted row'
           = default (Hcps.first_name_encrypted row) (enc <$> u_firstName body)
        /\ Hcps.first_name_hash row'
           = default (Hcps.first_name_hash row) (token <$> u_firstName body)
        /\ Hcps.last_name_encrypted row'
           = default (Hcps.last_name_encrypted row) (enc <$> u_lastName body)
        /\ Hcps.last_name_hash row'
           = default (Hcps.last_name_hash row) (token <$> u_lastName body)
        /\ Hcps.email_encrypted row'
           = default (Hcps.email_encrypted row)
               ((fun v => enc <$> Js.truthy (Some v)) <$> u_email body)
        /\ Hcps.email_hash row'
           = default (Hcps.email_hash row)
               ((fun v => token <$> Js.truthy (Some v)) <$> u_email body)
        /\ Hcps.phone_encrypted row'
           = default (Hcps.phone_encrypted row)
               ((fun v => enc <$> Js.truthy (Some v)) <$> u_phone body)
        /\ Hcps.phone_hash row'
           = default (Hcps.phone_hash row)
               ((fun v => hashForIndex (config env) <$> Js.truthy (Some v)) <$> u_phone body)
        /\ Hcps.specialty row' = default (Hcps.specialty row) (u_specialty body)
        /\ Hcps.sub_specialty row'
           = default (Hcps.sub_specialty row)
               ((fun v => Some (Pg.fit 100 v)) <$> u_subSpecialty body)
        /\ Hcps.influence_level row'
           = default (Hcps.influence_level row) (u_influenceLevel body)
        /\ Hcps.primary_institution_id row'
           = default (Hcps.primary_institution_id row) (Some <$> u_primaryInstitutionId body)
        /\ Hcps.territory_id row'
           = default (Hcps.territory_id row) (Some <$> u_territoryId body)
        /\ Hcps.title row'
           = default (Hcps.title row) ((fun v => Some (Pg.fit 50 v)) <$> u_title body)
        /\ Hcps.years_of_practice row'
           = default (Hcps.years_of_practice row) (Some <$> u_yearsOfPractice body)
        /\ Hcps.languages row' = default (Hcps.languages row) (u_languages body)
        /\ Hcps.therapeutic_areas row'
           = default (Hcps.therapeutic_areas row) (u_therapeuticAreas body)
        /\ Hcps.metadata row' = default (Hcps.metadata row) (u_metadata body)
        /\ Hcps.updated_at row' = clock env
        /\ Hcps.id row' = Hcps.id row
        /\ Hcps.external_id row' = Hcps.external_id row
        /\ Hcps.is_active row' = Hcps.is_active row
        /\ Hcps.created_at row' = Hcps.created_at row
        /\ Hcps.deleted_at row' = Hcps.deleted_at row
        /\ audit_log w'
           = audit_log w ++
             [ {| AuditLog.id := uuid_audit env;
                  AuditLog.user_id := Some (user_id req);
                  AuditLog.action := AuditAction.UPDATE;
                  AuditLog.entity_type := "hcp";
                  AuditLog.entity_id := Some id;
                  AuditLog.previous_state :=
                    Some [("specialty", JString (Hcps.specialty row));
                          ("influenceLevel", JString (Hcps.influence_level row))];
                  AuditLog.new_state :=
                    Some [("specialty", JString (Hcps.specialty row'));
                          ("influenceLevel", JString (Hcps.influence_level row'))];
                  AuditLog.ip_address := fst (getRequestMeta req);
                  AuditLog.user_agent := snd (getRequestMeta req);
                  AuditLog.metadata := [];
                  AuditLog.created_at := clock env |} ])
  /\ (forall row,
        hcps w !! id = Some row ->
        Hcps.deleted_at row = None ->
        decryptable (config env) row ->
        healthy env ->
        accepted w (update_assignments (config env) (clock env) body) ->
        fresh_audit_id env w ->
        exists updated w', patch_hcps_id req id body env w = (Ok updated, w'))
  /\ ((hcps w !! id = None
       \/ exists row t, hcps w !! id = Some row /\ Hcps.deleted_at row = Some t) ->
      unavailable env T_hcps = false ->
      patch_hcps_id req id body env w
      = (Err (NotFoundError "HCP" id), logged (Select T_hcps) w)).
Proof.
  intros enc token. split; [|split].
  - intros updated w' Hrun. unfold patch_hcps_id in Hrun.
    apply bind_Ok in Hrun as (previous & w1 & Hget & Hrun).
    apply bind_Ok in Hrun as (updated' & w2 & Hupd & Hrun).
    apply bind_Ok in Hrun as ([] & w3 & Haudit & Hrun).
    unfold ret in Hrun. injection Hrun as <- <-.
    apply getById_Ok in Hget as (row & Hrow & Hdel & _ & _ & -> & _ & Hps & Hpi).
    apply update_Ok in Hupd
      as (row0 & Hrow0 & _ & _ & _ & Hh & Hc & Hl & _ & _ & _ & Hus & Hui).
    cbn [hcps logged] in Hrow0. rewrite Hrow in Hrow0. injection Hrow0 as <-.
    apply createAuditEntry_Ok in Haudit as [_ ->].
    eexists row, _.
    split; [exact Hrow|]. split; [exact Hdel|].
    split; [exact Hh|]. split; [exact Hc|].
    cbn [audit_log with_audit_log logged]. rewrite Hl. cbn [audit_log logged].
    unfold audit_row. cbn [userId action entityType entityId previousState newState
      ipAddress userAgent metadata default].
    rewrite Hps, Hpi, Hus, Hui.
    cbn [Hcps.apply update_assignments within_columns
      Hcps.id Hcps.external_id Hcps.first_name_encrypted Hcps.first_name_hash
      Hcps.last_name_encrypted Hcps.last_name_hash Hcps.email_encrypted Hcps.email_hash
      Hcps.phone_encrypted Hcps.phone_hash Hcps.specialty Hcps.sub_specialty
      Hcps.influence_level Hcps.primary_institution_id Hcps.territory_id Hcps.title
      Hcps.years_of_practice Hcps.languages Hcps.therapeutic_areas Hcps.metadata
      Hcps.is_active Hcps.created_at Hcps.updated_at Hcps.deleted_at
      Hcps.set_external_id Hcps.set_first_name_encrypted
      Hcps.set_first_name_hash Hcps.set_last_name_encrypted Hcps.set_last_name_hash
      Hcps.set_email_encrypted Hcps.set_email_hash Hcps.set_phone_encrypted
      Hcps.set_phone_hash Hcps.set_specialty Hcps.set_sub_specialty Hcps.set_influence_level
      Hcps.set_primary_institution_id Hcps.set_territory_id Hcps.set_title
      Hcps.set_years_of_practice Hcps.set_languages Hcps.set_therapeutic_areas
      Hcps.set_metadata Hcps.set_is_active Hcps.set_updated_at Hcps.set_deleted_at
      u_firstName u_lastName u_email u_phone u_specialty u_subSpecialty u_influenceLevel
      u_primaryInstitutionId u_territoryId u_title u_yearsOfPractice u_languages
      u_therapeuticAreas u_metadata].
    rewrite !assign_default, <- !option_fmap_compose.
    by repeat split.
  - intros row Hrow Hdel Hdec Hup Hacc Hfresh.
    destruct (getById_run id env w row (Hup _) Hrow Hdel Hdec) as (previous & Hget & _).
    destruct (update_run id body env (logged (Select T_hcps) w) row (Hup _) Hrow Hdel Hdec)
      as (updated & Hupd); [by apply (accepted_same w)|].
    unfold patch_hcps_id, bind.
    rewrite Hget, Hupd.
    rewrite createAuditEntry_run; [|apply Hup|by eapply fresh_audit_id_same].
    by eexists _, _.
  - intros Hgone Hup. unfold patch_hcps_id, bind.
    by rewrite getById_NotFound.
Qed.

End Update.

(** C9, witness: Alice's first name is changed at 2000. *)
Lemma update_frame_and_audit_witness :
  exists row updated w',
    hcps Sample.w2 !! "h-1" = Some row
    /\ Hcps.deleted_at row = None
    /\ @decryptable XorCipher.instance Sample.cfg row
    /\ healthy (Sample.env 2000 "x" "a-5")
    /\ accepted Sample.w2
         (@update_assignments XorCipher.instance AsciiEngine.instance
            Sample.cfg 2000 Sample.rename_to_alicia)
    /\ fresh_audit_id (Sample.env 2000 "x" "a-5") Sample.w2
    /\ @patch_hcps_id XorCipher.instance AsciiEngine.instance
         Sample.req "h-1" Sample.rename_to_alicia
         (Sample.env 2000 "x" "a-5") Sample.w2 = (Ok updated, w')
    /\ HCPRecord.firstName updated = "Alicia"
    /\ (Hcps.updated_at <$> hcps w' !! "h-1") = Some 2000
    /\ consents w' = consents Sample.w2.
Proof.
  pose proof (@update_frame_and_audit XorCipher.instance XorCipher_inverse
                AsciiEngine.instance Sample.req "h-1" Sample.rename_to_alicia
                (Sample.env 2000 "x" "a-5") Sample.w2) as H.
  cbv zeta in H. destruct H as (Hframe & Hruns & _).
  eexists. eexists. eexists.
  split; [vm_compute; reflexivity|].
  split; [reflexivity|].
  split.
  { split; [eexists; vm_compute; reflexivity|].
    split; [eexists; vm_compute; reflexivity|].
    split; intros c Hc; vm_compute in Hc; injection Hc as <-;
      eexists; vm_compute; reflexivity. }
  split; [apply healthy_sample|].
  split; [repeat split; vm_compute; reflexivity|].
  split.
  { unfold fresh_audit_id. apply (bool_decide_unpack _). vm_compute. exact I. }
  split; [vm_compute; reflexivity|].
  split; [reflexivity|].
  match goal with
  | |- context [hcps ?w' !! _] =>
      destruct (Hframe _ w' ltac:(vm_compute; reflexivity))
        as (row & row' & _ & _ & Hh & Hc & Hfields)
  end.
  split; [|exact Hc].
  rewrite Hh, lookup_insert_eq. simpl. f_equal.
  apply Hfields.
Defined.

(** C9, counterexample.  An update of Alice that supplies only a new
    first name also changes a stored column it was not given,
    [updated_at]. *)
Lemma update_touches_updated_at_counterexample :
  let run := @patch_hcps_id XorCipher.instance AsciiEngine.instance
               Sample.req "h-1" Sample.rename_to_alicia
               (Sample.env 2000 "x" "a-5") Sample.w2 in
  succeeded run = true
  /\ Hcps.updated_at <$> hcps Sample.w2 !! "h-1" = Some 1000
  /\ Hcps.updated_at <$> hcps (final run) !! "h-1" = Some 2000.
Proof. vm_compute. repeat split. Qed.

(** *** The audit entry follows the mutation *)

Lemma oblivious_ret {A} (a : A) : oblivious (ret a).
Proof. by intros env w. Qed.

Lemma oblivious_throw {A} e : oblivious (@throw A e).
Proof. by intros env w. Qed.

Lemma oblivious_get : oblivious get.
Proof. by intros env w. Qed.

Lemma oblivious_put w0 : oblivious (put w0).
Proof. by intros env w. Qed.

Lemma oblivious_lift {A} (r : Config -> Result A) : oblivious (lift r).
Proof. by intros env w. Qed.

Lemma oblivious_bind {A B} (m : M A) (k : A -> M B) :
  oblivious m -> (forall a, oblivious (k a)) -> oblivious (bind m k).
Proof.
  intros Hm Hk env w. unfold bind. rewrite Hm.
  destruct (m env w) as [[a|e] w1]; [apply Hk|done].
Qed.

(** The continuation of [ask] may read the clock, the identifiers and
    the configuration, which [audit_down] keeps. *)
Lemma oblivious_bind_ask {B} (k : Env -> M B) :
  (forall e, oblivious (k e)) ->
  (forall e env w, k (audit_down e) env w = k e env w) ->
  oblivious (bind ask k).
Proof.
  intros Hk Hproj env w. unfold bind, ask. by rewrite Hk, Hproj.
Qed.

Lemma oblivious_issue s : stmt_table s <> T_audit_log -> oblivious (issue s).
Proof.
  intros Hs env w. unfold issue. simpl. by destruct (stmt_table s).
Qed.

Ltac oblivious_step :=
  lazymatch goal with
  | |- oblivious (bind ask _) =>
      apply oblivious_bind_ask; [intros ?|intros; reflexivity]
  | |- oblivious (bind _ _) => apply oblivious_bind; [|intros ?]
  | |- oblivious (ret _) => apply oblivious_ret
  | |- oblivious (throw _) => apply oblivious_throw
  | |- oblivious get => apply oblivious_get
  | |- oblivious (put _) => apply oblivious_put
  | |- oblivious (lift _) => apply oblivious_lift
  | |- oblivious (issue _) => apply oblivious_issue; discriminate
  | |- oblivious (match ?x with _ => _ end) => destruct x
  | |- oblivious _ => solve [auto with oblivious]
  end.

Ltac oblivious := repeat oblivious_step.

Create HintDb oblivious discriminated.

Section Oblivious.
Context {aes : CryptoJS_AES} {js : Js.Engine}.

Lemma oblivious_getById id : oblivious (getById id).
Proof.
  unfold getById, hcps_where_id_live_first, decryptHCPRow, decrypt_or_undefined, decrypt.
  oblivious.
Qed.

Hint Resolve oblivious_getById : oblivious.

Lemma oblivious_create input : oblivious (create input).
Proof. unfold create, hcps_insert, refuse, encrypt_or_null, encrypt. oblivious. Qed.

Lemma oblivious_update id input : oblivious (update id input).
Proof.
  unfold update, hcps_where_id_live_first, hcps_where_id_update, refuse,
    encrypt_if_given, encrypt_or_null_if_given, encrypt_or_null, encrypt.
  oblivious.
Qed.

Lemma oblivious_softDelete id : oblivious (softDelete id).
Proof.
  unfold softDelete, hcps_where_id_live_first, hcps_where_id_update, refuse. oblivious.
Qed.

Lemma oblivious_anonymize id : oblivious (anonymize id).
Proof.
  unfold anonymize, hcps_where_id_first, hcps_where_id_update, refuse, encrypt. oblivious.
Qed.

Lemma oblivious_recordConsent input by_ : oblivious (recordConsent input by_).
Proof. unfold recordConsent, consents_insert. oblivious. Qed.

End Oblivious.

(** A route of the [audited] shape that succeeds has appended the row
    built from the service's result; with the audit table unreachable
    it throws after the service has run, leaving the store the
    successful run leaves, less the audit row. *)
Lemma audited_Ok {A B} (service : M A) (params : A -> AuditParams) (respond : A -> B)
    env w b w' :
  oblivious service ->
  respects same_audit_log service ->
  audited service params respond env w = (Ok b, w') ->
  (exists x w1,
      service env w = (Ok x, w1)
      /\ b = respond x
      /\ audit_log w' = audit_log w ++ [audit_row (params x) env])
  /\ audited service params respond (audit_down env) w
     = (Err (DatabaseError T_audit_log ConnectionLost), with_audit_log (audit_log w) w').
Proof.
  intros Hobl Hsame Hrun. unfold audited, bind in *. rewrite Hobl.
  pose proof (Hsame env w) as Hlog. unfold final, same_audit_log in Hlog.
  destruct (service env w) as [[x|e] w1]; [|done]. simpl in Hlog.
  destruct (createAuditEntry (params x) env w1) as [[[]|e] w2] eqn:Haudit; [|done].
  apply createAuditEntry_Ok in Haudit as [_ ->].
  unfold ret in Hrun. simplify_eq. simpl. split.
  - exists x, w1. by rewrite Hlog.
  - unfold logged, with_audit_log. simpl. by rewrite Hlog.
Qed.

Lemma discard_Ok {A} (m : M A) env w w' :
  discard m env w = (Ok tt, w') -> exists a, m env w = (Ok a, w').
Proof.
  unfold discard, bind, ret. destruct (m env w) as [[a|e] w1]; [|done].
  intros ?. simplify_eq. by exists a.
Qed.

Lemma discard_Err {A} (m : M A) env w e w' :
  m env w = (Err e, w') -> discard m env w = (Err e, w').
Proof. unfold discard, bind. by intros ->. Qed.

Section AuditFollows.
Context {aes : CryptoJS_AES} {js : Js.Engine}.

(** The five mutating routes have the [audited] shape. *)
Lemma post_hcps_shape req body env w :
  post_hcps req body env w
  = audited (create body)
      (fun hcp =>
         {| userId := user_id req;
            action := AuditAction.CREATE;
            entityType := "hcp";
            entityId := Some (HCPRecord.id hcp);
            previousState := None;
            newState := Some [("specialty", JString (HCPRecord.specialty hcp));
                              ("influenceLevel", JString (HCPRecord.influenceLevel hcp))];
            ipAddress := fst (getRequestMeta req);
            userAgent := snd (getRequestMeta req);
            metadata := None |})
      (fun hcp => hcp) env w.
Proof. reflexivity. Qed.

Lemma patch_hcps_id_shape req id body env w :
  patch_hcps_id req id body env w
  = audited (do previousHcp <- getById id ;;
             do updatedHcp <- update id body ;;
             ret (previousHcp, updatedHcp))
      (fun x =>
         {| userId := user_id req;
            action := AuditAction.UPDATE;
            entityType := "hcp";
            entityId := Some id;
            previousState :=
              Some [("specialty", JString (HCPRecord.specialty (fst x)));
                    ("influenceLevel", JString (HCPRecord.influenceLevel (fst x)))];
            newState :=
              Some [("specialty", JString (HCPRecord.specialty (snd x)));
                    ("influenceLevel", JString (HCPRecord.influenceLevel (snd x)))];
            ipAddress := fst (getRequestMeta req);
            userAgent := snd (getRequestMeta req);
            metadata := None |})
      snd env w.
Proof.
  unfold patch_hcps_id, audited, bind.
  destruct (getById id env w) as [[previous|e] w1]; [|done].
  by destruct (update id body env w1) as [[updated|e] w2].
Qed.

Lemma delete_hcps_id_shape req id env w :
  delete_hcps_id req id env w
  = audited (softDelete id)
      (fun _ =>
         {| userId := user_id req;
            action := AuditAction.DELETE;
            entityType := "hcp";
            entityId := Some id;
            previousState := None;
            newState := None;
            ipAddress := fst (getRequestMeta req);
            userAgent := snd (getRequestMeta req);
            metadata := None |})
      (fun _ => tt) env w.
Proof.
  unfold delete_hcps_id, audited, bind.
  destruct (softDelete id env w) as [[[]|e] w1]; [|done].
  by destruct (createAuditEntry _ env w1) as [[[]|e] w2].
Qed.

Lemma post_hcps_id_anonymize_shape req id env w :
  post_hcps_id_anonymize req id env w
  = audited (anonymize id)
      (fun _ =>
         {| userId := user_id req;
            action := AuditAction.DELETE;
            entityType := "hcp";
            entityId := Some id;
            previousState := None;
            newState := None;
            ipAddress := fst (getRequestMeta req);
            userAgent := snd (getRequestMeta req);
            metadata := Some [("type", JString "gdpr_anonymization")] |})
      (fun _ => tt) env w.
Proof.
  unfold post_hcps_id_anonymize, audited, bind.
  destruct (anonymize id env w) as [[[]|e] w1]; [|done].
  by destruct (createAuditEntry _ env w1) as [[[]|e] w2].
Qed.

Lemma post_hcps_id_consents_shape req body env w :
  post_hcps_id_consents req body env w
  = audited (recordConsent body (user_id req))
      (fun consent =>
         {| userId := user_id req;
            action := AuditAction.CONSENT_CHANGE;
            entityType := "consent";
            entityId := Some (Consents.id consent);
            previousState := None;
            newState :=
              Some [("hcpId", JString (i_hcpId body));
                    ("type", JString (ConsentType.to_string (i_consentType body)));
                    ("status", JString (ConsentStatus.to_string (i_status body)))];
            ipAddress := fst (getRequestMeta req);
            userAgent := snd (getRequestMeta req);
            metadata := None |})
      (fun consent => consent) env w.
Proof. reflexivity. Qed.

Lemma recordConsent_id input by_ env w consent w1 :
  recordConsent input by_ env w = (Ok consent, w1) ->
  Consents.id consent = uuid_service env.
Proof.
  unfold recordConsent, bind, ask, ret.
  destruct (consents_insert _ env w) as [[[]|e] w2]; [|done].
  intros ?. by simplify_eq.
Qed.

(** C1, amended.  Each of the five mutating routes runs
    its mutation and then, as a separate statement, the audit insert.
    A request that succeeds has appended exactly one audit entry, with
    the action and the entity of the mutation.  Served with the audit
    table unreachable, the same request throws the audit failure, and
    the store it leaves is the one the successful request leaves with
    the audit log put back as it was: the mutation is committed
    without its audit entry. *)
Theorem audit_follows_mutation (op : Op) (env : Env) (w w' : World) :
  mutating op = true ->
  exec op env w = (Ok tt, w') ->
  (exists a,
      audit_log w' = audit_log w ++ [a]
      /\ AuditLog.action a = audited_action op
      /\ (AuditLog.entity_type a, AuditLog.entity_id a) = audited_entity env op)
  /\ exec op (audit_down env) w
     = (Err (DatabaseError T_audit_log ConnectionLost), with_audit_log (audit_log w) w').
Proof.
  pose proof (fun t => same_audit_log_issue (Select t)) as Hsel.
  destruct op as [req body| |req id body|req id|req id|req body| | | |];
    try discriminate; intros _ Hrun; simpl in *.
  - apply discard_Ok in Hrun as [hcp Hrun]. rewrite post_hcps_shape in Hrun.
    apply audited_Ok in Hrun as [(x & w1 & Hs & -> & Hlog) Hdown];
      [|apply oblivious_create
       |apply (respects_create _ Hsel same_audit_log_hcps_insert)].
    apply create_Ok in Hs as (_ & Hid & _).
    split.
    + eexists. split; [exact Hlog|]. simpl. by rewrite Hid.
    + apply discard_Err. by rewrite post_hcps_shape.
  - apply discard_Ok in Hrun as [hcp Hrun]. rewrite patch_hcps_id_shape in Hrun.
    apply audited_Ok in Hrun as [(x & w1 & Hs & -> & Hlog) Hdown].
    + split; [by eexists|].
      apply discard_Err. by rewrite patch_hcps_id_shape.
    + apply oblivious_bind; [apply oblivious_getById|intros ?].
      apply oblivious_bind; [apply oblivious_update|intros ?]. apply oblivious_ret.
    + apply respects_bind; [tc_solve|apply (respects_getById _ Hsel)|intros ?].
      apply respects_bind;
        [tc_solve|apply (respects_update _ Hsel same_audit_log_hcps_update)|intros ?].
      apply respects_ret; tc_solve.
  - rewrite delete_hcps_id_shape in Hrun.
    apply audited_Ok in Hrun as [(x & w1 & Hs & _ & Hlog) Hdown];
      [|apply oblivious_softDelete
       |apply (respects_softDelete _ Hsel same_audit_log_hcps_update)].
    split; [by eexists|]. by rewrite delete_hcps_id_shape.
  - rewrite post_hcps_id_anonymize_shape in Hrun.
    apply audited_Ok in Hrun as [(x & w1 & Hs & _ & Hlog) Hdown];
      [|apply oblivious_anonymize
       |apply (respects_anonymize _ Hsel same_audit_log_hcps_update)].
    split; [by eexists|]. by rewrite post_hcps_id_anonymize_shape.
  - apply discard_Ok in Hrun as [consent Hrun].
    rewrite post_hcps_id_consents_shape in Hrun.
    apply audited_Ok in Hrun as [(x & w1 & Hs & -> & Hlog) Hdown];
      [|apply oblivious_recordConsent
       |apply (respects_recordConsent _ same_audit_log_consents_insert)].
    apply recordConsent_id in Hs.
    split.
    + eexists. split; [exact Hlog|]. simpl. by rewrite Hs.
    + apply discard_Err. by rewrite post_hcps_id_consents_shape.
Qed.

End AuditFollows.

(** C1, witness: Alice's specialty is updated at 2000, with the audit table reachable and not. *)
Lemma audit_follows_mutation_witness :
  exists w',
    mutating (UpdateSubject Sample.req "h-1" Sample.to_oncology) = true
    /\ @exec XorCipher.instance AsciiEngine.instance (UpdateSubject Sample.req "h-1" Sample.to_oncology)
         (Sample.env 2000 "x" "a-5") Sample.w2 = (Ok tt, w')
    /\ @exec XorCipher.instance AsciiEngine.instance (UpdateSubject Sample.req "h-1" Sample.to_oncology)
         (audit_down (Sample.env 2000 "x" "a-5")) Sample.w2
       = (Err (DatabaseError T_audit_log ConnectionLost),
          with_audit_log (audit_log Sample.w2) w').
Proof.
  eexists. split; [reflexivity|].
  split; [vm_compute; reflexivity|].
  apply (@audit_follows_mutation XorCipher.instance AsciiEngine.instance
           (UpdateSubject Sample.req "h-1" Sample.to_oncology)
           (Sample.env 2000 "x" "a-5") Sample.w2).
  - reflexivity.
  - vm_compute. reflexivity.
Defined.

(** C1, counterexample.  Alice's specialty is updated while the audit
    table is unreachable: the request fails with the audit error, the
    audit log has no new entry, and the subject row carries the new
    specialty. *)
Lemma audit_failure_counterexample :
  let env := MkEnv Sample.cfg 2000 "x" "a-5" Sample.audit_log_down in
  let run := @exec XorCipher.instance AsciiEngine.instance
               (UpdateSubject Sample.req "h-1" Sample.to_oncology) env Sample.w2 in
  outcome run = Err (DatabaseError T_audit_log ConnectionLost)
  /\ audit_log (final run) = audit_log Sample.w2
  /\ Hcps.specialty <$> hcps Sample.w2 !! "h-1" = Some "cardiology"
  /\ Hcps.specialty <$> hcps (final run) !! "h-1" = Some "oncology".
Proof. vm_compute. repeat split. Qed.
